(** * Ecritoire: writing-style analysis and style-conditioned refinement

    A shallow embedding of the analytical core of the Ecritoire backend:

    - [services/ai/style_analyzer.py]   (modules [StyleAnalyzer] and
      [StyleAnalyzerRest])
    - [services/ai/content_generator.py] (modules [ContentGenerator],
      [Prompt] and [Feedback])
    - [services/ai/ollama_client.py], the text without the service
      (module [OllamaClient])
    - [controllers/samples.py] (modules [Samples] and [SamplesRest])
    - [controllers/generation.py], the statistics (module [Generation])

    Conventions of the embedding.

    - A Python [str] is a Rocq [string]; a character is a code point below
      256, classified (whitespace, word character, letter, lower case) the
      way CPython classifies the Latin-1 range.
    - A Python [float] is an exact rational ([Q]): rounding is not modelled.
      [np.std] takes a square root, so the one value that depends on it (the
      sentiment consistency) is a real number ([R]).  The formality
      preference is the exception: it compares a mean with two thresholds,
      where the last bit decides, so there the numbers are binary64
      numbers and [np.mean] adds and divides as numpy does (module
      [Float64]).
    - A Python [dict] with computed keys is a [gmap]; a dict with a fixed
      set of keys (an analysis, a profile) is a record.
    - The text-completion service is external: code that calls it is a tree
      of requests ([ContentGenerator.Gen]). *)

From Stdlib Require Import String Ascii List ZArith QArith Qminmax Qround.
From Stdlib Require Import Reals Qreals Lra Lia.
From Stdlib Require Import Sorted Permutation SpecFloat.
From stdpp Require Import gmap strings pretty.
Import ListNotations.

Open Scope string_scope.

(** ** Python primitives *)

Module Py.

Definition ord (c : ascii) : nat := nat_of_ascii c.

Definition between (lo hi n : nat) : bool := (lo <=? n)%nat && (n <=? hi)%nat.

(** [str.isspace] and the regular-expression class [\s]. *)
Definition isspace (c : ascii) : bool :=
  let n := ord c in
  between 9 13 n || between 28 32 n || (n =? 133)%nat || (n =? 160)%nat.

(** [str.isalpha] on one character. *)
Definition isalpha (c : ascii) : bool :=
  let n := ord c in
  between 65 90 n || between 97 122 n
  || (n =? 170)%nat || (n =? 181)%nat || (n =? 186)%nat
  || between 192 214 n || between 216 246 n || between 248 255 n.

(** The regular-expression class [\w]: alphanumeric or underscore. *)
Definition isword (c : ascii) : bool :=
  let n := ord c in
  isalpha c || between 48 57 n || (n =? 95)%nat
  || (n =? 178)%nat || (n =? 179)%nat || (n =? 185)%nat || between 188 190 n.

(** [str.lower] on one character. *)
Definition lower_char (c : ascii) : ascii :=
  let n := ord c in
  if between 65 90 n || (between 192 222 n && negb (n =? 215)%nat)
  then ascii_of_nat (n + 32) else c.

Fixpoint lower (s : string) : string :=
  match s with
  | "" => ""
  | String c r => String (lower_char c) (lower r)
  end.

Definition len (s : string) : nat := String.length s.

(** [s[n:]] *)
Fixpoint drop (n : nat) (s : string) : string :=
  match n, s with
  | O, _ => s
  | S _, "" => ""
  | S k, String _ r => drop k r
  end.

(** [s[:n]] *)
Fixpoint take (n : nat) (s : string) : string :=
  match n, s with
  | O, _ => ""
  | S _, "" => ""
  | S k, String c r => String c (take k r)
  end.

Definition head (s : string) : option ascii :=
  match s with "" => None | String c _ => Some c end.

Fixpoint last (s : string) : option ascii :=
  match s with
  | "" => None
  | String c "" => Some c
  | String _ r => last r
  end.

(** [s.startswith(p)] *)
Fixpoint startswith (p s : string) : bool :=
  match p, s with
  | "", _ => true
  | String _ _, "" => false
  | String a p', String b s' => Ascii.eqb a b && startswith p' s'
  end.

(** [s.endswith(c)] for a one-character suffix. *)
Definition endswith_char (c : ascii) (s : string) : bool :=
  match last s with Some d => Ascii.eqb c d | None => false end.

(** [sub in s] *)
Fixpoint contains (sub s : string) : bool :=
  startswith sub s
  || match s with "" => false | String _ r => contains sub r end.

(** [c in s] for a character. *)
Fixpoint mem_char (c : ascii) (s : string) : bool :=
  match s with
  | "" => false
  | String d r => Ascii.eqb c d || mem_char c r
  end.

(** [s.count(sub)] for a non-empty [sub]: occurrences are counted from the
    left and do not overlap; [skip] is the number of characters still
    covered by the occurrence just counted. *)
Fixpoint count_from (sub : string) (skip : nat) (s : string) : nat :=
  match s with
  | "" => O
  | String _ r =>
      match skip with
      | S k => count_from sub k r
      | O => if startswith sub s
             then S (count_from sub (len sub - 1) r)
             else count_from sub 0 r
      end
  end.

Definition count (sub s : string) : nat := count_from sub 0 s.

Fixpoint lstrip (s : string) : string :=
  match s with
  | "" => ""
  | String c r => if isspace c then lstrip r else s
  end.

Fixpoint rstrip (s : string) : string :=
  match s with
  | "" => ""
  | String c r =>
      match rstrip r with
      | "" => if isspace c then "" else String c ""
      | r' => String c r'
      end
  end.

(** [s.strip()] *)
Definition strip (s : string) : string := rstrip (lstrip s).

Definition cons_word (w : string) (ws : list string) : list string :=
  match w with "" => ws | _ => w :: ws end.

(** The word being read at the head of [s], and the words after it. *)
Fixpoint split_scan (s : string) : string * list string :=
  match s with
  | "" => ("", [])
  | String c r =>
      let (w, ws) := split_scan r in
      if isspace c then ("", cons_word w ws) else (String c w, ws)
  end.

(** [s.split()]: the maximal runs of non-whitespace characters. *)
Definition split (s : string) : list string :=
  let (w, ws) := split_scan s in cons_word w ws.

(** [sep.join(parts)] *)
Definition join (sep : string) (parts : list string) : string :=
  String.concat sep parts.

(** The piece being read at the head of [s], and the pieces after it,
    for [re.split] on a one-character class. With [runs] a maximal run
    of separators is one separator (the pattern [[...]+]); without it
    every separator character splits (the pattern [[...]]). *)
Fixpoint re_split_scan (runs : bool) (sep : ascii -> bool) (s : string)
  : string * list string :=
  match s with
  | "" => ("", [])
  | String c r =>
      let (w, ws) := re_split_scan runs sep r in
      if sep c then
        if runs && match head r with Some d => sep d | None => false end
        then (w, ws)
        else ("", w :: ws)
      else (String c w, ws)
  end.

Definition re_split (runs : bool) (sep : ascii -> bool) (s : string)
  : list string :=
  let (w, ws) := re_split_scan runs sep s in w :: ws.

(** [re.sub(r'\s+', ' ', s)] *)
Fixpoint collapse_spaces (s : string) : string :=
  match s with
  | "" => ""
  | String c r =>
      if isspace c then
        if match head r with Some d => isspace d | None => false end
        then collapse_spaces r
        else String " " (collapse_spaces r)
      else String c (collapse_spaces r)
  end.

(** Regular-expression word boundary [\b] between two neighbours. *)
Definition is_word_opt (c : option ascii) : bool :=
  match c with Some d => isword d | None => false end.

Definition boundary (prev next : option ascii) : bool :=
  xorb (is_word_opt prev) (is_word_opt next).

(** The number of leading characters of [s] that [.] matches, at most
    [cap] of them. *)
Fixpoint dot_run (cap : nat) (s : string) : nat :=
  match cap, s with
  | S k, String c r => if Ascii.eqb c "010" then O else S (dot_run k r)
  | _, _ => O
  end.

(** True division of two integers. *)
Definition ratio (a b : nat) : Q :=
  (inject_Z (Z.of_nat a) / inject_Z (Z.of_nat b))%Q.

(** [a < b] on numbers. *)
Definition Qltb (a b : Q) : bool := negb (Qle_bool b a).

Definition qsum (xs : list Q) : Q := fold_right Qplus 0%Q xs.

(** [np.mean] of a non-empty list (of the empty list numpy returns [nan]
    with a warning; no caller below passes one). *)
Definition np_mean (xs : list Q) : Q :=
  (qsum xs / inject_Z (Z.of_nat (List.length xs)))%Q.

(** [np.std]: the square root of the mean of the squared deviations from
    the mean (the population standard deviation, [ddof = 0]). *)
Definition np_var (xs : list Q) : Q :=
  let arrmean := np_mean xs in
  np_mean (map (fun x => ((x - arrmean) * (x - arrmean))%Q) xs).

Definition np_std (xs : list Q) : R := sqrt (Q2R (np_var xs)).

(** The number of distinct strings of a list, [len(set(l))]. *)
Fixpoint distinct (l : list string) : list string :=
  match l with
  | [] => []
  | x :: r => if existsb (String.eqb x) r then distinct r else x :: distinct r
  end.

(** [sum(1 for w in ws if w in text)] *)
Definition hits (ws : list string) (text : string) : nat :=
  List.length (List.filter (fun w => contains w text) ws).

End Py.

(** ** Double precision *)

Module Float64.

(** A Python [float]: a binary64 number, rounded to the nearest, ties to
    even. *)
Definition float : Type := spec_float.

Definition prec : Z := 53.
Definition emax : Z := 1024.

Definition zero : float := S754_zero false.

(** [float(z)] *)
Definition of_Z (z : Z) : float := binary_normalize prec emax z 0 false.

Definition add : float -> float -> float := SFadd prec emax.
Definition div : float -> float -> float := SFdiv prec emax.

(** [x < y]; false when one of them is [nan]. *)
Definition ltb : float -> float -> bool := SFltb.

(** The double nearest to the fraction [q] of two integers below [2^53]:
    what Python's [n / d] gives for such integers, and what a decimal
    literal such as [0.7] denotes. *)
Definition of_Q (q : Q) : float :=
  div (of_Z (Qnum q)) (of_Z (Zpos (Qden q))).

(** The loop over the blocks of eight in numpy's pairwise summation:
    [r[j] += a[i + j]] for [n] blocks. *)
Fixpoint add_blocks (n : nat) (r a : list float) : list float * list float :=
  match n with
  | O => (r, a)
  | S n =>
      add_blocks n
        (map (fun '(x, y) => add x y) (combine r (firstn 8 a)))
        (skipn 8 a)
  end.

(** numpy's [DOUBLE_pairwise_sum]: fewer than 8 numbers are added from
    the left; up to 128 numbers are added in eight running sums, which
    are then combined, and what is left over of a last block is added
    from the left; more numbers are cut in two parts, the first of a
    length that is a multiple of 8.  [fuel] bounds the depth of the
    cutting; the length of the list is enough. *)
Fixpoint pairwise_sum (fuel : nat) (a : list float) : float :=
  let n := List.length a in
  if (n <? 8)%nat then fold_left add a zero
  else if (n <=? 128)%nat then
    let '(r, rest) := add_blocks (n / 8 - 1) (firstn 8 a) (skipn 8 a) in
    let r i := nth i r zero in
    let res :=
      add (add (add (r 0%nat) (r 1%nat)) (add (r 2%nat) (r 3%nat)))
          (add (add (r 4%nat) (r 5%nat)) (add (r 6%nat) (r 7%nat))) in
    fold_left add rest res
  else
    match fuel with
    | O => zero
    | S fuel =>
        let n2 := (n / 2 - (n / 2) mod 8)%nat in
        add (pairwise_sum fuel (firstn n2 a))
            (pairwise_sum fuel (skipn n2 a))
    end.

(** [np.sum] of a list of floats: the pairwise sum added to the
    initial 0. *)
Definition np_sum (a : list float) : float :=
  add zero (pairwise_sum (List.length a) a).

(** [np.mean] of a list of floats; [nan] for the empty list. *)
Definition np_mean (a : list float) : float :=
  div (np_sum a) (of_Z (Z.of_nat (List.length a))).

End Float64.

(** ** services/ai/style_analyzer.py *)

Module StyleAnalyzer.
Import Py.

(** *** Lexicons of [StyleAnalyzer.__init__] *)

Definition emotion_words : list (string * list string) :=
  [ ("joy", ["happy"; "excited"; "thrilled"; "delighted"; "cheerful";
             "elated"; "joyful"; "ecstatic"]);
    ("sadness", ["sad"; "depressed"; "melancholy"; "gloomy"; "sorrowful";
                 "heartbroken"; "dejected"]);
    ("anger", ["angry"; "furious"; "irritated"; "annoyed"; "rage"; "mad";
               "outraged"; "livid"]);
    ("fear", ["scared"; "afraid"; "terrified"; "anxious"; "worried";
              "nervous"; "frightened"]);
    ("love", ["love"; "adore"; "cherish"; "treasure"; "devoted";
              "affectionate"; "fond"]);
    ("surprise", ["surprised"; "shocked"; "amazed"; "astonished"; "stunned";
                  "bewildered"]) ].

Definition formal_words : list string :=
  [ "therefore"; "furthermore"; "consequently"; "moreover"; "nevertheless";
    "however"; "indeed"; "thus"; "hence"; "accordingly"; "subsequently" ].

Definition informal_words : list string :=
  [ "i'm"; "don't"; "can't"; "won't"; "isn't"; "aren't"; "wasn't"; "weren't";
    "gonna"; "wanna"; "gotta"; "yeah"; "ok"; "okay"; "totally"; "really" ].

Definition positive_words : list string :=
  [ "good"; "great"; "excellent"; "amazing"; "wonderful"; "fantastic";
    "love"; "like"; "enjoy"; "happy"; "pleased" ].

Definition negative_words : list string :=
  [ "bad"; "terrible"; "awful"; "horrible"; "hate"; "dislike"; "sad";
    "angry"; "disappointed"; "upset" ].

(** *** The analysis of one sample

    The keys [sentence_structures], [frequent_words], [frequent_phrases]
    and [pos_patterns] of the analysis, and the profile entries computed
    from them, are left out: nothing below reads them. *)

Record Punctuation := {
  exclamation_marks : nat;
  question_marks : nat;
  ellipsis : nat;
  semicolons : nat;
  colons : nat;
  dashes : nat;
  parentheses : nat;
  quotation_marks : nat
}.

Record Sentiment := {
  polarity : Q;
  subjectivity : Q
}.

Record Analysis := {
  word_count : nat;
  sentence_count : nat;
  avg_sentence_length : Q;
  avg_word_length : Q;
  flesch_reading_ease : Q;
  flesch_kincaid_grade : Q;
  unique_words : nat;
  vocabulary_richness : Q;
  punctuation_usage : Punctuation;
  emotional_language : gmap string (list string);
  formality_score : Q;
  sentiment : Sentiment;
  style_embedding : list Q
}.

Definition _clean_text (text : string) : string :=
  collapse_spaces (strip text).

Definition sentence_end (c : ascii) : bool :=
  mem_char c ".!?".

Definition nonempty (s : string) : bool :=
  match s with "" => false | _ => true end.

Definition _split_into_sentences (text : string) : list string :=
  let sentences := re_split true sentence_end text in
  map strip (List.filter (fun s => nonempty (strip s)) sentences).

Fixpoint syllable_scan (prev_was_vowel : bool) (word : string) : nat :=
  match word with
  | "" => O
  | String char r =>
      let is_vowel := mem_char char "aeiouy" in
      ((if is_vowel && negb prev_was_vowel then 1 else 0)
       + syllable_scan is_vowel r)%nat
  end.

Definition _count_syllables (word : string) : nat :=
  let word := lower word in
  let syllable_count := syllable_scan false word in
  let syllable_count :=
    if endswith_char "e" word && (1 <? syllable_count)%nat
    then (syllable_count - 1)%nat else syllable_count in
  Nat.max 1 syllable_count.

Definition total_length (words : list string) : nat :=
  list_sum (map len words).

Definition is_nil {A} (l : list A) : bool :=
  match l with [] => true | _ => false end.

Definition _calculate_flesch_score
    (text : string) (words sentences : list string) : Q :=
  if is_nil words || is_nil sentences then 50%Q
  else
    let total_syllables := list_sum (map _count_syllables words) in
    let avg_sentence_length :=
      ratio (List.length words) (List.length sentences) in
    let avg_syllables_per_word := ratio total_syllables (List.length words) in
    let score := (206.835 - 1.015 * avg_sentence_length
                  - 84.6 * avg_syllables_per_word)%Q in
    Qmax 0 (Qmin 100 score).

Definition _calculate_grade_level (flesch_score : Q) : Q :=
  (if Qle_bool 90 flesch_score then 5
   else if Qle_bool 80 flesch_score then 6
   else if Qle_bool 70 flesch_score then 7
   else if Qle_bool 60 flesch_score then 8.5
   else if Qle_bool 50 flesch_score then 10
   else if Qle_bool 30 flesch_score then 13
   else 16)%Q.

Definition _analyze_punctuation (text : string) : Punctuation :=
  {| exclamation_marks := count "!" text;
     question_marks := count "?" text;
     ellipsis := count "..." text;
     semicolons := count ";" text;
     colons := count ":" text;
     dashes := count "---" text + count "--" text;
     parentheses := count "(" text;
     quotation_marks := count (String "034" "") text + count "'" text |}.

(** The pattern [\bword\b.{0,20}] at the head of [s], whose left
    neighbour is [prev]: the number of characters matched. *)
Definition word_here (word : string) (prev : option ascii) (s : string)
  : option nat :=
  let after := drop (len word) s in
  if boundary prev (head s) && startswith word s
     && boundary (last word) (head after)
  then Some (len word + dot_run 20 after)%nat
  else None.

(** The pattern [.{0,20}\bword\b.{0,20}] at the head of [s]: the leading
    [.{0,20}] is greedy, so the longest lead is tried first and [k]
    counts down. *)
Fixpoint lead_try (word : string) (prev : option ascii) (s : string)
    (k : nat) : option nat :=
  let prev_k := match k with O => prev | S j => head (drop j s) end in
  match word_here word prev_k (drop k s) with
  | Some m => Some (k + m)%nat
  | None => match k with O => None | S j => lead_try word prev s j end
  end.

Definition context_here (word : string) (prev : option ascii) (s : string)
  : option nat :=
  lead_try word prev s (dot_run 20 s).

(** [re.findall(rf'.{{0,20}}\b{word}\b.{{0,20}}', s)]: matches are found
    from the left and do not overlap; [skip] is the number of characters
    still covered by the match just found. *)
Fixpoint findall_context (word : string) (prev : option ascii) (skip : nat)
    (s : string) : list string :=
  match s with
  | "" => []
  | String c r =>
      match skip with
      | S k => findall_context word (Some c) k r
      | O =>
          match context_here word prev s with
          | Some (S n) => take (S n) s :: findall_context word (Some c) n r
          | _ => findall_context word (Some c) 0 r
          end
      end
  end.

(** [emotions_found[emotion].extend(matches)] on a [defaultdict(list)]:
    the key exists afterwards, whatever [matches] holds. *)
Definition extend_entry (emotion : string) (matches : list string)
    (found : gmap string (list string)) : gmap string (list string) :=
  <[emotion := (default [] (found !! emotion) ++ matches)%list]> found.

Definition _analyze_emotional_language (text_lower : string)
  : gmap string (list string) :=
  fold_left
    (fun found '(emotion, words) =>
       fold_left
         (fun found word =>
            if contains word text_lower
            then extend_entry emotion
                   (findall_context word None 0 text_lower) found
            else found)
         words found)
    emotion_words ∅.

Definition _calculate_formality (text_lower : string) : Q :=
  let formal_count := hits formal_words text_lower in
  let informal_count := hits informal_words text_lower in
  if (formal_count + informal_count =? 0)%nat then 0.5%Q
  else ratio formal_count (formal_count + informal_count).

Definition _analyze_sentiment_simple (text_lower : string) : Sentiment :=
  let pos_count := hits positive_words text_lower in
  let neg_count := hits negative_words text_lower in
  let total_sentiment_words := (pos_count + neg_count)%nat in
  let polarity : Q :=
    if (total_sentiment_words =? 0)%nat then 0%Q
    else (inject_Z (Z.of_nat pos_count - Z.of_nat neg_count)
          / inject_Z (Z.of_nat total_sentiment_words))%Q in
  let subjectivity := Qmin 1 (ratio total_sentiment_words 100) in
  {| polarity := polarity; subjectivity := subjectivity |}.

(** [while len(features) < 32: features.append(0.0)]; [fuel] bounds the
    number of turns of the loop. *)
Fixpoint pad_features (fuel : nat) (features : list Q) : list Q :=
  if (List.length features <? 32)%nat then
    match fuel with
    | O => features
    | S fuel' => pad_features fuel' (features ++ [0%Q])%list
    end
  else features.

Definition _get_style_embedding_simple
    (text : string) (words sentences : list string) : list Q :=
  let features :=
    [ ratio (List.length words) 1000;
      ratio (List.length sentences) 100;
      (ratio (List.length words) (Nat.max (List.length sentences) 1) / 20)%Q;
      (ratio (total_length words) (Nat.max (List.length words) 1) / 10)%Q;
      ratio (count "!" text) 10;
      ratio (count "?" text) 10;
      _calculate_formality (lower text);
      ratio (List.length (distinct (map lower words)))
            (Nat.max (List.length words) 1) ] in
  let features := pad_features 32 features in
  firstn 32 features.

Definition isalpha_word (w : string) : bool :=
  nonempty w && forallb isalpha (list_ascii_of_string w).

Definition analyze_writing_sample (text : string) : Analysis :=
  let clean_text := _clean_text text in
  let words := split clean_text in
  let sentences := _split_into_sentences text in
  let word_count := List.length words in
  let sentence_count := List.length sentences in
  let avg_sentence_length := ratio word_count (Nat.max sentence_count 1) in
  let avg_word_length := ratio (total_length words) (Nat.max word_count 1) in
  let unique_words := distinct (map lower (List.filter isalpha_word words)) in
  let vocabulary_richness :=
    ratio (List.length unique_words) (Nat.max word_count 1) in
  let flesch_score := _calculate_flesch_score text words sentences in
  let grade_level := _calculate_grade_level flesch_score in
  {| word_count := word_count;
     sentence_count := sentence_count;
     avg_sentence_length := avg_sentence_length;
     avg_word_length := avg_word_length;
     flesch_reading_ease := flesch_score;
     flesch_kincaid_grade := grade_level;
     unique_words := List.length unique_words;
     vocabulary_richness := vocabulary_richness;
     punctuation_usage := _analyze_punctuation text;
     emotional_language := _analyze_emotional_language (lower text);
     formality_score := _calculate_formality (lower text);
     sentiment := _analyze_sentiment_simple (lower text);
     style_embedding := _get_style_embedding_simple text words sentences |}.

(** *** The profile of a user *)

Module Profile.

Record PunctuationStyle := {
  exclamation_marks : Q;
  question_marks : Q;
  ellipsis : Q;
  semicolons : Q;
  colons : Q;
  dashes : Q;
  parentheses : Q;
  quotation_marks : Q
}.

Record SentimentTendencies := {
  avg_polarity : Q;
  avg_subjectivity : Q;
  sentiment_consistency : R
}.

Record StyleProfile := {
  sample_count : nat;
  avg_sentence_length : Q;
  avg_word_length : Q;
  vocabulary_richness : Q;
  avg_readability : Q;
  grade_level : Q;
  formality_preference : string;
  vocabulary_level : string;
  emotional_expression_patterns : gmap string (list string);
  punctuation_style : PunctuationStyle;
  sentiment_tendencies : SentimentTendencies;
  style_embedding : list Q
}.

(** What [build_user_style_profile] returns: the empty dict [{}] or a
    dict with every key of a profile. *)
Inductive ProfileDict :=
| EmptyDict
| Dict (profile : StyleProfile).

End Profile.

(** The score that an analysis holds is a float: the quotient of the two
    counts, or 0.5. *)
Definition _determine_formality_preference (analyses : list Analysis)
  : string :=
  let avg_formality :=
    Float64.np_mean
      (map (fun a => Float64.of_Q (formality_score a)) analyses) in
  if Float64.ltb (Float64.of_Q 0.7) avg_formality then "formal"
  else if Float64.ltb avg_formality (Float64.of_Q 0.4) then "casual"
  else "neutral".

Definition _determine_vocabulary_level (analyses : list Analysis) : string :=
  let avg_grade_level := np_mean (map flesch_kincaid_grade analyses) in
  if Qltb 12 avg_grade_level then "advanced"
  else if Qltb 8 avg_grade_level then "intermediate"
  else "simple".

Definition _build_emotional_patterns (analyses : list Analysis)
  : gmap string (list string) :=
  fold_left
    (fun all_emotional_language analysis =>
       union_with (fun have contexts => Some (have ++ contexts)%list)
         all_emotional_language (emotional_language analysis))
    analyses ∅.

Definition _determine_punctuation_style (analyses : list Analysis)
  : Profile.PunctuationStyle :=
  let word_count_total := list_sum (map word_count analyses) in
  let rate (punct_type : Punctuation -> nat) : Q :=
    (ratio (list_sum (map (fun a => punct_type (punctuation_usage a)) analyses))
           (Nat.max word_count_total 1) * 1000)%Q in
  {| Profile.exclamation_marks := rate exclamation_marks;
     Profile.question_marks := rate question_marks;
     Profile.ellipsis := rate ellipsis;
     Profile.semicolons := rate semicolons;
     Profile.colons := rate colons;
     Profile.dashes := rate dashes;
     Profile.parentheses := rate parentheses;
     Profile.quotation_marks := rate quotation_marks |}.

Definition _determine_sentiment_tendencies (analyses : list Analysis)
  : Profile.SentimentTendencies :=
  let polarities := map (fun a => polarity (sentiment a)) analyses in
  let subjectivities := map (fun a => subjectivity (sentiment a)) analyses in
  {| Profile.avg_polarity := np_mean polarities;
     Profile.avg_subjectivity := np_mean subjectivities;
     Profile.sentiment_consistency := (1 - np_std polarities)%R |}.

(** [np.mean(embeddings, axis=0)]: the mean of every column. *)
Definition _create_average_embedding (analyses : list Analysis) : list Q :=
  let embeddings := map style_embedding analyses in
  match embeddings with
  | [] => []
  | first :: _ =>
      map (fun i => np_mean (map (fun e => nth i e 0%Q) embeddings))
          (seq 0 (List.length first))
  end.

Definition build_user_style_profile (sample_analyses : list Analysis)
  : Profile.ProfileDict :=
  if is_nil sample_analyses then Profile.EmptyDict
  else
    Profile.Dict
      {| Profile.sample_count := List.length sample_analyses;
         Profile.avg_sentence_length :=
           np_mean (map avg_sentence_length sample_analyses);
         Profile.avg_word_length :=
           np_mean (map avg_word_length sample_analyses);
         Profile.vocabulary_richness :=
           np_mean (map vocabulary_richness sample_analyses);
         Profile.avg_readability :=
           np_mean (map flesch_reading_ease sample_analyses);
         Profile.grade_level :=
           np_mean (map flesch_kincaid_grade sample_analyses);
         Profile.formality_preference :=
           _determine_formality_preference sample_analyses;
         Profile.vocabulary_level :=
           _determine_vocabulary_level sample_analyses;
         Profile.emotional_expression_patterns :=
           _build_emotional_patterns sample_analyses;
         Profile.punctuation_style :=
           _determine_punctuation_style sample_analyses;
         Profile.sentiment_tendencies :=
           _determine_sentiment_tendencies sample_analyses;
         Profile.style_embedding :=
           _create_average_embedding sample_analyses |}.

End StyleAnalyzer.

(** ** services/ai/content_generator.py *)

Module ContentGenerator.
Import Py.

(** The values a style-profile dict holds. *)
#[warnings="-register-all"]
Inductive PyVal :=
| PNone
| PNum (q : Q)
| PStr (s : string)
| PList (items : list PyVal)
| PDict (entries : list (string * PyVal)).

(** A run of Python code either returns or raises [TypeError]. *)
Inductive PyResult (A : Type) :=
| Returns (a : A)
| TypeError.
Arguments Returns {A} a.
Arguments TypeError {A}.

Definition bind {A B} (r : PyResult A) (k : A -> PyResult B) : PyResult B :=
  match r with
  | Returns a => k a
  | TypeError => TypeError
  end.

(** Code that calls the text-completion service: [GenerateText prompt
    model k] sends [prompt] to [ollama_client.generate_text] for [model]
    and goes on as [k] with the text that comes back. *)
Inductive Gen (A : Type) :=
| Ret (a : A)
| GenerateText (prompt model : string) (k : string -> Gen A).
Arguments Ret {A} a.
Arguments GenerateText {A} prompt model k.

(** Running a generation against a completion service. *)
Fixpoint run {A} (service : string -> string -> string) (g : Gen A) : A :=
  match g with
  | Ret a => a
  | GenerateText prompt model k => run service (k (service prompt model))
  end.

(** The requests a generation sends, in order. *)
Fixpoint requests {A} (service : string -> string -> string) (g : Gen A)
  : list (string * string) :=
  match g with
  | Ret _ => []
  | GenerateText prompt model k =>
      (prompt, model) :: requests service (k (service prompt model))
  end.

(** The default [model] of [OllamaClient.generate_text]. *)
Definition default_model : string := "llama2:3b-chat".

(** [style_profile.get(key, default)], read as a number for [<] and [>]
    against an [int]. *)
Definition get_number (style_profile : gmap string PyVal) (key : string)
    (default : Q) : PyResult Q :=
  match style_profile !! key with
  | None => Returns default
  | Some (PNum q) => Returns q
  | Some _ => TypeError
  end.

(** [style_profile.get(key, default) == s] *)
Definition get_is (style_profile : gmap string PyVal) (key : string)
    (default s : string) : bool :=
  match style_profile !! key with
  | None => String.eqb default s
  | Some (PStr v) => String.eqb v s
  | Some _ => false
  end.

Definition conjunctions : list string :=
  ["and"; "but"; "so"; "because"; "while"].

Definition sentence_end (c : ascii) : bool := mem_char c ".!?".

Definition nonempty (s : string) : bool :=
  match s with "" => false | _ => true end.

(** The [for i, word in enumerate(words)] loop of [_break_long_sentences]:
    the index at which it breaks, [i] being the index of the head. *)
Fixpoint find_break (i : nat) (words : list string) : option nat :=
  match words with
  | [] => None
  | word :: rest =>
      if existsb (String.eqb (lower word)) conjunctions && (8 <? i)%nat
      then Some i
      else find_break (S i) rest
  end.

(** What one stripped, non-empty sentence adds to [processed]. *)
Definition break_sentence (sentence : string) : list string :=
  let words := split sentence in
  if (25 <? List.length words)%nat then
    match find_break 0 words with
    | Some i =>
        let part1 := join " " (firstn i words) in
        let part2 := join " " (skipn (S i) words) in
        [part1; part2]
    | None => [sentence]
    end
  else [sentence].

Definition _break_long_sentences (text : string) : string :=
  let sentences := re_split false sentence_end text in
  let processed :=
    flat_map
      (fun sentence =>
         let sentence := strip sentence in
         if nonempty sentence then break_sentence sentence else [])
      sentences in
  join ". " processed ++ ".".

(** The [while i < len(sentences)] loop of [_combine_short_sentences]. *)
Fixpoint combine_scan (sentences : list string) : list string :=
  match sentences with
  | [] => []
  | current :: rest =>
      if (List.length (split current) <? 8)%nat then
        match rest with
        | next_sent :: rest' =>
            (current ++ ", and " ++ lower next_sent) :: combine_scan rest'
        | [] => [current]
        end
      else current :: combine_scan rest
  end.

Definition _combine_short_sentences (text : string) : string :=
  let sentences :=
    map strip
      (List.filter (fun s => nonempty (strip s))
              (re_split false sentence_end text)) in
  let processed := combine_scan sentences in
  join ". " processed ++ ".".

(** The pattern [\bword\b] with [re.IGNORECASE] at the head of [s], whose
    left neighbour is [prev]; [word] is in lower case. *)
Definition word_here_ci (word : string) (prev : option ascii) (s : string)
  : bool :=
  let matched := take (len word) s in
  boundary prev (head s)
  && String.eqb (lower matched) word
  && boundary (last matched) (head (drop (len word) s)).

(** [re.sub(rf'\b{word}\b', repl, s, flags=re.IGNORECASE)]: matches are
    replaced from the left; [skip] is the number of characters still
    covered by the match just replaced. *)
Fixpoint re_sub_word (word repl : string) (prev : option ascii) (skip : nat)
    (s : string) : string :=
  match s with
  | "" => ""
  | String c r =>
      match skip with
      | S k => re_sub_word word repl (Some c) k r
      | O =>
          if word_here_ci word prev s
          then repl ++ re_sub_word word repl (Some c) (len word - 1) r
          else String c (re_sub_word word repl (Some c) 0 r)
      end
  end.

Definition substitute (replacements : list (string * string)) (text : string)
  : string :=
  fold_left (fun text '(word, repl) => re_sub_word word repl None 0 text)
            replacements text.

Definition casual_replacements : list (string * string) :=
  [ ("therefore", "so"); ("however", "but"); ("furthermore", "also");
    ("consequently", "so"); ("nevertheless", "but still") ].

Definition formal_replacements : list (string * string) :=
  [ ("so", "therefore"); ("but", "however"); ("also", "furthermore");
    ("anyway", "nonetheless") ].

Definition _make_more_casual (text : string) : string :=
  substitute casual_replacements text.

Definition _make_more_formal (text : string) : string :=
  substitute formal_replacements text.

(** The formality pass at the end of [_refine_with_style]. *)
Definition adjust_formality (style_profile : gmap string PyVal)
    (generated_text : string) : string :=
  if get_is style_profile "formality_preference" "neutral" "casual"
  then _make_more_casual generated_text
  else if get_is style_profile "formality_preference" "neutral" "formal"
  then _make_more_formal generated_text
  else generated_text.

(** The sentence-length pass at the start of [_refine_with_style]. *)
Definition adjust_length (target_length : Q) (generated_text : string)
  : string :=
  if Qltb target_length 12 then _break_long_sentences generated_text
  else if Qltb 20 target_length then _combine_short_sentences generated_text
  else generated_text.

Definition _refine_with_style (generated_text : string)
    (style_profile : gmap string PyVal) : PyResult string :=
  bind (get_number style_profile "avg_sentence_length" 15)
    (fun target_length =>
       let generated_text := adjust_length target_length generated_text in
       let generated_text := adjust_formality style_profile generated_text in
       Returns (strip generated_text)).

Definition _generate_generic_content (prompt : string)
  : Gen (PyResult string) :=
  GenerateText ("Please help with this request: " ++ prompt) default_model
    (fun text => Ret (Returns text)).

Section Generation.

(** [_build_style_prompt] formats the profile into an instruction
    block. Only the fact that it is a function of the prompt, the profile
    and the context matters below, so it stays a parameter (what it raises
    on an ill-typed profile is not modelled).

    [if not user_style_profile] holds of [None] and of the empty dict. *)
Variable _build_style_prompt :
  string -> gmap string PyVal -> string -> string.

Definition generate_personalized_content (prompt : string)
    (user_style_profile : option (gmap string PyVal)) (context : string)
  : Gen (PyResult string) :=
  match user_style_profile with
  | None => _generate_generic_content prompt
  | Some profile =>
      if bool_decide (profile = ∅)
      then _generate_generic_content prompt
      else
        let style_prompt := _build_style_prompt prompt profile context in
        GenerateText style_prompt "llama2:7b-chat"
          (fun generated => Ret (_refine_with_style generated profile))
  end.

End Generation.

End ContentGenerator.

(** ** controllers/samples.py: [POST /api/samples/analyze] *)

Module Samples.
Import Py StyleAnalyzer.

Module WritingSample.
Record t := {
  id : nat;
  user_id : nat;
  title : string;
  content : string;
  analyzed : bool
}.
End WritingSample.

(** The row of [user_style_profiles]; the column [word_preferences] holds
    the word and phrase counters, which are left out, and the time stamps
    are not modelled. *)
Module UserStyleProfile.
Record t := {
  user_id : nat;
  vocabulary_level : string;
  formality_preference : string;
  sentence_complexity : Q;
  emotional_patterns : gmap string (list string);
  style_embedding : list Q
}.
End UserStyleProfile.

Record Db := {
  writing_samples : list WritingSample.t;
  user_style_profiles : list UserStyleProfile.t
}.

Record HTTPException := {
  status_code : nat;
  detail : string
}.

Module Response.
Record style_profile := {
  vocabulary_level : string;
  formality_preference : string;
  avg_sentence_length : Q;
  sample_count : nat;
  emotional_patterns : nat
}.
Record t := {
  success : bool;
  message : string;
  profile : style_profile
}.
End Response.

(** [round(x, 2)] of the exact rational: to the nearest hundredth, a tie
    going to the even one. *)
Definition round2 (x : Q) : Q :=
  let scaled := (x * 100)%Q in
  let below := Qfloor scaled in
  let rest := (scaled - inject_Z below)%Q in
  let nearest :=
    if Qltb rest 0.5 then below
    else if Qltb 0.5 rest then (below + 1)%Z
    else if Z.even below then below else (below + 1)%Z in
  (inject_Z nearest / 100)%Q.

Definition row_of (user : nat) (p : Profile.StyleProfile)
  : UserStyleProfile.t :=
  {| UserStyleProfile.user_id := user;
     UserStyleProfile.vocabulary_level := Profile.vocabulary_level p;
     UserStyleProfile.formality_preference := Profile.formality_preference p;
     UserStyleProfile.sentence_complexity := Profile.avg_sentence_length p;
     UserStyleProfile.emotional_patterns :=
       Profile.emotional_expression_patterns p;
     UserStyleProfile.style_embedding := Profile.style_embedding p |}.

(** The profile of the user is overwritten when there is one
    ([.first()]: the first row of the user) and added otherwise. *)
Fixpoint upsert (user : nat) (row : UserStyleProfile.t)
    (rows : list UserStyleProfile.t) : list UserStyleProfile.t :=
  match rows with
  | [] => [row]
  | r :: rest =>
      if (UserStyleProfile.user_id r =? user)%nat then row :: rest
      else r :: upsert user row rest
  end.

Definition mark_analyzed (user : nat) (s : WritingSample.t)
  : WritingSample.t :=
  if (WritingSample.user_id s =? user)%nat then
    {| WritingSample.id := WritingSample.id s;
       WritingSample.user_id := WritingSample.user_id s;
       WritingSample.title := WritingSample.title s;
       WritingSample.content := WritingSample.content s;
       WritingSample.analyzed := true |}
  else s.

(** [db.query(WritingSample).filter(WritingSample.user_id == user).all()] *)
Definition user_samples (user : nat) (db : Db) : list WritingSample.t :=
  List.filter (fun s => (WritingSample.user_id s =? user)%nat)
              (writing_samples db).

(** The endpoint: either it raises an [HTTPException] or it answers and
    commits the new state of the database. *)
Definition analyze_user_samples (current_user : nat) (db : Db)
  : HTTPException + (Response.t * Db) :=
  let samples := user_samples current_user db in
  if (List.length samples <? 1)%nat then
    inl {| status_code := 400;
           detail := "Need at least 1 writing sample to build style profile" |}
  else
    let sample_analyses :=
      map (fun sample => analyze_writing_sample (WritingSample.content sample))
          samples in
    match build_user_style_profile sample_analyses with
    | Profile.EmptyDict =>
        (* [style_profile['vocabulary_level']] raises [KeyError] on [{}] *)
        inl {| status_code := 500;
               detail := "Analysis failed: 'vocabulary_level'" |}
    | Profile.Dict style_profile =>
        inr
          ({| Response.success := true;
              Response.message :=
                "Analyzed " ++ pretty (List.length samples)
                ++ " writing samples and updated style profile";
              Response.profile :=
                {| Response.vocabulary_level :=
                     Profile.vocabulary_level style_profile;
                   Response.formality_preference :=
                     Profile.formality_preference style_profile;
                   Response.avg_sentence_length :=
                     round2 (Profile.avg_sentence_length style_profile);
                   Response.sample_count := List.length samples;
                   Response.emotional_patterns :=
                     size (Profile.emotional_expression_patterns
                             style_profile) |} |},
           {| writing_samples :=
                map (mark_analyzed current_user) (writing_samples db);
              user_style_profiles :=
                upsert current_user (row_of current_user style_profile)
                       (user_style_profiles db) |})
    end.

End Samples.

(** ** The specification's vocabulary *)

Module Spec.
Import Py StyleAnalyzer.

(** The grade levels of the specification. *)
Definition grade_levels : list Q := [5; 6; 7; 8.5; 10; 13; 16]%Q.

(** The step function of the specification: the grade of the first
    threshold that the score reaches, [16.0] when it reaches none. *)
Definition grade_steps : list (Q * Q) :=
  [ (90, 5); (80, 6); (70, 7); (60, 8.5); (50, 10); (30, 13) ]%Q.

Fixpoint step_function (steps : list (Q * Q)) (otherwise score : Q) : Q :=
  match steps with
  | [] => otherwise
  | (threshold, grade) :: rest =>
      if Qle_bool threshold score then grade
      else step_function rest otherwise score
  end.

(** The arithmetic mean and the population standard deviation of real
    numbers. *)
Definition rsum (xs : list R) : R := fold_right Rplus 0%R xs.

Definition mean (xs : list R) : R := (rsum xs / INR (List.length xs))%R.

Definition population_stdev (xs : list R) : R :=
  sqrt (mean (map (fun x => (x - mean xs) ^ 2)%R xs)).

(** An analysis that differs from [a] in its polarity only. *)
Definition with_polarity (p : Q) (a : Analysis) : Analysis :=
  {| word_count := word_count a;
     sentence_count := sentence_count a;
     avg_sentence_length := avg_sentence_length a;
     avg_word_length := avg_word_length a;
     flesch_reading_ease := flesch_reading_ease a;
     flesch_kincaid_grade := flesch_kincaid_grade a;
     unique_words := unique_words a;
     vocabulary_richness := vocabulary_richness a;
     punctuation_usage := punctuation_usage a;
     emotional_language := emotional_language a;
     formality_score := formality_score a;
     sentiment := {| polarity := p;
                     subjectivity := subjectivity (sentiment a) |};
     style_embedding := style_embedding a |}.

(** The formality preference and the sentiment consistency of what
    [build_user_style_profile] returns. *)
Definition formality_preference_of (d : Profile.ProfileDict) : option string :=
  match d with
  | Profile.Dict p => Some (Profile.formality_preference p)
  | Profile.EmptyDict => None
  end.

Definition consistency_of (d : Profile.ProfileDict) : option R :=
  match d with
  | Profile.Dict p =>
      Some (Profile.sentiment_consistency (Profile.sentiment_tendencies p))
  | Profile.EmptyDict => None
  end.

(** The stripped, non-empty sentences that the refiner reads in a text. *)
Definition refiner_sentences (text : string) : list string :=
  List.filter ContentGenerator.nonempty
    (map strip (re_split false ContentGenerator.sentence_end text)).

(** The word of [words] at index [i] is a conjunction of the fixed list. *)
Definition conjunction_at (words : list string) (i : nat) : Prop :=
  exists word, nth_error words i = Some word
               /\ In (lower word) ContentGenerator.conjunctions.

(** [i] is the first index above 8 at which [words] holds a conjunction;
    [words] holds no conjunction above index 8. *)
Definition first_break (words : list string) (i : nat) : Prop :=
  (8 < i)%nat /\ conjunction_at words i
  /\ forall j, (8 < j)%nat -> (j < i)%nat -> ~ conjunction_at words j.

Definition no_break (words : list string) : Prop :=
  forall j, (8 < j)%nat -> ~ conjunction_at words j.

(** Every character of [s] satisfies [P]. *)
Fixpoint all_chars (P : ascii -> bool) (s : string) : bool :=
  match s with
  | "" => true
  | String c r => P c && all_chars P r
  end.

(** Every character of every part satisfies [P]. *)
Definition all_parts (P : ascii -> bool) (parts : list string) : Prop :=
  Forall (fun part => all_chars P part = true) parts.

(** Neither an exclamation mark nor a question mark. *)
Definition no_mark (c : ascii) : bool :=
  negb (Ascii.eqb "!" c) && negb (Ascii.eqb "?" c).

End Spec.

(** ** Concrete inputs *)

Module Examples.
Import Py StyleAnalyzer.

(** A database in which user 7 has two samples and user 8 has none. *)
Definition two_samples : Samples.Db :=
  {| Samples.writing_samples :=
       [ {| Samples.WritingSample.id := 1;
            Samples.WritingSample.user_id := 7;
            Samples.WritingSample.title := "first";
            Samples.WritingSample.content := "Happy times. Great vibes.";
            Samples.WritingSample.analyzed := false |};
         {| Samples.WritingSample.id := 2;
            Samples.WritingSample.user_id := 7;
            Samples.WritingSample.title := "second";
            Samples.WritingSample.content :=
              "However, this remains problematic.";
            Samples.WritingSample.analyzed := false |} ];
     Samples.user_style_profiles := [] |}.

(** Nine formal markers and one informal marker: formality score 0.9. *)
Definition formal_text : string :=
  "therefore furthermore consequently moreover nevertheless however indeed thus hence yeah".

(** One formal marker and nine informal markers: formality score 0.1. *)
Definition casual_text : string :=
  "thus i'm don't can't won't isn't aren't wasn't weren't gonna".

(** Seven formal markers and three informal markers: formality score
    0.7. *)
Definition mostly_formal_text : string :=
  "therefore furthermore consequently moreover nevertheless however indeed yeah ok gonna".

(** One formal marker and no informal marker: formality score 1.0. *)
Definition formal_only_text : string := "Therefore we meet.".

(** A sentence of 27 words with "and" at index 10, and a short one. *)
Definition long_text : string :=
  "one two three four five six seven eight nine ten and twelve thirteen fourteen fifteen sixteen seventeen eighteen nineteen twenty w21 w22 w23 w24 w25 w26 w27! Is it short?".

Definition long_sentence : string :=
  "one two three four five six seven eight nine ten and twelve thirteen fourteen fifteen sixteen seventeen eighteen nineteen twenty w21 w22 w23 w24 w25 w26 w27".

(** A sentence of 26 words without a conjunction. *)
Definition plain_sentence : string :=
  "w1 w2 w3 w4 w5 w6 w7 w8 w9 w10 w11 w12 w13 w14 w15 w16 w17 w18 w19 w20 w21 w22 w23 w24 w25 w26".

(** Profiles that ask for short and for long sentences. *)
Definition short_profile : gmap string ContentGenerator.PyVal :=
  {[ "avg_sentence_length" := ContentGenerator.PNum 8 ]}.

Definition long_profile : gmap string ContentGenerator.PyVal :=
  <[ "formality_preference" := ContentGenerator.PStr "formal" ]>
    {[ "avg_sentence_length" := ContentGenerator.PNum 25 ]}.

End Examples.

(** ** Further vocabulary *)

Module Notions.
Import Py StyleAnalyzer.

(** A word that starts with a visible character does not occur in a
    blank text. *)
Definition starts_visible (w : string) : bool :=
  match head w with Some c => negb (isspace c) | None => false end.

(** [snippet] is a context of one of the lexicon words of [emotion]: the
    word with at most 20 characters before it and at most 20 characters
    after it. *)
Definition snippet_of (emotion snippet : string) : Prop :=
  exists words word before after,
    In (emotion, words) emotion_words /\ In word words
    /\ snippet = before ++ word ++ after
    /\ (len before <= 20)%nat
    /\ (len after <= 20)%nat.

(** The snippets found so far belong to their emotions and come from
    the text. *)
Definition snippets_sound (text : string) (found : gmap string (list string))
  : Prop :=
  forall emotion snippets,
    found !! emotion = Some snippets ->
    In emotion (map fst emotion_words)
    /\ Forall (fun snippet =>
                 contains snippet text = true /\ snippet_of emotion snippet)
              snippets.

(** [s.isascii()]: every character is below 128.  On such strings
    [str.lower], [str.isalpha] and the matching of [re.IGNORECASE] know
    the 52 letters only. *)
Definition isascii (s : string) : bool :=
  Spec.all_chars (fun c => (ord c <? 128)%nat) s.

(** The snippets of [emotion] in the analyses, in their order. *)
Definition contexts_of (emotion : string) (analyses : list Analysis)
  : list string :=
  flat_map (fun a => default [] (emotional_language a !! emotion)) analyses.

(** Two profiles agree on the entries that come from sums of whole
    numbers and of grade levels, which are exact in double precision:
    the sample count, the grade level, the vocabulary level and the
    punctuation style. *)
Definition same_exact_entries (p p' : Profile.StyleProfile) : Prop :=
  Profile.sample_count p = Profile.sample_count p'
  /\ (Profile.grade_level p == Profile.grade_level p')%Q
  /\ Profile.vocabulary_level p = Profile.vocabulary_level p'
  /\ Profile.punctuation_style p = Profile.punctuation_style p'.

End Notions.

(** ** services/ai/style_analyzer.py: the remaining keys of an analysis *)

Module StyleAnalyzerRest.
Import Py StyleAnalyzer.

Definition stop_words : list string :=
  [ "a"; "an"; "and"; "are"; "as"; "at"; "be"; "by"; "for"; "from";
    "has"; "he"; "in"; "is"; "it"; "its"; "of"; "on"; "that"; "the";
    "to"; "was"; "were"; "will"; "with"; "she"; "her"; "his"; "him";
    "they"; "them"; "their"; "we"; "us"; "our"; "you"; "your"; "i";
    "me"; "my"; "this"; "these"; "those"; "there"; "where"; "when";
    "what"; "why"; "how"; "can"; "could"; "would"; "should"; "may";
    "might"; "must"; "shall"; "do"; "does"; "did"; "have"; "had" ].

(** The conjunctions of the pattern of [_analyze_sentence_structures], in
    the order of its alternatives. *)
Definition clause_conjunctions : list string :=
  [ "and"; "but"; "or"; "so"; "yet"; "for"; "nor"; "because"; "although";
    "since"; "while"; "if"; "unless"; "when"; "where"; "after"; "before" ].

(** The pattern [\b(w1|w2|...)\b] at the head of [s], whose left
    neighbour is [prev]: the length of the first alternative that
    matches. *)
Definition alternative_here (words : list string) (prev : option ascii)
    (s : string) : option nat :=
  if boundary prev (head s) then
    option_map len
      (find (fun w =>
               startswith w s
               && boundary (last w) (head (drop (len w) s)))
            words)
  else None.

(** [len(re.findall(r'\b(w1|w2|...)\b', s))]: matches are counted from
    the left and do not overlap. *)
Fixpoint count_alternatives (words : list string) (prev : option ascii)
    (skip : nat) (s : string) : nat :=
  match s with
  | "" => O
  | String c r =>
      match skip with
      | S k => count_alternatives words (Some c) k r
      | O =>
          match alternative_here words prev s with
          | Some (S n) => S (count_alternatives words (Some c) n r)
          | _ => count_alternatives words (Some c) 0 r
          end
      end
  end.

Record SentenceStructures := {
  simple : nat;
  compound : nat;
  complex : nat;
  avg_clauses_per_sentence : Q
}.

(** The clauses of one sentence. *)
Definition clauses_of (sentence : string) : nat :=
  let conjunctions :=
    count_alternatives clause_conjunctions None 0 (lower sentence) in
  Nat.max 1 (conjunctions + 1).

Inductive Structure := Simple | Compound | Complex.

(** The branch that the loop of [_analyze_sentence_structures] takes for
    one sentence. *)
Definition structure_of (sentence : string) : Structure :=
  if (clauses_of sentence =? 1)%nat then Simple
  else if contains "and" (lower sentence) || contains "but" (lower sentence)
          || contains "or" (lower sentence)
  then Compound
  else Complex.

Definition tally (kind : Structure) (sentences : list string) : nat :=
  List.length
    (List.filter
       (fun sentence =>
          match structure_of sentence, kind with
          | Simple, Simple | Compound, Compound | Complex, Complex => true
          | _, _ => false
          end)
       sentences).

Definition _analyze_sentence_structures (sentences : list string)
  : SentenceStructures :=
  let total_clauses := list_sum (map clauses_of sentences) in
  {| simple := tally Simple sentences;
     compound := tally Compound sentences;
     complex := tally Complex sentences;
     avg_clauses_per_sentence :=
       ratio total_clauses (Nat.max (List.length sentences) 1) |}.

(** A [Counter]: the keys in the order of their first occurrence, each
    with its count. *)
Fixpoint counter_add (key : string) (n : nat) (counts : list (string * nat))
  : list (string * nat) :=
  match counts with
  | [] => [(key, n)]
  | (k, c) :: rest =>
      if String.eqb k key then (k, c + n)%nat :: rest
      else (k, c) :: counter_add key n rest
  end.

(** [counter[key]]: the count of a key, 0 for a key that is missing. *)
Fixpoint count_of (key : string) (counts : list (string * nat)) : nat :=
  match counts with
  | [] => O
  | (k, c) :: rest => if String.eqb k key then c else count_of key rest
  end.

(** [Counter(items)] *)
Definition Counter (items : list string) : list (string * nat) :=
  fold_left (fun counts item => counter_add item 1 counts) items [].

(** The order of [most_common]: no entry has a higher count than an
    entry before it. *)
Definition by_falling_count (a b : string * nat) : Prop :=
  (snd b <= snd a)%nat.

(** Insertion into a list that is sorted by falling count; among equal
    counts the inserted entry comes first. *)
Fixpoint insert_by_count (x : string * nat) (sorted : list (string * nat))
  : list (string * nat) :=
  match sorted with
  | [] => [x]
  | y :: rest =>
      if (snd y <=? snd x)%nat then x :: sorted
      else y :: insert_by_count x rest
  end.

(** [counter.most_common(n)]: sorted by falling count, entries with the
    same count in the order of the counter, cut after [n] entries. *)
Definition most_common (n : nat) (counts : list (string * nat))
  : list (string * nat) :=
  firstn n (fold_right insert_by_count [] counts).

(** The test of the comprehension in [_get_frequent_words]. *)
Definition is_content_word (word : string) : bool :=
  isalpha_word word
  && negb (existsb (String.eqb (lower word)) stop_words)
  && (2 <? len word)%nat.

Definition _get_frequent_words (words : list string) (top_n : nat)
  : list (string * nat) :=
  let filtered_words := map lower (List.filter is_content_word words) in
  most_common top_n (Counter filtered_words).

(** The run of word characters being read at the head of [s], and the
    runs after it. *)
Fixpoint token_scan (s : string) : string * list string :=
  match s with
  | "" => ("", [])
  | String c r =>
      let (w, ws) := token_scan r in
      if isword c then (String c w, ws) else ("", cons_word w ws)
  end.

(** [re.findall(r'\b\w+\b', s)]: the maximal runs of word characters. *)
Definition tokens (s : string) : list string :=
  let (w, ws) := token_scan s in cons_word w ws.

(** [words[i] words[i+1]] for every [i]. *)
Fixpoint bigrams (words : list string) : list string :=
  match words with
  | w1 :: ((w2 :: _) as rest) => (w1 ++ " " ++ w2) :: bigrams rest
  | _ => []
  end.

(** [words[i] words[i+1] words[i+2]] for every [i]. *)
Fixpoint trigrams (words : list string) : list string :=
  match words with
  | w1 :: ((w2 :: w3 :: _) as rest) =>
      (w1 ++ " " ++ w2 ++ " " ++ w3) :: trigrams rest
  | _ => []
  end.

Definition _get_frequent_phrases (text : string) (top_n : nat)
  : list (string * nat) :=
  let words := tokens (lower text) in
  let all_phrases := (bigrams words ++ trigrams words)%list in
  most_common top_n (Counter all_phrases).

(** [s.endswith(suffix)] *)
Definition endswith (suffix s : string) : bool :=
  (len suffix <=? len s)%nat && String.eqb (drop (len s - len suffix) s) suffix.

Record PosPatterns := {
  adjective_ratio : Q;
  adverb_ratio : Q;
  estimated_complexity : Q
}.

Definition _analyze_pos_patterns_simple (words : list string) : PosPatterns :=
  let adjectives :=
    List.length
      (List.filter
         (fun word =>
            existsb (fun suffix => endswith suffix (lower word))
                    ["ly"; "ful"; "less"; "able"; "ible"])
         words) in
  {| adjective_ratio := ratio adjectives (Nat.max (List.length words) 1);
     adverb_ratio :=
       ratio (List.length
                (List.filter (fun word => endswith "ly" (lower word)) words))
             (Nat.max (List.length words) 1);
     estimated_complexity :=
       ratio (List.length
                (distinct
                   (map lower
                        (List.filter (fun word => (6 <? len word)%nat) words))))
             (Nat.max (List.length words) 1) |}.

(** The analysis with all its keys. *)
Record FullAnalysis := {
  metrics : Analysis;
  sentence_structures : SentenceStructures;
  frequent_words : list (string * nat);
  frequent_phrases : list (string * nat);
  pos_patterns : PosPatterns
}.

Definition analyze_writing_sample_full (text : string) : FullAnalysis :=
  let words := split (_clean_text text) in
  let sentences := _split_into_sentences text in
  {| metrics := analyze_writing_sample text;
     sentence_structures := _analyze_sentence_structures sentences;
     frequent_words := _get_frequent_words words 20;
     frequent_phrases := _get_frequent_phrases text 10;
     pos_patterns := _analyze_pos_patterns_simple words |}.

(** One round of the loop over the analyses in
    [_determine_structure_preference]: the counts of the three groups are
    added to the totals. *)
Definition add_structure_totals (totals : gmap string nat)
    (structures : SentenceStructures) : gmap string nat :=
  fold_left
    (fun totals '(struct_type, count) =>
       <[struct_type := (default 0 (totals !! struct_type) + count)%nat]>
         totals)
    [ ("simple", simple structures);
      ("compound", compound structures);
      ("complex", complex structures) ]
    totals.

(** [structure_totals] and [total_sentences] of
    [_determine_structure_preference], then the fractions; the dict has
    the three keys as soon as there is an analysis. *)
Definition _determine_structure_preference (analyses : list FullAnalysis)
  : gmap string Q :=
  let structure_totals : gmap string nat :=
    fold_left
      (fun totals analysis =>
         add_structure_totals totals (sentence_structures analysis))
      analyses ∅ in
  let total_sentences :=
    list_sum
      (map (fun analysis =>
              let structures := sentence_structures analysis in
              simple structures + compound structures + complex structures)%nat
           analyses) in
  (fun count => ratio count (Nat.max total_sentences 1)) <$> structure_totals.

(** The counts that a list of entries gives for one key, added up. *)
Definition occurrences (key : string) (entries : list (string * nat)) : nat :=
  list_sum (map snd (List.filter (fun e => String.eqb (fst e) key) entries)).

(** [all_words[word] += count] for every entry of every analysis. *)
Definition sum_counters (counters : list (list (string * nat)))
  : list (string * nat) :=
  fold_left
    (fun all counter =>
       fold_left (fun all '(w, count) => counter_add w count all) counter all)
    counters [].

Definition _get_overall_word_preferences (analyses : list FullAnalysis)
  : list (string * nat) :=
  most_common 30 (sum_counters (map frequent_words analyses)).

Definition _get_overall_phrase_preferences (analyses : list FullAnalysis)
  : list (string * nat) :=
  most_common 20 (sum_counters (map frequent_phrases analyses)).

End StyleAnalyzerRest.

(** ** services/ai/content_generator.py: what a user's edit tells *)

Module Feedback.
Import Py ContentGenerator.

Definition formal_words : list string :=
  ["therefore"; "however"; "furthermore"; "consequently"; "moreover"].

Definition casual_words : list string :=
  ["don't"; "can't"; "won't"; "it's"; "that's"; "gonna"; "wanna"].

Definition _is_more_formal (modified original : string) : bool :=
  let original_formal := hits formal_words (lower original) in
  let modified_formal := hits formal_words (lower modified) in
  (original_formal <? modified_formal)%nat.

Definition _is_more_casual (modified original : string) : bool :=
  let original_casual := hits casual_words (lower original) in
  let modified_casual := hits casual_words (lower modified) in
  (original_casual <? modified_casual)%nat.

Definition _uses_simpler_words (modified original : string) : bool :=
  (List.length (split original) <? List.length (split modified))%nat
  && (len modified <? len original)%nat.

Definition _uses_complex_words (modified original : string) : bool :=
  (List.length (split modified) <? List.length (split original))%nat
  && (len original <? len modified)%nat.

Record FeedbackAnalysis := {
  prompt : string;
  original_length : nat;
  modified_length : nat;
  style_adjustments : list string
}.

(** [style_profile] is not read. *)
Definition adapt_based_on_feedback (original_prompt generated_content
    user_modifications : string) (style_profile : gmap string PyVal)
  : FeedbackAnalysis :=
  let original := inject_Z (Z.of_nat (List.length (split generated_content))) in
  let modified := inject_Z (Z.of_nat (List.length (split user_modifications))) in
  let length_changes :=
    if Qltb (original * 1.2) modified then ["prefers_longer_content"]
    else if Qltb modified (original * 0.8) then ["prefers_shorter_content"]
    else [] in
  let formality_changes :=
    if _is_more_formal user_modifications generated_content
    then ["increase_formality"]
    else if _is_more_casual user_modifications generated_content
    then ["increase_casualness"]
    else [] in
  let vocabulary_changes :=
    if _uses_simpler_words user_modifications generated_content
    then ["prefer_simpler_vocabulary"]
    else if _uses_complex_words user_modifications generated_content
    then ["prefer_complex_vocabulary"]
    else [] in
  {| prompt := original_prompt;
     original_length := List.length (split generated_content);
     modified_length := List.length (split user_modifications);
     style_adjustments :=
       (length_changes ++ formality_changes ++ vocabulary_changes)%list |}.

End Feedback.

(** ** controllers/samples.py: the other endpoints *)

Module SamplesRest.
Import Py StyleAnalyzer Samples.

(** [db.query(UserStyleProfile).filter(UserStyleProfile.user_id ==
    user).first()] *)
Definition first_profile (user : nat) (db : Db)
  : option UserStyleProfile.t :=
  find (fun r => (UserStyleProfile.user_id r =? user)%nat)
       (user_style_profiles db).

(** [POST /upload].  The primary key of the new row is handed out by the
    database: it is the argument [new_id].  The time stamp is not
    modelled. *)
Definition upload_writing_sample (title content : string)
    (current_user new_id : nat) (db : Db)
  : HTTPException + (WritingSample.t * Db) :=
  if (len (strip content) <? 50)%nat then
    inl {| status_code := 400;
           detail := "Writing sample must be at least 50 characters long" |}
  else
    let db_sample :=
      {| WritingSample.id := new_id;
         WritingSample.user_id := current_user;
         WritingSample.title := title;
         WritingSample.content := content;
         WritingSample.analyzed := false |} in
    inr (db_sample,
         {| writing_samples := (writing_samples db ++ [db_sample])%list;
            user_style_profiles := user_style_profiles db |}).

(** [GET /user] *)
Definition get_user_samples (current_user : nat) (db : Db)
  : list WritingSample.t :=
  user_samples current_user db.

Module ProfileResponse.
Record t := {
  user_id : nat;
  vocabulary_level : string;
  formality_preference : string;
  sentence_complexity : Q;
  sample_count : nat;
  emotional_patterns : gmap string (list string)
}.
End ProfileResponse.

(** [GET /profile]; [len(d) if d else 0] is [len(d)]. *)
Definition get_user_style_profile (current_user : nat) (db : Db)
  : HTTPException + ProfileResponse.t :=
  match first_profile current_user db with
  | None =>
      inl {| status_code := 404;
             detail := "Style profile not found. Please upload and analyze writing samples first." |}
  | Some profile =>
      inr {| ProfileResponse.user_id := UserStyleProfile.user_id profile;
             ProfileResponse.vocabulary_level :=
               UserStyleProfile.vocabulary_level profile;
             ProfileResponse.formality_preference :=
               UserStyleProfile.formality_preference profile;
             ProfileResponse.sentence_complexity :=
               UserStyleProfile.sentence_complexity profile;
             ProfileResponse.sample_count :=
               size (UserStyleProfile.emotional_patterns profile);
             ProfileResponse.emotional_patterns :=
               UserStyleProfile.emotional_patterns profile |}
  end.

(** The sample that [DELETE /sample/{sample_id}] looks for. *)
Definition is_sample (sample_id current_user : nat) (s : WritingSample.t)
  : bool :=
  (WritingSample.id s =? sample_id)%nat
  && (WritingSample.user_id s =? current_user)%nat.

(** [db.delete(sample)] for the first row that [p] holds of. *)
Fixpoint delete_first (p : WritingSample.t -> bool)
    (rows : list WritingSample.t) : list WritingSample.t :=
  match rows with
  | [] => []
  | r :: rest => if p r then rest else r :: delete_first p rest
  end.

(** [DELETE /sample/{sample_id}] *)
Definition delete_writing_sample (sample_id current_user : nat) (db : Db)
  : HTTPException + (bool * string * Db) :=
  match find (is_sample sample_id current_user) (writing_samples db) with
  | None =>
      inl {| status_code := 404; detail := "Writing sample not found" |}
  | Some sample =>
      inr (true, "Writing sample deleted successfully",
           {| writing_samples :=
                delete_first (is_sample sample_id current_user)
                             (writing_samples db);
              user_style_profiles := user_style_profiles db |})
  end.

(** Two rows of [user_style_profiles] hold the same values in the
    columns of the embedding.  The word preferences and the time stamps
    of a row are not part of it: [updated_at] is set anew whenever
    [/analyze] writes the row. *)
Definition same_columns (r r' : UserStyleProfile.t) : Prop :=
  UserStyleProfile.user_id r = UserStyleProfile.user_id r'
  /\ UserStyleProfile.vocabulary_level r
     = UserStyleProfile.vocabulary_level r'
  /\ UserStyleProfile.formality_preference r
     = UserStyleProfile.formality_preference r'
  /\ UserStyleProfile.sentence_complexity r
     = UserStyleProfile.sentence_complexity r'
  /\ UserStyleProfile.emotional_patterns r
     = UserStyleProfile.emotional_patterns r'
  /\ UserStyleProfile.style_embedding r
     = UserStyleProfile.style_embedding r'.

(** A database with one sample of user 7 and one of user 8. *)
Definition two_users : Db :=
  {| writing_samples :=
       [ {| WritingSample.id := 1;
            WritingSample.user_id := 7;
            WritingSample.title := "A note";
            WritingSample.content :=
              "I am so happy today. However, the weather is gloomy!";
            WritingSample.analyzed := false |};
         {| WritingSample.id := 2;
            WritingSample.user_id := 8;
            WritingSample.title := "Another note";
            WritingSample.content := "Nothing much happened here.";
            WritingSample.analyzed := false |} ];
     user_style_profiles := [] |}.

End SamplesRest.

(** ** services/ai/content_generator.py: the style prompt *)

Module Prompt.
Import Py.

(** The style profile as the analysis builds it: every key may be
    missing, and a key that is there holds a value of the type that
    [build_user_style_profile] gives it.  The emotional patterns are a
    dict in the order of its keys. *)
Record StyleDict := {
  formality_preference : option string;
  vocabulary_level : option string;
  avg_sentence_length : option Q;
  emotional_expression_patterns : option (list (string * list string));
  preferred_words : option (list (string * nat));
  punctuation_style : option (gmap string Q)
}.

(** The line feed. *)
Definition nl : string := String (ascii_of_nat 10) EmptyString.

(** The integer nearest to [x], a tie going to the even one. *)
Definition round_half_even (x : Q) : Z :=
  let below := Qfloor x in
  let rest := (x - inject_Z below)%Q in
  if Qltb rest 0.5 then below
  else if Qltb 0.5 rest then (below + 1)%Z
  else if Z.even below then below else (below + 1)%Z.

(** The format [{x:.0f}]; a negative number keeps its sign when it
    rounds to zero. *)
Definition format_0f (x : Q) : string :=
  let nearest := round_half_even x in
  if Qltb x 0 && (nearest =? 0)%Z then "-0" else pretty nearest.

Definition emotional_contexts : list string :=
  ["personal"; "emotional"; "creative"].

(** The loop over the first two emotional patterns. *)
Definition add_examples (style_description : string)
    (patterns : list (string * list string)) : string :=
  fold_left
    (fun style_description '(emotion, examples) =>
       match examples with
       | example :: _ =>
           style_description ++ emotion ++ ": '" ++ take 50 example ++ "...' "
       | [] => style_description
       end)
    (firstn 2 patterns) style_description.

Definition _build_style_prompt (user_prompt : string)
    (style_profile : StyleDict) (context : string) : string :=
  let formality := default "neutral" (formality_preference style_profile) in
  let vocab_level :=
    default "intermediate" (vocabulary_level style_profile) in
  let avg_sent_length := default 15%Q (avg_sentence_length style_profile) in
  let emotional_patterns :=
    default [] (emotional_expression_patterns style_profile) in
  let preferred_words :=
    map fst (firstn 10 (default [] (preferred_words style_profile))) in
  let style_description :=
    nl ++ "        Write in a " ++ formality ++ " style with " ++ vocab_level
    ++ " vocabulary. " ++ nl
    ++ "        Average sentence length should be around "
    ++ format_0f avg_sent_length ++ " words." ++ nl
    ++ "        " in
  let style_description :=
    match preferred_words with
    | [] => style_description
    | _ =>
        style_description ++ "Try to naturally incorporate words like: "
        ++ join ", " (firstn 5 preferred_words) ++ ". "
    end in
  let style_description :=
    if existsb (String.eqb context) emotional_contexts then
      match emotional_patterns with
      | [] => style_description
      | _ =>
          add_examples
            (style_description
             ++ "When expressing emotions, use patterns similar to these examples: ")
            emotional_patterns
      end
    else style_description in
  let punct_style := default ∅ (punctuation_style style_profile) in
  let exclamation_rate := default 0%Q (punct_style !! "exclamation_marks") in
  let style_description :=
    if Qltb 5 exclamation_rate
    then style_description ++ "Use exclamation marks to show enthusiasm. "
    else if Qltb exclamation_rate 1
    then style_description
         ++ "Avoid excessive exclamation marks, keep tone measured. "
    else style_description in
  nl ++ "        " ++ style_description ++ nl ++ nl
  ++ "        User request: " ++ user_prompt ++ nl ++ nl
  ++ "        Please respond in the writing style described above, making it sound natural and authentic:"
  ++ nl ++ "        ".

(** The profile with its lists cut to what the prompt names. *)
Definition named_part (style_profile : StyleDict) : StyleDict :=
  {| formality_preference := formality_preference style_profile;
     vocabulary_level := vocabulary_level style_profile;
     avg_sentence_length := avg_sentence_length style_profile;
     emotional_expression_patterns :=
       option_map
         (fun patterns =>
            map (fun '(emotion, examples) => (emotion, firstn 1 examples))
                (firstn 2 patterns))
         (emotional_expression_patterns style_profile);
     preferred_words :=
       option_map (firstn 5) (preferred_words style_profile);
     punctuation_style := punctuation_style style_profile |}.

(** The profile without its emotional patterns. *)
Definition without_patterns (style_profile : StyleDict) : StyleDict :=
  {| formality_preference := formality_preference style_profile;
     vocabulary_level := vocabulary_level style_profile;
     avg_sentence_length := avg_sentence_length style_profile;
     emotional_expression_patterns := None;
     preferred_words := preferred_words style_profile;
     punctuation_style := punctuation_style style_profile |}.

End Prompt.

(** ** services/ai/ollama_client.py: the text without the service *)

Module OllamaClient.
Import Py Prompt.

Definition email_template : string :=
  "Subject: Re: Your Request" ++
  nl ++ nl ++
  "        Dear [Recipient]," ++
  nl ++ nl ++
  "        Thank you for reaching out. I wanted to follow up on your message regarding the topic you mentioned." ++
  nl ++ nl ++
  "        I'll be happy to help with this matter and will get back to you with more details soon." ++
  nl ++ nl ++
  "        Best regards," ++
  nl ++
  "        [Your Name]".

Definition essay_template : string :=
  "Introduction" ++
  nl ++ nl ++
  "        The topic you've raised is indeed worth exploring in depth. There are several important aspects to consider when examining this subject." ++
  nl ++ nl ++
  "        Main Points" ++
  nl ++ nl ++
  "        First, we should acknowledge the complexity of the issue. The various factors involved create a multifaceted situation that requires careful analysis." ++
  nl ++ nl ++
  "        Furthermore, the implications extend beyond the immediate scope, affecting related areas that deserve attention." ++
  nl ++ nl ++
  "        Conclusion" ++
  nl ++ nl ++
  "        In summary, this topic presents both challenges and opportunities. A thoughtful approach will yield the best outcomes for all involved parties.".

Definition story_template : string :=
  "It was a day like any other, until everything changed. The morning sun streamed through the windows, casting long shadows across the room." ++
  nl ++ nl ++
  "        As I sat there, contemplating the prompt you've given me, I realized that every story begins with a single moment of inspiration. This moment, right now, could be the beginning of something extraordinary." ++
  nl ++ nl ++
  "        The characters in this tale are not yet fully formed, but they're waiting in the wings, ready to spring to life with the right combination of words and imagination.".

Definition generic_template : string :=
  "Thank you for your prompt. I understand you're looking for assistance with writing content." ++
  nl ++ nl ++
  "        Based on your request, here are some thoughts that might help guide your writing:" ++
  nl ++ nl ++
  "        Consider your audience and what they need to know. Structure your ideas in a logical flow that builds understanding step by step. Use clear, engaging language that matches your personal style." ++
  nl ++ nl ++
  "        Remember that good writing often comes from revision and refinement, so don't worry about getting everything perfect in the first draft.".

Definition _fallback_generation (prompt : string) : string :=
  let prompt_lower := lower prompt in
  if contains "email" prompt_lower then email_template
  else if contains "essay" prompt_lower || contains "write about" prompt_lower
  then essay_template
  else if contains "story" prompt_lower || contains "creative" prompt_lower
  then story_template
  else generic_template.

End OllamaClient.

(** ** controllers/generation.py: [GET /api/generate/stats] *)

Module Generation.
Import Py.

Module GeneratedContent.
Record t := {
  id : nat;
  user_id : nat;
  prompt : string;
  generated_text : string;
  user_feedback : option string;
  user_modifications : option string
}.
End GeneratedContent.

(** [GeneratedContent.user_feedback == feedback]: never true of NULL. *)
Definition has_feedback (feedback : string) (c : GeneratedContent.t) : bool :=
  match GeneratedContent.user_feedback c with
  | Some f => String.eqb f feedback
  | None => false
  end.

(** [db.query(GeneratedContent).filter(user_id == user, ...).count()] *)
Definition count_where (user : nat) (p : GeneratedContent.t -> bool)
    (rows : list GeneratedContent.t) : nat :=
  List.length
    (List.filter
       (fun c => (GeneratedContent.user_id c =? user)%nat && p c) rows).

Record Stats := {
  total_generations : nat;
  accepted : nat;
  modified : nat;
  rejected : nat;
  acceptance_rate : Q;
  modification_rate : Q
}.

Definition get_user_stats (current_user : nat)
    (rows : list GeneratedContent.t) : Stats :=
  let total_generations := count_where current_user (fun _ => true) rows in
  let accepted := count_where current_user (has_feedback "accepted") rows in
  let modified := count_where current_user (has_feedback "modified") rows in
  let rejected := count_where current_user (has_feedback "rejected") rows in
  {| total_generations := total_generations;
     accepted := accepted;
     modified := modified;
     rejected := rejected;
     acceptance_rate :=
       (ratio accepted (Nat.max total_generations 1) * 100)%Q;
     modification_rate :=
       (ratio modified (Nat.max total_generations 1) * 100)%Q |}.

End Generation.

(** ** Properties of the metrics extractor *)

Section Extractor.
Import Py StyleAnalyzer Spec.

Lemma flesch_score_bounds text words sentences :
  (0 <= _calculate_flesch_score text words sentences <= 100)%Q.
Proof.
  unfold _calculate_flesch_score.
  destruct (is_nil words || is_nil sentences).
  - split; discriminate.
  - split.
    + apply Q.le_max_l.
    + apply Q.max_lub; [discriminate | apply Q.le_min_l].
Qed.

Lemma grade_level_is_step_function score :
  _calculate_grade_level score = step_function grade_steps 16 score.
Proof. reflexivity. Qed.

Lemma grade_level_in_levels score :
  In (_calculate_grade_level score) grade_levels.
Proof.
  unfold _calculate_grade_level, grade_levels.
  repeat match goal with
         | |- context [if ?b then _ else _] => destruct b
         end; simpl; tauto.
Qed.

(** C2. For every text the Flesch reading-ease score of the analysis lies
    in [0, 100]; it is 50.0 as soon as the word list or the sentence list
    is empty; and the grade level is the step function of the score
    (at least 90: 5.0, 80: 6.0, 70: 7.0, 60: 8.5, 50: 10.0, 30: 13.0,
    below: 16.0), hence one of the seven grade levels. *)
Theorem flesch_score_range_and_grade_steps :
  forall text : string,
    let a := analyze_writing_sample text in
    (0 <= flesch_reading_ease a <= 100)%Q
    /\ (forall words sentences,
          (0 <= _calculate_flesch_score text words sentences <= 100)%Q)
    /\ (forall sentences, _calculate_flesch_score text [] sentences = 50%Q)
    /\ (forall words, _calculate_flesch_score text words [] = 50%Q)
    /\ flesch_kincaid_grade a
       = step_function grade_steps 16 (flesch_reading_ease a)
    /\ In (flesch_kincaid_grade a) grade_levels.
Proof.
  intros text a. repeat split.
  - apply flesch_score_bounds.
  - apply flesch_score_bounds.
  - apply flesch_score_bounds.
  - apply flesch_score_bounds.
  - intros words. unfold _calculate_flesch_score.
    now rewrite orb_true_r.
  - apply grade_level_in_levels.
Qed.

Lemma pad_features_length fuel features :
  (32 <= List.length features + fuel)%nat ->
  (32 <= List.length (pad_features fuel features))%nat.
Proof.
  revert features. induction fuel as [|fuel IH]; intros features Hlen.
  - simpl. destruct (Nat.ltb_spec (List.length features) 32); lia.
  - simpl. destruct (Nat.ltb_spec (List.length features) 32); [|lia].
    apply IH. rewrite length_app. simpl. lia.
Qed.

Lemma pad_eight_features (f1 f2 f3 f4 f5 f6 f7 f8 : Q) :
  firstn 32 (pad_features 32 [f1; f2; f3; f4; f5; f6; f7; f8])
  = ([f1; f2; f3; f4; f5; f6; f7; f8] ++ repeat 0%Q 24)%list.
Proof. reflexivity. Qed.

(** C3. For every text, the empty one included, the style embedding of
    the analysis is a list of exactly 32 numbers: the eight features
    (word count / 1000, sentence count / 100, average sentence length / 20,
    average word length / 10, exclamation marks / 10, question marks / 10,
    formality score, vocabulary richness) followed by 24 zeros. *)
Theorem style_embedding_is_32_numbers :
  forall text : string,
    let a := analyze_writing_sample text in
    let words := split (_clean_text text) in
    let sentences := _split_into_sentences text in
    List.length (style_embedding a) = 32%nat
    /\ style_embedding a
       = ([ ratio (List.length words) 1000;
            ratio (List.length sentences) 100;
            (ratio (List.length words) (Nat.max (List.length sentences) 1)
             / 20)%Q;
            (ratio (total_length words) (Nat.max (List.length words) 1)
             / 10)%Q;
            ratio (count "!" text) 10;
            ratio (count "?" text) 10;
            formality_score a;
            ratio (List.length (distinct (map lower words)))
                  (Nat.max (List.length words) 1) ]
          ++ repeat 0%Q 24)%list
    /\ List.length (style_embedding (analyze_writing_sample "")) = 32%nat.
Proof.
  intros text a words sentences.
  assert (Hshape : style_embedding a
                   = ([ ratio (List.length words) 1000;
                        ratio (List.length sentences) 100;
                        (ratio (List.length words)
                               (Nat.max (List.length sentences) 1) / 20)%Q;
                        (ratio (total_length words)
                               (Nat.max (List.length words) 1) / 10)%Q;
                        ratio (count "!" text) 10;
                        ratio (count "?" text) 10;
                        formality_score a;
                        ratio (List.length (distinct (map lower words)))
                              (Nat.max (List.length words) 1) ]
                      ++ repeat 0%Q 24)%list).
  { unfold a, analyze_writing_sample, style_embedding,
      _get_style_embedding_simple.
    apply pad_eight_features. }
  split; [|split].
  - rewrite Hshape. reflexivity.
  - exact Hshape.
  - unfold analyze_writing_sample, style_embedding,
      _get_style_embedding_simple.
    rewrite pad_eight_features. reflexivity.
Qed.

(** C6. The formality score is the number of formal markers found in the
    text divided by the number of formal and informal markers found, and
    0.5 when none of either list is found; the score of
    "However, therefore, thus indeed." is greater than the score of
    "yeah gonna wanna totally". *)
Theorem formality_score_is_marker_ratio :
  (forall text_lower : string,
     let formal := hits formal_words text_lower in
     let informal := hits informal_words text_lower in
     ((formal + informal = 0)%nat
      /\ _calculate_formality text_lower = 0.5%Q)
     \/ ((0 < formal + informal)%nat
         /\ _calculate_formality text_lower
            = (inject_Z (Z.of_nat formal)
               / inject_Z (Z.of_nat (formal + informal)))%Q))
  /\ (forall text : string,
        formality_score (analyze_writing_sample text)
        = _calculate_formality (lower text))
  /\ (formality_score (analyze_writing_sample "yeah gonna wanna totally")
      < formality_score
          (analyze_writing_sample "However, therefore, thus indeed."))%Q.
Proof.
  split; [|split].
  - intros text_lower formal informal. unfold _calculate_formality.
    fold formal informal.
    destruct (Nat.eqb_spec (formal + informal) 0) as [E|E].
    + left. split; [exact E | reflexivity].
    + right. split; [lia | reflexivity].
  - reflexivity.
  - vm_compute. reflexivity.
Qed.

(** C9. There is a text whose analysis has an emotion key with an empty
    list of context snippets: in "nomad" the lexicon word "mad" is found as
    a substring, so the key "anger" is created, but the snippet pattern
    asks for word boundaries around "mad" and matches nowhere. *)
Theorem emotion_key_without_snippets :
  contains "mad" (lower "nomad") = true
  /\ findall_context "mad" None 0 (lower "nomad") = []
  /\ emotional_language (analyze_writing_sample "nomad") !! "anger" = Some []
  /\ exists (text emotion : string),
       emotional_language (analyze_writing_sample text) !! emotion = Some [].
Proof.
  assert (H : emotional_language (analyze_writing_sample "nomad") !! "anger"
              = Some []) by (vm_compute; reflexivity).
  split; [reflexivity|]. split; [reflexivity|]. split; [exact H|].
  exists "nomad", "anger". exact H.
Qed.

End Extractor.

(** ** Numbers *)

Section Numbers.
Import Py Spec.

Lemma Qltb_lt a b : Qltb a b = true <-> (a < b)%Q.
Proof.
  unfold Qltb. rewrite negb_true_iff, <- not_true_iff_false, Qle_bool_iff.
  split; [apply Qnot_le_lt | apply Qlt_not_le].
Qed.

Lemma Qltb_ge a b : Qltb a b = false <-> (b <= a)%Q.
Proof.
  unfold Qltb. rewrite negb_false_iff. apply Qle_bool_iff.
Qed.

Lemma Q2R_inject_nat n : Q2R (inject_Z (Z.of_nat n)) = INR n.
Proof.
  rewrite INR_IZR_INZ. unfold Q2R, inject_Z. simpl. field.
Qed.

Lemma Q2R_qsum xs : Q2R (qsum xs) = rsum (map Q2R xs).
Proof.
  induction xs as [|x xs IH]; simpl.
  - unfold Q2R. simpl. field.
  - rewrite Q2R_plus, IH. reflexivity.
Qed.

Lemma Q2R_np_mean xs : xs <> [] -> Q2R (np_mean xs) = mean (map Q2R xs).
Proof.
  intros Hne. unfold np_mean, mean.
  rewrite Q2R_div.
  - now rewrite Q2R_qsum, Q2R_inject_nat, length_map.
  - intros H0. apply Qeq_eqR in H0. rewrite Q2R_inject_nat in H0.
    replace (Q2R 0) with 0%R in H0 by (unfold Q2R; simpl; field).
    revert H0. apply not_0_INR. destruct xs; simpl; congruence.
Qed.

Lemma np_mean_pair (x y : Q) : (np_mean [x; y] == (x + y) / 2)%Q.
Proof. unfold np_mean, qsum. simpl. field. Qed.

End Numbers.

(** ** Properties of the profile aggregator *)

Section Aggregator.
Import Py StyleAnalyzer Spec.

Lemma build_profile_of_samples analyses :
  analyses <> [] ->
  exists p, build_user_style_profile analyses = Profile.Dict p
            /\ Profile.sample_count p = List.length analyses
            /\ Profile.formality_preference p
               = _determine_formality_preference analyses
            /\ Profile.sentiment_tendencies p
               = _determine_sentiment_tendencies analyses.
Proof.
  intros Hne. destruct analyses as [|a rest]; [congruence|].
  eexists. repeat split.
Qed.

(** C1, as the specification states it, fails: given the empty list,
    [build_user_style_profile] reports no validation error, it returns
    normally and what it returns is the empty dict. *)
Lemma empty_list_returns_empty_dict :
  build_user_style_profile [] = Profile.EmptyDict.
Proof. reflexivity. Qed.

(** C1, amended. Aggregating a non-empty list of N analyses gives a
    profile whose [sample_count] is N. On the empty list
    [build_user_style_profile] returns the empty dict and raises nothing;
    the validation error for a user without samples (status 400) comes
    from the caller, the [/analyze] endpoint, which rejects the request
    before it aggregates. For a user with N samples the endpoint
    aggregates the N analyses, stores the profile and reports
    [sample_count] N. *)
Theorem aggregation_counts_samples_or_rejects :
  (forall analyses : list Analysis,
     analyses <> [] ->
     exists p, build_user_style_profile analyses = Profile.Dict p
               /\ Profile.sample_count p = List.length analyses)
  /\ build_user_style_profile [] = Profile.EmptyDict
  /\ (forall (user : nat) (db : Samples.Db),
        Samples.user_samples user db = [] ->
        Samples.analyze_user_samples user db
        = inl {| Samples.status_code := 400;
                 Samples.detail :=
                   "Need at least 1 writing sample to build style profile" |})
  /\ (forall (user : nat) (db : Samples.Db),
        Samples.user_samples user db <> [] ->
        exists p response db',
          build_user_style_profile
            (map (fun s => analyze_writing_sample (Samples.WritingSample.content s))
                 (Samples.user_samples user db))
          = Profile.Dict p
          /\ Profile.sample_count p
             = List.length (Samples.user_samples user db)
          /\ Samples.analyze_user_samples user db = inr (response, db')
          /\ Samples.Response.sample_count (Samples.Response.profile response)
             = List.length (Samples.user_samples user db)
          /\ In (Samples.row_of user p) (Samples.user_style_profiles db')).
Proof.
  split; [|split; [|split]].
  - intros analyses Hne.
    destruct (build_profile_of_samples analyses Hne) as (p & Hp & Hn & _).
    exists p. split; assumption.
  - reflexivity.
  - intros user db Hnone. unfold Samples.analyze_user_samples.
    rewrite Hnone. reflexivity.
  - intros user db Hsome. unfold Samples.analyze_user_samples.
    destruct (Samples.user_samples user db) as [|s rest] eqn:Hs;
      [congruence|].
    cbn [List.length Nat.ltb Nat.leb map build_user_style_profile is_nil].
    eexists. eexists. eexists.
    split; [reflexivity|].
    split; [cbn [Profile.sample_count]; now rewrite length_map|].
    split; [reflexivity|]. split; [reflexivity|].
    cbn [Samples.user_style_profiles].
    generalize (Samples.user_style_profiles db). intros rows.
    induction rows as [|r rows IH]; cbn [Samples.upsert].
    + left. reflexivity.
    + destruct (Samples.UserStyleProfile.user_id r =? user)%nat.
      * left. reflexivity.
      * right. exact IH.
Qed.

Lemma aggregation_counts_samples_or_rejects_witness :
  Samples.user_samples 8 Examples.two_samples = []
  /\ Samples.user_samples 7 Examples.two_samples <> []
  /\ Samples.analyze_user_samples 8 Examples.two_samples
     = inl {| Samples.status_code := 400;
              Samples.detail :=
                "Need at least 1 writing sample to build style profile" |}
  /\ exists p response db',
       build_user_style_profile
         (map (fun s => analyze_writing_sample (Samples.WritingSample.content s))
              (Samples.user_samples 7 Examples.two_samples))
       = Profile.Dict p
       /\ Profile.sample_count p = 2%nat
       /\ Samples.analyze_user_samples 7 Examples.two_samples
          = inr (response, db')
       /\ Samples.Response.sample_count (Samples.Response.profile response)
          = 2%nat.
Proof.
  assert (H8 : Samples.user_samples 8 Examples.two_samples = [])
    by reflexivity.
  assert (H7 : Samples.user_samples 7 Examples.two_samples <> [])
    by (vm_compute; discriminate).
  split; [exact H8|]. split; [exact H7|].
  destruct aggregation_counts_samples_or_rejects as (_ & _ & Hnone & Hsome).
  split; [exact (Hnone 8%nat Examples.two_samples H8)|].
  destruct (Hsome 7%nat Examples.two_samples H7)
    as (p & response & db' & Hp & Hn & Hr & Hc & _).
  exists p, response, db'. repeat split; assumption.
Defined.

(** The fuel of the pairwise sum is never used up: every bound that is at
    least the length of the list gives the same sum. *)
Lemma pairwise_sum_fuel fuel fuel' a :
  (List.length a <= fuel)%nat -> (List.length a <= fuel')%nat ->
  Float64.pairwise_sum fuel a = Float64.pairwise_sum fuel' a.
Proof.
  revert fuel' a. induction fuel as [|fuel IH]; intros fuel' a H H'.
  - destruct a; [|cbn [List.length] in H; lia].
    destruct fuel'; reflexivity.
  - destruct fuel' as [|fuel'].
    + destruct a; [reflexivity|cbn [List.length] in H'; lia].
    + cbn [Float64.pairwise_sum].
      destruct (List.length a <? 8)%nat eqn:E8; [reflexivity|].
      destruct (List.length a <=? 128)%nat eqn:E128; [reflexivity|].
      apply Nat.leb_gt in E128.
      set (n := List.length a) in *.
      assert (Hmod : ((n / 2) mod 8 < 8)%nat)
        by (apply Nat.mod_upper_bound; lia).
      assert (Hhalf : (64 <= n / 2 <= n)%nat).
      { split; [apply Nat.div_le_lower_bound; lia|].
        apply Nat.Div0.div_le_upper_bound; lia. }
      assert (Hlt : (n / 2 < n)%nat) by (apply Nat.div_lt; lia).
      f_equal; apply IH;
        rewrite ?length_firstn, ?length_skipn; fold n; lia.
Qed.

Lemma below_is_not_above (x : Float64.float) :
  Float64.ltb x (Float64.of_Q 0.4) = true ->
  Float64.ltb (Float64.of_Q 0.7) x = false.
Proof.
  assert (H4 : Float64.of_Q 0.4 = S754_finite false 7205759403792794 (-54))
    by (vm_compute; reflexivity).
  assert (H7 : Float64.of_Q 0.7 = S754_finite false 6305039478318694 (-53))
    by (vm_compute; reflexivity).
  rewrite H4, H7. unfold Float64.ltb, SFltb, SFcompare.
  destruct x as [[|]|[|]| |[|] m e]; try reflexivity; try discriminate.
  destruct (Z.compare_spec e (-54)) as [->|He|He].
  - intros _. reflexivity.
  - intros _. destruct (Z.compare_spec (-53) e); try lia; reflexivity.
  - discriminate.
Qed.

Lemma formality_preference_of_samples (a : Analysis) (rest : list Analysis) :
  formality_preference_of (build_user_style_profile (a :: rest))
  = Some (_determine_formality_preference (a :: rest)).
Proof. reflexivity. Qed.

(** C8. The formality preference of the profile of a non-empty list of
    analyses is "formal" when the mean of the formality scores is above
    0.7, "casual" when it is below 0.4 and "neutral" otherwise.  The mean
    is the one that the code computes: [np.mean], in double precision, of
    the scores that the samples hold.  Two samples that both score 0.9
    give "formal", and two that both score 0.1 give "casual"; a sample
    that scores 0.1 and one that scores 0.7 give "casual" as well, their
    mean in double precision being 0.39999999999999997. *)
Theorem formality_preference_thresholds :
  (forall analyses : list Analysis,
     analyses <> [] ->
     let avg :=
       Float64.np_mean
         (map (fun a => Float64.of_Q (formality_score a)) analyses) in
     exists p,
       build_user_style_profile analyses = Profile.Dict p
       /\ (Float64.ltb (Float64.of_Q 0.7) avg = true ->
           Profile.formality_preference p = "formal")
       /\ (Float64.ltb avg (Float64.of_Q 0.4) = true ->
           Profile.formality_preference p = "casual")
       /\ (Float64.ltb (Float64.of_Q 0.7) avg = false ->
           Float64.ltb avg (Float64.of_Q 0.4) = false ->
           Profile.formality_preference p = "neutral"))
  /\ (forall a1 a2 : Analysis,
        Float64.of_Q (formality_score a1) = Float64.of_Q 0.9 ->
        Float64.of_Q (formality_score a2) = Float64.of_Q 0.9 ->
        formality_preference_of (build_user_style_profile [a1; a2])
        = Some "formal")
  /\ (forall a1 a2 : Analysis,
        Float64.of_Q (formality_score a1) = Float64.of_Q 0.1 ->
        Float64.of_Q (formality_score a2) = Float64.of_Q 0.1 ->
        formality_preference_of (build_user_style_profile [a1; a2])
        = Some "casual")
  /\ (forall a1 a2 : Analysis,
        Float64.of_Q (formality_score a1) = Float64.of_Q 0.1 ->
        Float64.of_Q (formality_score a2) = Float64.of_Q 0.7 ->
        formality_preference_of (build_user_style_profile [a1; a2])
        = Some "casual").
Proof.
  split; [|split; [|split]].
  - intros analyses Hne avg.
    destruct (build_profile_of_samples analyses Hne) as (p & Hp & _ & Hf & _).
    exists p. split; [exact Hp|].
    rewrite Hf. unfold _determine_formality_preference. fold avg.
    split; [|split].
    + now intros ->.
    + intros Hlow. now rewrite (below_is_not_above avg Hlow), Hlow.
    + now intros -> ->.
  - intros a1 a2 H1 H2. rewrite formality_preference_of_samples.
    unfold _determine_formality_preference. cbn [map]. now rewrite H1, H2.
  - intros a1 a2 H1 H2. rewrite formality_preference_of_samples.
    unfold _determine_formality_preference. cbn [map]. now rewrite H1, H2.
  - intros a1 a2 H1 H2. rewrite formality_preference_of_samples.
    unfold _determine_formality_preference. cbn [map]. now rewrite H1, H2.
Qed.

Lemma formality_preference_thresholds_witness :
  (exists p,
     build_user_style_profile
       [analyze_writing_sample Examples.formal_text;
        analyze_writing_sample Examples.formal_text] = Profile.Dict p
     /\ Profile.formality_preference p = "formal")
  /\ (exists p,
        build_user_style_profile
          [analyze_writing_sample Examples.casual_text] = Profile.Dict p
        /\ Profile.formality_preference p = "casual")
  /\ (exists p,
        build_user_style_profile
          [analyze_writing_sample Examples.plain_sentence] = Profile.Dict p
        /\ Profile.formality_preference p = "neutral")
  /\ formality_preference_of
       (build_user_style_profile
          [analyze_writing_sample Examples.formal_text;
           analyze_writing_sample Examples.formal_text]) = Some "formal"
  /\ formality_preference_of
       (build_user_style_profile
          [analyze_writing_sample Examples.casual_text;
           analyze_writing_sample Examples.casual_text]) = Some "casual"
  /\ formality_preference_of
       (build_user_style_profile
          [analyze_writing_sample Examples.casual_text;
           analyze_writing_sample Examples.mostly_formal_text])
     = Some "casual".
Proof.
  destruct formality_preference_thresholds
    as (Hall & Hformal & Hcasual & Hedge).
  split; [|split; [|split; [|split; [|split]]]].
  - destruct (Hall [analyze_writing_sample Examples.formal_text;
                    analyze_writing_sample Examples.formal_text])
      as (p & Hp & Hhigh & _); [discriminate|].
    exists p. split; [exact Hp|]. apply Hhigh. vm_compute. reflexivity.
  - destruct (Hall [analyze_writing_sample Examples.casual_text])
      as (p & Hp & _ & Hlow & _); [discriminate|].
    exists p. split; [exact Hp|]. apply Hlow. vm_compute. reflexivity.
  - destruct (Hall [analyze_writing_sample Examples.plain_sentence])
      as (p & Hp & _ & _ & Hmid); [discriminate|].
    exists p. split; [exact Hp|].
    apply Hmid; vm_compute; reflexivity.
  - apply Hformal; vm_compute; reflexivity.
  - apply Hcasual; vm_compute; reflexivity.
  - apply Hedge; vm_compute; reflexivity.
Defined.

End Aggregator.

(** ** The sentiment consistency *)

Section Consistency.
Import Py StyleAnalyzer Spec.

Lemma polarity_bounds text_lower :
  (-1 <= polarity (_analyze_sentiment_simple text_lower) <= 1)%Q.
Proof.
  unfold _analyze_sentiment_simple. cbn [polarity].
  set (p := hits positive_words text_lower).
  set (n := hits negative_words text_lower).
  destruct (Nat.eqb_spec (p + n) 0) as [E|E].
  - split; discriminate.
  - assert (Hpos : (0 < inject_Z (Z.of_nat (p + n)))%Q).
    { change 0%Q with (inject_Z 0). rewrite <- Zlt_Qlt. lia. }
    split.
    + apply Qle_shift_div_l; [exact Hpos|].
      change (-1)%Q with (inject_Z (-1)).
      rewrite <- inject_Z_mult, <- Zle_Qle. lia.
    + apply Qle_shift_div_r; [exact Hpos|].
      change 1%Q with (inject_Z 1).
      rewrite <- inject_Z_mult, <- Zle_Qle. lia.
Qed.

(** [np.std] computes the population standard deviation. *)
Lemma np_std_population_stdev xs :
  xs <> [] -> np_std xs = population_stdev (map Q2R xs).
Proof.
  intros Hne. unfold np_std, np_var, population_stdev.
  rewrite Q2R_np_mean by (destruct xs; simpl; congruence).
  rewrite <- (Q2R_np_mean xs Hne). rewrite !map_map.
  f_equal. f_equal. apply map_ext. intros x.
  rewrite Q2R_mult, Q2R_minus. ring.
Qed.

Lemma rsum_deviations m xs :
  rsum (map (fun x => (x - m) ^ 2)%R xs)
  = (rsum (map (fun x => x ^ 2) xs) - 2 * m * rsum xs
     + INR (List.length xs) * m ^ 2)%R.
Proof.
  induction xs as [|x xs IH].
  - simpl. ring.
  - cbn [map rsum fold_right List.length].
    fold (rsum (map (fun x => (x - m) ^ 2)%R xs)).
    fold (rsum (map (fun x => x ^ 2)%R xs)). fold (rsum xs).
    rewrite IH, S_INR. ring.
Qed.

Lemma rsum_squares_le xs :
  Forall (fun x => -1 <= x <= 1)%R xs ->
  (rsum (map (fun x => x ^ 2) xs) <= INR (List.length xs))%R.
Proof.
  induction 1 as [|x xs Hx _ IH].
  - simpl. lra.
  - cbn [map rsum fold_right List.length].
    fold (rsum (map (fun x => x ^ 2)%R xs)). rewrite S_INR. nra.
Qed.

(** The variance of numbers of [-1, 1] is at most 1. *)
Lemma variance_le_1 xs :
  xs <> [] -> Forall (fun x => -1 <= x <= 1)%R xs ->
  (mean (map (fun x => (x - mean xs) ^ 2) xs) <= 1)%R.
Proof.
  intros Hne Hxs. unfold mean at 1. rewrite length_map, rsum_deviations.
  pose proof (rsum_squares_le xs Hxs) as Hsq.
  assert (Hn : (0 < INR (List.length xs))%R).
  { apply lt_0_INR. destruct xs; simpl; [congruence | lia]. }
  set (n := INR (List.length xs)) in *.
  set (m := mean xs).
  assert (Hm : (n * m = rsum xs)%R).
  { unfold m, mean. fold n. field. lra. }
  rewrite <- Hm.
  apply Rmult_le_reg_r with n; [exact Hn|].
  unfold Rdiv. rewrite Rmult_assoc, Rinv_l, Rmult_1_r, Rmult_1_l by lra.
  nra.
Qed.

Lemma population_stdev_le_1 xs :
  xs <> [] -> Forall (fun x => -1 <= x <= 1)%R xs ->
  (0 <= population_stdev xs <= 1)%R.
Proof.
  intros Hne Hxs. unfold population_stdev. split.
  - apply sqrt_pos.
  - rewrite <- sqrt_1. apply sqrt_le_1_alt. now apply variance_le_1.
Qed.

Lemma extracted_polarities_bounded texts :
  Forall (fun x => -1 <= x <= 1)%R
    (map Q2R
       (map (fun a => polarity (sentiment a))
            (map analyze_writing_sample texts))).
Proof.
  induction texts as [|text texts IH]; cbn [map]; constructor;
    [|exact IH].
  cbn [analyze_writing_sample sentiment].
  destruct (polarity_bounds (lower text)) as [Hlo Hhi].
  apply Qle_Rle in Hlo, Hhi.
  replace (Q2R (-1)) with (-1)%R in Hlo by (unfold Q2R; simpl; field).
  replace (Q2R 1) with 1%R in Hhi by (unfold Q2R; simpl; field).
  split; assumption.
Qed.

Lemma extracted_consistency_range texts :
  texts <> [] ->
  (0 <= Profile.sentiment_consistency
          (_determine_sentiment_tendencies
             (map analyze_writing_sample texts)) <= 1)%R.
Proof.
  intros Hne. cbn [_determine_sentiment_tendencies
                     Profile.sentiment_consistency].
  set (polarities := map (fun a => polarity (sentiment a))
                         (map analyze_writing_sample texts)).
  assert (Hp : polarities <> [])
    by (destruct texts; [congruence | discriminate]).
  assert (Hr : map Q2R polarities <> [])
    by (destruct polarities; [congruence | discriminate]).
  rewrite np_std_population_stdev by exact Hp.
  destruct (population_stdev_le_1 _ Hr (extracted_polarities_bounded texts))
    as [Hlo Hhi].
  lra.
Qed.

Lemma np_std_of_square xs v :
  (np_var xs == v * v)%Q -> (0 <= v)%Q -> np_std xs = Q2R v.
Proof.
  intros Hvar Hv. unfold np_std. rewrite (Qeq_eqR _ _ Hvar), Q2R_mult.
  apply sqrt_square. apply Qle_Rle in Hv.
  replace (Q2R 0) with 0%R in Hv by (unfold Q2R; simpl; field).
  exact Hv.
Qed.

(** C4, as the specification states it, fails: no list of analyses that
    the extractor produced has a negative sentiment consistency. *)
Lemma no_negative_consistency_from_extractor :
  ~ (exists texts : list string,
       texts <> []
       /\ (Profile.sentiment_consistency
             (_determine_sentiment_tendencies
                (map analyze_writing_sample texts)) < 0)%R).
Proof.
  intros (texts & Hne & Hneg).
  destruct (extracted_consistency_range texts Hne) as [Hlo _]. lra.
Qed.

(** C4, amended. The sentiment consistency of the profile of a non-empty
    list of analyses is 1 minus the population standard deviation of the
    polarities, and it is not clamped: polarities 3 and -3 give -2. The
    polarities that the extractor produces lie in [-1, 1], so for analyses
    of texts the consistency lies in [0, 1]; the bimodal pair "good",
    "bad" reaches 0. *)
Theorem sentiment_consistency_one_minus_stdev :
  (forall analyses : list Analysis,
     analyses <> [] ->
     exists p,
       build_user_style_profile analyses = Profile.Dict p
       /\ Profile.sentiment_consistency (Profile.sentiment_tendencies p)
          = (1 - population_stdev
                   (map (fun a => Q2R (polarity (sentiment a))) analyses))%R)
  /\ (forall a : Analysis,
        consistency_of
          (build_user_style_profile [with_polarity 3 a; with_polarity (-3) a])
        = Some (-2)%R)
  /\ (forall texts : list string,
        texts <> [] ->
        exists p,
          build_user_style_profile (map analyze_writing_sample texts)
          = Profile.Dict p
          /\ (0 <= Profile.sentiment_consistency
                     (Profile.sentiment_tendencies p) <= 1)%R)
  /\ consistency_of
       (build_user_style_profile (map analyze_writing_sample ["good"; "bad"]))
     = Some 0%R.
Proof.
  split; [|split; [|split]].
  - intros analyses Hne.
    destruct (build_profile_of_samples analyses Hne) as (p & Hp & _ & _ & Hs).
    exists p. split; [exact Hp|]. rewrite Hs.
    cbn [_determine_sentiment_tendencies Profile.sentiment_consistency].
    rewrite np_std_population_stdev
      by (destruct analyses; [congruence | discriminate]).
    now rewrite map_map.
  - intros a.
    cbn [build_user_style_profile is_nil consistency_of
           Profile.sentiment_tendencies _determine_sentiment_tendencies
           Profile.sentiment_consistency map with_polarity sentiment polarity].
    rewrite (np_std_of_square _ 3)
      by (vm_compute; first [reflexivity | discriminate]).
    f_equal. unfold Q2R. simpl. lra.
  - intros texts Hne.
    destruct (build_profile_of_samples (map analyze_writing_sample texts))
      as (p & Hp & _ & _ & Hs);
      [destruct texts; [congruence | discriminate]|].
    exists p. split; [exact Hp|]. rewrite Hs.
    now apply extracted_consistency_range.
  - cbn [build_user_style_profile is_nil consistency_of map
           Profile.sentiment_tendencies _determine_sentiment_tendencies
           Profile.sentiment_consistency].
    rewrite (np_std_of_square _ 1)
      by (vm_compute; first [reflexivity | discriminate]).
    f_equal. unfold Q2R. simpl. lra.
Qed.

Lemma sentiment_consistency_one_minus_stdev_witness :
  map analyze_writing_sample ["good"; "bad"; "good"] <> []
  /\ ["good"; "bad"; "good"] <> []
  /\ (exists p,
        build_user_style_profile
          (map analyze_writing_sample ["good"; "bad"; "good"])
        = Profile.Dict p
        /\ Profile.sentiment_consistency (Profile.sentiment_tendencies p)
           = (1 - population_stdev
                    (map (fun a => Q2R (polarity (sentiment a)))
                         (map analyze_writing_sample ["good"; "bad"; "good"])))%R
        /\ (0 <= Profile.sentiment_consistency
                   (Profile.sentiment_tendencies p) <= 1)%R).
Proof.
  assert (Ha : map analyze_writing_sample ["good"; "bad"; "good"] <> [])
    by discriminate.
  assert (Ht : ["good"; "bad"; "good"] <> []) by discriminate.
  split; [exact Ha|]. split; [exact Ht|].
  destruct sentiment_consistency_one_minus_stdev as (Heq & _ & Hrange & _).
  destruct (Heq _ Ha) as (p & Hp & Hc).
  destruct (Hrange _ Ht) as (p' & Hp' & Hr).
  exists p. split; [exact Hp|]. split; [exact Hc|].
  rewrite Hp in Hp'. injection Hp' as <-. exact Hr.
Defined.

End Consistency.

(** ** Generation without a style profile *)

Section Generic.
Import Py ContentGenerator.

(** C5, as the specification states it, fails: without a profile the
    prompt "Write a poem" is not forwarded as it is, it is sent inside the
    sentence "Please help with this request: Write a poem". *)
Lemma generic_prompt_is_wrapped :
  generate_personalized_content (fun _ _ _ => "") "Write a poem" None "general"
  = GenerateText "Please help with this request: Write a poem"
      "llama2:3b-chat" (fun text => Ret (Returns text))
  /\ requests (fun _ _ => "A poem.")
       (generate_personalized_content (fun _ _ _ => "") "Write a poem" None
          "general")
     <> [("Write a poem", "llama2:3b-chat")].
Proof.
  split; [reflexivity | discriminate].
Qed.

(** C5, amended. When no style profile is supplied ([None] or the empty
    dict), generation builds no style prompt and refines nothing: it
    sends one request, the prompt prefixed with "Please help with this
    request: ", for the default model, and returns the text that comes
    back as it is. *)
Theorem no_profile_sends_generic_request :
  forall (_build_style_prompt : string -> gmap string PyVal -> string -> string)
         (prompt context : string)
         (user_style_profile : option (gmap string PyVal)),
    user_style_profile = None \/ user_style_profile = Some ∅ ->
    generate_personalized_content _build_style_prompt prompt
      user_style_profile context
    = GenerateText ("Please help with this request: " ++ prompt)
        "llama2:3b-chat" (fun text => Ret (Returns text))
    /\ forall service : string -> string -> string,
         requests service
           (generate_personalized_content _build_style_prompt prompt
              user_style_profile context)
         = [("Please help with this request: " ++ prompt, "llama2:3b-chat")]
         /\ run service
              (generate_personalized_content _build_style_prompt prompt
                 user_style_profile context)
            = Returns
                (service ("Please help with this request: " ++ prompt)
                         "llama2:3b-chat").
Proof.
  intros build prompt context profile Hnone.
  assert (Hgen : generate_personalized_content build prompt profile context
                 = _generate_generic_content prompt).
  { destruct Hnone as [-> | ->]; [reflexivity|].
    unfold generate_personalized_content.
    now rewrite bool_decide_eq_true_2 by reflexivity. }
  rewrite Hgen. split; [reflexivity|].
  intros service. split; reflexivity.
Qed.

Lemma no_profile_sends_generic_request_witness :
  (Some (∅ : gmap string PyVal) = None
   \/ Some (∅ : gmap string PyVal) = Some ∅)
  /\ run (fun prompt model => "echo: " ++ prompt)
       (generate_personalized_content (fun _ _ _ => "styled") "Write a poem"
          (Some ∅) "creative")
     = Returns "echo: Please help with this request: Write a poem".
Proof.
  split; [right; reflexivity|].
  destruct (no_profile_sends_generic_request
              (fun _ _ _ => "styled") "Write a poem" "creative" (Some ∅)
              (or_intror eq_refl)) as [_ Hrun].
  destruct (Hrun (fun prompt model => "echo: " ++ prompt)) as [_ ->].
  reflexivity.
Defined.

End Generic.

(** ** The sentence-length pass of the refiner *)

Section Refiner.
Import Py ContentGenerator Spec.

Lemma is_conjunction_In word :
  existsb (String.eqb (lower word)) conjunctions = true
  <-> In (lower word) conjunctions.
Proof.
  rewrite existsb_exists. split.
  - intros (c & Hin & Heq). apply String.eqb_eq in Heq. now subst.
  - intros Hin. exists (lower word). split; [exact Hin|].
    apply String.eqb_refl.
Qed.

(** What the loop of [_break_long_sentences] finds, the head of [words]
    having index [k]. *)
Lemma find_break_found k words i :
  find_break k words = Some i ->
  (k <= i)%nat /\ (8 < i)%nat
  /\ conjunction_at words (i - k)
  /\ forall j, (k <= j)%nat -> (8 < j)%nat -> (j < i)%nat ->
               ~ conjunction_at words (j - k).
Proof.
  revert k. induction words as [|word rest IH]; intros k Hfind;
    [discriminate|].
  cbn [find_break] in Hfind.
  destruct (existsb (String.eqb (lower word)) conjunctions && (8 <? k)%nat)
    eqn:Hhere.
  - injection Hfind as <-. apply andb_true_iff in Hhere as [Hc Hk].
    apply Nat.ltb_lt in Hk. apply is_conjunction_In in Hc.
    repeat split; [lia | exact Hk | | intros; lia].
    exists word. rewrite Nat.sub_diag. split; [reflexivity | exact Hc].
  - destruct (IH _ Hfind) as (Hle & H8 & (w & Hw & Hc) & Hfirst).
    repeat split; [lia | exact H8 | |].
    + exists w. split; [|exact Hc].
      replace (i - k)%nat with (S (i - S k)) by lia. exact Hw.
    + intros j Hkj H8j Hji (w' & Hw' & Hc').
      destruct (Nat.eq_dec j k) as [->|Hne].
      * rewrite Nat.sub_diag in Hw'. injection Hw' as <-.
        apply is_conjunction_In in Hc'. rewrite Hc' in Hhere.
        apply Nat.ltb_lt in H8j. rewrite H8j in Hhere. discriminate.
      * apply (Hfirst j); [lia | exact H8j | exact Hji |].
        exists w'. split; [|exact Hc'].
        replace (j - k)%nat with (S (j - S k)) in Hw' by lia. exact Hw'.
Qed.

Lemma find_break_none k words :
  find_break k words = None ->
  forall j, (8 < k + j)%nat -> ~ conjunction_at words j.
Proof.
  revert k.
  induction words as [|word rest IH]; intros k Hfind j H8 (w & Hw & Hc).
  - destruct j; discriminate.
  - cbn [find_break] in Hfind.
    destruct (existsb (String.eqb (lower word)) conjunctions && (8 <? k)%nat)
      eqn:Hhere; [discriminate|].
    destruct j as [|j].
    + injection Hw as <-. apply is_conjunction_In in Hc.
      rewrite Hc in Hhere. replace (k + 0)%nat with k in H8 by lia.
      apply Nat.ltb_lt in H8. rewrite H8 in Hhere. discriminate.
    + apply (IH _ Hfind j); [lia|]. exists w. split; assumption.
Qed.

Lemma find_break_first words i :
  first_break words i -> find_break 0 words = Some i.
Proof.
  intros (H8 & Hconj & Hfirst).
  destruct (find_break 0 words) as [i'|] eqn:Hfind.
  - destruct (find_break_found _ _ _ Hfind) as (_ & H8' & Hconj' & Hfirst').
    rewrite Nat.sub_0_r in Hconj'.
    destruct (Nat.lt_trichotomy i i') as [Hlt | [-> | Hgt]];
      [|reflexivity|].
    + exfalso. apply (Hfirst' i); [lia | exact H8 | exact Hlt |].
      now rewrite Nat.sub_0_r.
    + exfalso. now apply (Hfirst i').
  - exfalso. apply (find_break_none _ _ Hfind i); [lia | exact Hconj].
Qed.

Lemma find_break_no_break words :
  no_break words -> find_break 0 words = None.
Proof.
  intros Hnone. destruct (find_break 0 words) as [i|] eqn:Hfind;
    [|reflexivity].
  destruct (find_break_found _ _ _ Hfind) as (_ & H8 & Hconj & _).
  rewrite Nat.sub_0_r in Hconj. exfalso. now apply (Hnone i).
Qed.

Lemma processed_sentences (f : string -> list string) pieces :
  flat_map
    (fun sentence =>
       if nonempty (strip sentence) then f (strip sentence) else [])
    pieces
  = flat_map f (List.filter nonempty (map strip pieces)).
Proof.
  induction pieces as [|piece pieces IH]; [reflexivity|].
  cbn [flat_map map List.filter]. destruct (nonempty (strip piece)).
  - cbn [flat_map]. now rewrite IH.
  - exact IH.
Qed.

Lemma break_long_sentences_unfold text :
  _break_long_sentences text
  = join ". " (flat_map break_sentence (refiner_sentences text)) ++ ".".
Proof.
  unfold _break_long_sentences, refiner_sentences. cbv zeta.
  now rewrite processed_sentences.
Qed.

(** C7. With a target average sentence length below 12 the refiner reads
    the text sentence by sentence and joins what each sentence yields with
    ". ". A sentence of more than 25 words is split at the first index
    above 8 that holds one of and, but, so, because, while: it yields the
    words before the conjunction and the words after it, two parts, the
    conjunction gone. A sentence of more than 25 words without such a
    conjunction, and a sentence of at most 25 words, yield themselves. *)
Theorem refiner_breaks_long_sentences :
  (forall (text : string) (style_profile : gmap string PyVal) (target : Q),
     style_profile !! "avg_sentence_length" = Some (PNum target) ->
     (target < 12)%Q ->
     _refine_with_style text style_profile
     = Returns
         (strip
            (adjust_formality style_profile
               (join ". " (flat_map break_sentence (refiner_sentences text))
                ++ "."))))
  /\ (forall (sentence : string) (i : nat),
        (25 < List.length (split sentence))%nat ->
        first_break (split sentence) i ->
        break_sentence sentence
        = [ join " " (firstn i (split sentence));
            join " " (skipn (S i) (split sentence)) ])
  /\ (forall sentence : string,
        (25 < List.length (split sentence))%nat ->
        no_break (split sentence) ->
        break_sentence sentence = [sentence])
  /\ (forall sentence : string,
        (List.length (split sentence) <= 25)%nat ->
        break_sentence sentence = [sentence]).
Proof.
  split; [|split; [|split]].
  - intros text style_profile target Hget Hlt.
    unfold _refine_with_style, get_number. rewrite Hget. cbn [bind].
    unfold adjust_length.
    apply Qltb_lt in Hlt. rewrite Hlt.
    now rewrite break_long_sentences_unfold.
  - intros sentence i Hlong Hfirst. unfold break_sentence.
    apply Nat.ltb_lt in Hlong. rewrite Hlong.
    now rewrite (find_break_first _ _ Hfirst).
  - intros sentence Hlong Hnone. unfold break_sentence.
    apply Nat.ltb_lt in Hlong. rewrite Hlong.
    now rewrite (find_break_no_break _ Hnone).
  - intros sentence Hshort. unfold break_sentence.
    apply Nat.ltb_ge in Hshort. now rewrite Hshort.
Qed.

Lemma no_conjunction_no_break words :
  forallb (fun word => negb (existsb (String.eqb (lower word)) conjunctions))
          words = true ->
  no_break words.
Proof.
  intros Hall j _ (word & Hword & Hconj).
  apply nth_error_In in Hword.
  rewrite forallb_forall in Hall. specialize (Hall word Hword).
  apply is_conjunction_In in Hconj. rewrite Hconj in Hall. discriminate.
Qed.

Lemma refiner_breaks_long_sentences_witness :
  Examples.short_profile !! "avg_sentence_length" = Some (PNum 8)
  /\ (8 < 12)%Q
  /\ (25 < List.length (split Examples.long_sentence))%nat
  /\ first_break (split Examples.long_sentence) 10
  /\ (25 < List.length (split Examples.plain_sentence))%nat
  /\ no_break (split Examples.plain_sentence)
  /\ (List.length (split "Is it short") <= 25)%nat
  /\ _refine_with_style Examples.long_text Examples.short_profile
     = Returns
         "one two three four five six seven eight nine ten. twelve thirteen fourteen fifteen sixteen seventeen eighteen nineteen twenty w21 w22 w23 w24 w25 w26 w27. Is it short."
  /\ break_sentence Examples.long_sentence
     = [ "one two three four five six seven eight nine ten";
         "twelve thirteen fourteen fifteen sixteen seventeen eighteen nineteen twenty w21 w22 w23 w24 w25 w26 w27" ]
  /\ break_sentence Examples.plain_sentence = [Examples.plain_sentence]
  /\ break_sentence "Is it short" = ["Is it short"].
Proof.
  assert (Hget : Examples.short_profile !! "avg_sentence_length"
                 = Some (PNum 8)) by (vm_compute; reflexivity).
  assert (Hlt : (8 < 12)%Q) by reflexivity.
  assert (Hlong : (25 < List.length (split Examples.long_sentence))%nat)
    by (vm_compute; lia).
  assert (Hfirst : first_break (split Examples.long_sentence) 10).
  { split; [lia|]. split.
    - exists "and". split; [reflexivity|]. vm_compute. tauto.
    - intros j H8 H10. assert (j = 9)%nat as -> by lia.
      intros (word & Hword & Hconj). vm_compute in Hword.
      injection Hword as <-. vm_compute in Hconj.
      repeat destruct Hconj as [Hconj|Hconj]; try discriminate; exact Hconj. }
  assert (Hplain : (25 < List.length (split Examples.plain_sentence))%nat)
    by (vm_compute; lia).
  assert (Hnone : no_break (split Examples.plain_sentence))
    by (apply no_conjunction_no_break; vm_compute; reflexivity).
  assert (Hshort : (List.length (split "Is it short") <= 25)%nat)
    by (vm_compute; lia).
  destruct refiner_breaks_long_sentences as (Hrefine & Hsplit & Hkeep & Hpass).
  repeat (split; [assumption|]).
  split; [|split; [|split]].
  - rewrite (Hrefine _ _ _ Hget Hlt). vm_compute. reflexivity.
  - rewrite (Hsplit _ _ Hlong Hfirst). vm_compute. reflexivity.
  - exact (Hkeep _ Hplain Hnone).
  - exact (Hpass _ Hshort).
Defined.

End Refiner.

(** ** Sentence terminators after the sentence-length pass *)

Section Marks.
Import Py ContentGenerator Spec.

Variable P : ascii -> bool.

Lemma append_cons c (a b : string) : String c a ++ b = String c (a ++ b).
Proof. reflexivity. Qed.

Lemma all_chars_app a b :
  all_chars P (a ++ b) = all_chars P a && all_chars P b.
Proof.
  induction a as [|c a IH]; [reflexivity|].
  rewrite append_cons. cbn [all_chars]. now rewrite IH, andb_assoc.
Qed.

Lemma all_chars_lstrip s :
  all_chars P s = true -> all_chars P (lstrip s) = true.
Proof.
  induction s as [|c s IH]; [reflexivity|].
  intros H. cbn [lstrip]. destruct (isspace c); [|exact H].
  apply IH. cbn [all_chars] in H. now apply andb_true_iff in H.
Qed.

Lemma all_chars_rstrip s :
  all_chars P s = true -> all_chars P (rstrip s) = true.
Proof.
  induction s as [|c s IH]; [reflexivity|].
  intros H. cbn [all_chars] in H. apply andb_true_iff in H as [Hc Hs].
  specialize (IH Hs). cbn [rstrip]. destruct (rstrip s) as [|d r'].
  - destruct (isspace c); [reflexivity|].
    cbn [all_chars]. now rewrite Hc.
  - cbn [all_chars] in *. now rewrite Hc.
Qed.

Lemma all_chars_strip s :
  all_chars P s = true -> all_chars P (strip s) = true.
Proof.
  intros H. unfold strip. now apply all_chars_rstrip, all_chars_lstrip.
Qed.

Lemma all_parts_cons_word w ws :
  all_chars P w = true -> all_parts P ws -> all_parts P (cons_word w ws).
Proof.
  intros Hw Hws. destruct w; [exact Hws|]. now constructor.
Qed.

Lemma all_chars_split_scan s :
  all_chars P s = true ->
  all_chars P (fst (split_scan s)) = true /\ all_parts P (snd (split_scan s)).
Proof.
  induction s as [|c s IH]; intros H.
  - split; [reflexivity | constructor].
  - cbn [all_chars] in H. apply andb_true_iff in H as [Hc Hs].
    destruct (IH Hs) as [Hw Hws]. cbn [split_scan].
    destruct (split_scan s) as [w ws]. cbn [fst snd] in *.
    destruct (isspace c); cbn [fst snd].
    + split; [reflexivity | now apply all_parts_cons_word].
    + split; [cbn [all_chars]; now rewrite Hc | exact Hws].
Qed.

Lemma all_chars_split s :
  all_chars P s = true -> all_parts P (split s).
Proof.
  intros H. destruct (all_chars_split_scan s H) as [Hw Hws].
  unfold split. destruct (split_scan s) as [w ws].
  now apply all_parts_cons_word.
Qed.

Lemma all_chars_join sep parts :
  all_chars P sep = true -> all_parts P parts ->
  all_chars P (join sep parts) = true.
Proof.
  intros Hsep Hparts. unfold join.
  induction Hparts as [|part parts Hpart _ IH]; [reflexivity|].
  cbn [String.concat]. destruct parts as [|next parts]; [exact Hpart|].
  now rewrite !all_chars_app, Hpart, Hsep, IH.
Qed.

Lemma all_chars_lower s :
  (forall c, P c = true -> P (lower_char c) = true) ->
  all_chars P s = true -> all_chars P (lower s) = true.
Proof.
  intros Hlow. induction s as [|c s IH]; [reflexivity|].
  cbn [all_chars lower]. intros H. apply andb_true_iff in H as [Hc Hs].
  now rewrite (Hlow c Hc), IH.
Qed.

(** The pieces that [re.split] returns hold no separator. *)
Lemma all_chars_re_split_scan runs sep s :
  (forall c, sep c = false -> P c = true) ->
  all_chars P (fst (re_split_scan runs sep s)) = true
  /\ all_parts P (snd (re_split_scan runs sep s)).
Proof.
  intros Hsep. induction s as [|c s [Hw Hws]].
  - split; [reflexivity | constructor].
  - cbn [re_split_scan]. destruct (re_split_scan runs sep s) as [w ws].
    cbn [fst snd] in *. destruct (sep c) eqn:Hc.
    + destruct (runs && _); cbn [fst snd].
      * split; assumption.
      * split; [reflexivity | now constructor].
    + cbn [fst snd all_chars]. rewrite (Hsep c Hc). now split.
Qed.

Lemma all_chars_re_split runs sep s :
  (forall c, sep c = false -> P c = true) ->
  all_parts P (re_split runs sep s).
Proof.
  intros Hsep. destruct (all_chars_re_split_scan runs sep s Hsep) as [Hw Hws].
  unfold re_split. destruct (re_split_scan runs sep s) as [w ws].
  now constructor.
Qed.

Lemma all_chars_break_sentence sentence :
  P " " = true -> all_chars P sentence = true ->
  all_parts P (break_sentence sentence).
Proof.
  intros Hspace H. unfold break_sentence.
  pose proof (all_chars_split sentence H) as Hwords.
  assert (Hsep : all_chars P " " = true)
    by (cbn [all_chars]; now rewrite Hspace).
  destruct (25 <? List.length (split sentence))%nat;
    [|now repeat constructor].
  destruct (find_break 0 (split sentence)) as [i|];
    [|now repeat constructor].
  repeat constructor; apply all_chars_join; try exact Hsep.
  - now apply Forall_take.
  - now apply (Forall_drop _ (S i)).
Qed.

Lemma all_chars_combine_scan sentences :
  (forall c, P c = true -> P (lower_char c) = true) ->
  all_chars P ", and " = true ->
  all_parts P sentences -> all_parts P (combine_scan sentences).
Proof.
  intros Hlow Hand.
  assert (Hboth : forall rest, all_parts P rest ->
            all_parts P (combine_scan rest)
            /\ forall current, all_chars P current = true ->
                               all_parts P (combine_scan (current :: rest))).
  { induction 1 as [|next rest Hnext Hrest [IH1 IH2]].
    - split; [constructor|]. intros current Hcur. cbn [combine_scan].
      destruct (_ <? 8)%nat; now repeat constructor.
    - split; [now apply IH2|]. intros current Hcur.
      cbn [combine_scan]. fold (combine_scan rest).
      destruct (_ <? 8)%nat.
      + constructor; [|exact IH1].
        rewrite !all_chars_app, Hcur, Hand. cbn [andb].
        now apply all_chars_lower.
      + constructor; [exact Hcur | now apply IH2]. }
  intros Hall. now apply Hboth.
Qed.

Lemma all_chars_re_sub_word word repl prev skip s :
  all_chars P repl = true -> all_chars P s = true ->
  all_chars P (re_sub_word word repl prev skip s) = true.
Proof.
  intros Hrepl. revert prev skip.
  induction s as [|c s IH]; intros prev skip H; [reflexivity|].
  cbn [all_chars] in H. apply andb_true_iff in H as [Hc Hs].
  cbn [re_sub_word]. destruct skip as [|k]; [|now apply IH].
  destruct (word_here_ci word prev (String c s)).
  - rewrite all_chars_app, Hrepl. now apply IH.
  - cbn [all_chars]. rewrite Hc. now apply IH.
Qed.

Lemma all_chars_substitute replacements text :
  Forall (fun '(_, repl) => all_chars P repl = true) replacements ->
  all_chars P text = true ->
  all_chars P (substitute replacements text) = true.
Proof.
  unfold substitute. intros Hall. revert text.
  induction Hall as [|[word repl] rest Hrepl _ IH]; intros text H;
    [exact H|].
  cbn [fold_left]. apply IH. now apply all_chars_re_sub_word.
Qed.

End Marks.

Section Period.
Import Py ContentGenerator Spec.

Lemma last_cons c s : s <> "" -> last (String c s) = last s.
Proof. destruct s; [congruence | reflexivity]. Qed.

Lemma last_nonempty s c : last s = Some c -> s <> "".
Proof. destruct s; [discriminate | congruence]. Qed.

Lemma last_app a b : b <> "" -> last (a ++ b) = last b.
Proof.
  intros Hb. induction a as [|c a IH]; [reflexivity|].
  rewrite append_cons, last_cons; [exact IH|].
  destruct a; [exact Hb | discriminate].
Qed.

Lemma last_lstrip s c :
  last s = Some c -> isspace c = false -> last (lstrip s) = Some c.
Proof.
  intros Hlast Hc. induction s as [|d s IH]; [discriminate|].
  cbn [lstrip]. destruct (isspace d) eqn:Hd; [|exact Hlast].
  destruct s as [|e s'].
  - injection Hlast as <-. congruence.
  - apply IH. now rewrite last_cons in Hlast.
Qed.

Lemma rstrip_keeps s c :
  last s = Some c -> isspace c = false -> rstrip s = s.
Proof.
  intros Hlast Hc. induction s as [|d s IH]; [reflexivity|].
  cbn [rstrip]. destruct s as [|e s'].
  - injection Hlast as <-. cbn [rstrip]. now rewrite Hc.
  - rewrite last_cons in Hlast by discriminate. now rewrite (IH Hlast).
Qed.

Lemma last_strip s c :
  last s = Some c -> isspace c = false -> last (strip s) = Some c.
Proof.
  intros Hlast Hc. unfold strip.
  pose proof (last_lstrip s c Hlast Hc) as Hl.
  now rewrite (rstrip_keeps _ _ Hl Hc).
Qed.

Lemma lower_keeps_period s :
  mem_char "." (lower s) = false -> mem_char "." s = false.
Proof.
  induction s as [|c s IH]; [reflexivity|].
  cbn [lower mem_char]. intros H. apply orb_false_iff in H as [Hc Hs].
  rewrite (IH Hs), orb_false_r.
  destruct (Ascii.eqb_spec "." c) as [<-|]; [|reflexivity].
  discriminate Hc.
Qed.

Lemma take_cons n c s : take (S n) (String c s) = String c (take n s).
Proof. reflexivity. Qed.

(** A period is never part of a match, so the period that closes a text
    outlives every substitution. *)
Lemma re_sub_word_last word repl :
  word <> "" -> mem_char "." word = false ->
  forall s prev skip,
    last s = Some "."%char ->
    mem_char "." (take skip s) = false ->
    last (re_sub_word word repl prev skip s) = Some "."%char.
Proof.
  intros Hword Hdot. destruct word as [|w0 wr]; [congruence|].
  induction s as [|c s IH]; intros prev skip Hlast Hskip; [discriminate|].
  destruct s as [|d s'].
  - injection Hlast as ->. destruct skip as [|k]; [|discriminate Hskip].
    cbn [re_sub_word]. unfold word_here_ci.
    replace (String.eqb (lower (take (len (String w0 wr)) ".")) (String w0 wr))
      with false; [now rewrite andb_false_r|].
    symmetry. apply String.eqb_neq. intros Heq.
    cbn [len String.length] in Heq. rewrite take_cons in Heq.
    cbn [lower] in Heq. rewrite <- Heq in Hdot. discriminate Hdot.
  - rewrite last_cons in Hlast by discriminate.
    cbn [re_sub_word]. destruct skip as [|k].
    + destruct (word_here_ci (String w0 wr) prev (String c (String d s')))
        eqn:Hhere.
      * assert (Hrec : last (re_sub_word (String w0 wr) repl (Some c)
                               (len (String w0 wr) - 1) (String d s'))
                       = Some "."%char).
        { apply IH; [exact Hlast|].
          unfold word_here_ci in Hhere.
          apply andb_true_iff in Hhere as [Hhere _].
          apply andb_true_iff in Hhere as [_ Heq].
          apply String.eqb_eq in Heq.
          cbn [len String.length] in *.
          replace (S (String.length wr) - 1)%nat with (String.length wr)
            by lia.
          rewrite take_cons in Heq. cbn [lower] in Heq.
          apply lower_keeps_period.
          rewrite <- Heq in Hdot. cbn [mem_char] in Hdot.
          now apply orb_false_iff in Hdot. }
        rewrite last_app; [exact Hrec | now apply last_nonempty in Hrec].
      * assert (Hrec : last (re_sub_word (String w0 wr) repl (Some c) 0
                               (String d s')) = Some "."%char)
          by (apply IH; [exact Hlast | reflexivity]).
        rewrite last_cons; [exact Hrec | now apply last_nonempty in Hrec].
    + apply IH; [exact Hlast|].
      rewrite take_cons in Hskip. cbn [mem_char] in Hskip.
      now apply orb_false_iff in Hskip.
Qed.

Lemma substitute_last replacements text :
  Forall (fun '(word, _) => word <> "" /\ mem_char "." word = false)
         replacements ->
  last text = Some "."%char ->
  last (substitute replacements text) = Some "."%char.
Proof.
  unfold substitute. intros Hall. revert text.
  induction Hall as [|[word repl] rest [Hword Hdot] _ IH]; intros text H;
    [exact H|].
  cbn [fold_left]. apply IH. now apply re_sub_word_last.
Qed.

Lemma no_mark_mem s :
  all_chars no_mark s = true ->
  mem_char "!" s = false /\ mem_char "?" s = false.
Proof.
  induction s as [|c s IH]; [now split|].
  cbn [all_chars mem_char]. intros H. apply andb_true_iff in H as [Hc Hs].
  destruct (IH Hs) as [-> ->]. unfold no_mark in Hc.
  apply andb_true_iff in Hc as [H1 H2].
  apply negb_true_iff in H1, H2. now rewrite H1, H2.
Qed.

Lemma no_mark_lower c : no_mark c = true -> no_mark (lower_char c) = true.
Proof.
  destruct c as [[] [] [] [] [] [] [] []]; vm_compute; congruence.
Qed.

Lemma no_mark_not_sentence_end c : sentence_end c = false -> no_mark c = true.
Proof.
  destruct c as [[] [] [] [] [] [] [] []]; vm_compute; congruence.
Qed.

Lemma adjust_length_marks target text :
  (target < 12 \/ 20 < target)%Q ->
  all_chars no_mark (adjust_length target text) = true
  /\ last (adjust_length target text) = Some "."%char.
Proof.
  intros Hruns.
  assert (Hpieces : all_parts no_mark
                      (map strip (List.filter (fun s => nonempty (strip s))
                                    (re_split false sentence_end text)))).
  { apply Forall_map.
    pose proof (all_chars_re_split no_mark false sentence_end text
                  no_mark_not_sentence_end) as Hall.
    induction Hall as [|piece pieces Hpiece _ IH]; [constructor|].
    cbn [List.filter]. destruct (nonempty (strip piece)); [|exact IH].
    constructor; [now apply all_chars_strip | exact IH]. }
  assert (Hjoin : forall processed,
            all_parts no_mark processed ->
            all_chars no_mark (join ". " processed ++ ".") = true
            /\ last (join ". " processed ++ ".") = Some "."%char).
  { intros processed Hall. split.
    - rewrite all_chars_app, all_chars_join by (reflexivity || exact Hall).
      reflexivity.
    - now rewrite last_app. }
  unfold adjust_length. destruct (Qltb target 12) eqn:Hshort.
  - rewrite break_long_sentences_unfold. apply Hjoin. clear Hpieces Hjoin.
    apply Forall_flat_map. unfold refiner_sentences.
    pose proof (all_chars_re_split no_mark false sentence_end text
                  no_mark_not_sentence_end) as Hall.
    induction Hall as [|piece pieces Hpiece _ IH]; [constructor|].
    cbn [map List.filter]. destruct (nonempty (strip piece)); [|exact IH].
    constructor; [|exact IH].
    apply all_chars_break_sentence; [reflexivity|].
    now apply all_chars_strip.
  - destruct Hruns as [Hlt | Hgt];
      [apply Qltb_lt in Hlt; congruence|].
    apply Qltb_lt in Hgt. rewrite Hgt.
    unfold _combine_short_sentences. cbv zeta. apply Hjoin.
    apply all_chars_combine_scan;
      [exact no_mark_lower | reflexivity | exact Hpieces].
Qed.

Lemma casual_replacements_plain :
  Forall (fun '(_, repl) => all_chars no_mark repl = true) casual_replacements
  /\ Forall (fun '(word, _) => word <> "" /\ mem_char "." word = false)
            casual_replacements.
Proof. split; repeat constructor; discriminate. Qed.

Lemma formal_replacements_plain :
  Forall (fun '(_, repl) => all_chars no_mark repl = true) formal_replacements
  /\ Forall (fun '(word, _) => word <> "" /\ mem_char "." word = false)
            formal_replacements.
Proof. split; repeat constructor; discriminate. Qed.

Lemma adjust_formality_marks style_profile text :
  all_chars no_mark text = true -> last text = Some "."%char ->
  all_chars no_mark (adjust_formality style_profile text) = true
  /\ last (adjust_formality style_profile text) = Some "."%char.
Proof.
  intros Hmarks Hlast. unfold adjust_formality.
  destruct (get_is style_profile "formality_preference" "neutral" "casual").
  - destruct casual_replacements_plain as [Hrepl Hwords]. split.
    + now apply all_chars_substitute.
    + now apply substitute_last.
  - destruct (get_is style_profile "formality_preference" "neutral" "formal").
    + destruct formal_replacements_plain as [Hrepl Hwords]. split.
      * now apply all_chars_substitute.
      * now apply substitute_last.
    + now split.
Qed.

(** C10. Whenever the sentence-length pass of the refiner runs (the
    profile holds a target average sentence length below 12 or above 20),
    the refiner returns a text without '!' and without '?' that ends with
    a period: either pass splits the text at '.', '!' and '?' and joins
    the sentences again with ". " and a closing ".". *)
Theorem refined_text_ends_sentences_with_periods :
  forall (text : string) (style_profile : gmap string PyVal) (target : Q),
    style_profile !! "avg_sentence_length" = Some (PNum target) ->
    (target < 12 \/ 20 < target)%Q ->
    exists refined : string,
      _refine_with_style text style_profile = Returns refined
      /\ mem_char "!" refined = false
      /\ mem_char "?" refined = false
      /\ endswith_char "." refined = true.
Proof.
  intros text style_profile target Hget Hruns.
  unfold _refine_with_style, get_number. rewrite Hget. cbn [bind].
  eexists. split; [reflexivity|].
  destruct (adjust_length_marks target text Hruns) as [Hmarks Hlast].
  destruct (adjust_formality_marks style_profile _ Hmarks Hlast)
    as [Hmarks' Hlast'].
  destruct (no_mark_mem _ (all_chars_strip no_mark _ Hmarks')) as [Hbang Hq].
  repeat split; [exact Hbang | exact Hq |].
  unfold endswith_char. now rewrite (last_strip _ _ Hlast').
Qed.

Lemma refined_text_ends_sentences_with_periods_witness :
  Examples.long_profile !! "avg_sentence_length" = Some (PNum 25)
  /\ (25 < 12 \/ 20 < 25)%Q
  /\ _refine_with_style "Is it so? Yes! It is, but wait" Examples.long_profile
     = Returns "Is it therefore, and yes. It is, however wait."
  /\ mem_char "!" "Is it therefore, and yes. It is, however wait." = false
  /\ mem_char "?" "Is it therefore, and yes. It is, however wait." = false
  /\ endswith_char "." "Is it therefore, and yes. It is, however wait." = true.
Proof.
  assert (Hget : Examples.long_profile !! "avg_sentence_length"
                 = Some (PNum 25)) by (vm_compute; reflexivity).
  assert (Hruns : (25 < 12 \/ 20 < 25)%Q) by (right; reflexivity).
  split; [exact Hget|]. split; [exact Hruns|].
  destruct (refined_text_ends_sentences_with_periods
              "Is it so? Yes! It is, but wait" Examples.long_profile 25
              Hget Hruns) as (refined & Hrefined & Hbang & Hq & Hend).
  assert (Hout : _refine_with_style "Is it so? Yes! It is, but wait"
                   Examples.long_profile
                 = Returns "Is it therefore, and yes. It is, however wait.")
    by (vm_compute; reflexivity).
  rewrite Hout in Hrefined. injection Hrefined as <-.
  repeat split; assumption.
Defined.

End Period.

(** ** The repository's own tests, run on the embedding *)

Section Tests.
Import Py StyleAnalyzer ContentGenerator.

(** [test_emotion_detection_finds_joy] *)
Lemma test_emotion_detection_finds_joy :
  emotional_language
    (analyze_writing_sample
       "I am very happy and excited today! Life is wonderful.")
  !! "joy"
  = Some [ "i am very happy and excited today! ";
           "i am very happy and excited today! life is wond" ].
Proof. vm_compute. reflexivity. Qed.

(** The snippet pattern on a text with several occurrences: matches are
    greedy to the left and to the right and do not overlap. *)
Lemma findall_context_example :
  findall_context "mad" None 0
    "i am mad. so mad, mad and mad again but not madly nomad mad"
  = [ "i am mad. so mad, mad and mad again but n"; "ot madly nomad mad" ].
Proof. vm_compute. reflexivity. Qed.

(** [test_formality_score_higher_with_formal_markers] *)
Lemma test_formality_score_higher_with_formal_markers :
  (formality_score (analyze_writing_sample "I'm kinda okay, not too fancy.")
   < formality_score
       (analyze_writing_sample
          "However, the situation is therefore considerably improved."))%Q.
Proof. vm_compute. reflexivity. Qed.

(** [test_build_user_style_profile_basic_aggregation] *)
Lemma test_build_user_style_profile_basic_aggregation :
  exists profile,
    build_user_style_profile
      [ analyze_writing_sample "Happy times. Great vibes.";
        analyze_writing_sample "However, this remains problematic." ]
    = Profile.Dict profile
    /\ Profile.sample_count profile = 2%nat.
Proof. eexists. split; reflexivity. Qed.

(** [test_make_more_casual_replacements] *)
Lemma test_make_more_casual_replacements :
  _make_more_casual
    "Therefore, we shall proceed; however, caution is advised."
  = "so, we shall proceed; but, caution is advised.".
Proof. vm_compute. reflexivity. Qed.

(** [test_make_more_formal_replacements] *)
Lemma test_make_more_formal_replacements :
  _make_more_formal "So we go on, but it's okay, also fine."
  = "therefore we go on, however it's okay, furthermore fine.".
Proof. vm_compute. reflexivity. Qed.

(** [test_refine_short_sentences_breaks_long_ones]: the sentence has 17
    words, so it comes back as it is. *)
Lemma test_refine_short_sentences_breaks_long_ones :
  _refine_with_style
    "This is a pretty long sentence because it keeps going and going and might be too verbose."
    (<[ "formality_preference" := PStr "neutral" ]>
       {[ "avg_sentence_length" := PNum 8 ]})
  = Returns
      "This is a pretty long sentence because it keeps going and going and might be too verbose.".
Proof. vm_compute. reflexivity. Qed.

End Tests.
(** ** Words, sentences and syllables *)

Section Words.
Import Py StyleAnalyzer Spec.

Lemma len_lower s : len (lower s) = len s.
Proof.
  induction s as [|c s IH]; [reflexivity|].
  unfold len in *. cbn [lower String.length]. now rewrite IH.
Qed.

Lemma syllable_scan_le prev word : (syllable_scan prev word <= len word)%nat.
Proof.
  revert prev. induction word as [|c word IH]; intros prev; [reflexivity|].
  cbn [syllable_scan len String.length].
  specialize (IH (mem_char c "aeiouy")). unfold len in IH.
  destruct (mem_char c "aeiouy" && negb prev); lia.
Qed.

(** X1. A word never counts zero syllables, not even the empty word or a
    word without vowels, and never more syllables than it has
    characters. *)
Theorem count_syllables_bounds :
  forall word : string,
    (1 <= _count_syllables word)%nat
    /\ (_count_syllables word <= Nat.max 1 (len word))%nat.
Proof.
  intros word. unfold _count_syllables.
  pose proof (syllable_scan_le false (lower word)) as Hle.
  rewrite len_lower in Hle.
  destruct (endswith_char "e" (lower word)
            && (1 <? syllable_scan false (lower word))%nat); lia.
Qed.

Lemma split_scan_cons c r :
  split_scan (String c r)
  = let (w, ws) := split_scan r in
    if isspace c then ("", cons_word w ws) else (String c w, ws).
Proof. reflexivity. Qed.

Lemma split_scan_space c r :
  isspace c = true ->
  split_scan (String c r) = ("", split r).
Proof.
  intros Hc. cbn [split_scan]. unfold split.
  destruct (split_scan r) as [w ws]. now rewrite Hc.
Qed.

Lemma split_cons_space c r : isspace c = true -> split (String c r) = split r.
Proof.
  intros Hc. unfold split at 1. now rewrite split_scan_space.
Qed.

Lemma split_lstrip s : split (lstrip s) = split s.
Proof.
  induction s as [|c s IH]; [reflexivity|].
  cbn [lstrip]. destruct (isspace c) eqn:Hc; [|reflexivity].
  now rewrite split_cons_space.
Qed.

Lemma split_scan_rstrip s : split_scan (rstrip s) = split_scan s.
Proof.
  induction s as [|c s IH]; [reflexivity|].
  cbn [rstrip]. destruct (rstrip s) as [|d r'] eqn:Hr.
  - destruct (isspace c) eqn:Hc; cbn [split_scan]; rewrite <- IH;
      cbn [split_scan]; now rewrite Hc.
  - rewrite (split_scan_cons c (String d r')), (split_scan_cons c s).
    now rewrite IH.
Qed.

Lemma split_strip s : split (strip s) = split s.
Proof.
  unfold strip, split at 1. rewrite split_scan_rstrip.
  apply split_lstrip.
Qed.

Lemma split_scan_collapse s : split_scan (collapse_spaces s) = split_scan s.
Proof.
  induction s as [|c s IH]; [reflexivity|].
  cbn [collapse_spaces]. destruct (isspace c) eqn:Hc.
  - destruct s as [|d s']; cbn [head].
    + cbn [collapse_spaces split_scan]. now rewrite Hc.
    + destruct (isspace d) eqn:Hd.
      * rewrite IH. rewrite (split_scan_space c _ Hc).
        rewrite (split_scan_space d _ Hd).
        now rewrite (split_cons_space d _ Hd).
      * rewrite (split_scan_cons " "), (split_scan_cons c (String d s')).
        rewrite IH. destruct (split_scan (String d s')) as [w ws].
        now rewrite Hc.
  - rewrite (split_scan_cons c (collapse_spaces s)), (split_scan_cons c s).
    now rewrite IH.
Qed.

Lemma split_clean_text text : split (_clean_text text) = split text.
Proof.
  unfold _clean_text, split at 1. rewrite split_scan_collapse.
  apply split_strip.
Qed.

(** X2. Cleaning a text (trimming it and collapsing runs of whitespace)
    does not change its words: the words of the analysis are the words of
    the raw text, and [word_count] is their number. *)
Theorem clean_text_keeps_words :
  forall text : string,
    split (_clean_text text) = split text
    /\ word_count (analyze_writing_sample text) = List.length (split text).
Proof.
  intros text. split; [apply split_clean_text|].
  cbn [analyze_writing_sample word_count]. now rewrite split_clean_text.
Qed.

End Words.

Section Sentences.
Import Py StyleAnalyzer Spec.

Lemma lstrip_head s c : head (lstrip s) = Some c -> isspace c = false.
Proof.
  induction s as [|d s IH]; [discriminate|].
  cbn [lstrip]. destruct (isspace d) eqn:Hd; [exact IH|].
  cbn [head]. congruence.
Qed.

Lemma rstrip_last s c : last (rstrip s) = Some c -> isspace c = false.
Proof.
  induction s as [|d s IH]; [discriminate|].
  cbn [rstrip]. destruct (rstrip s) as [|e r'].
  - destruct (isspace d) eqn:Hd; [discriminate|].
    cbn [last]. congruence.
  - rewrite last_cons by discriminate. exact IH.
Qed.

Lemma rstrip_head s : rstrip s <> "" -> head (rstrip s) = head s.
Proof.
  destruct s as [|d s]; [reflexivity|].
  cbn [rstrip]. destruct (rstrip s); [|reflexivity].
  destruct (isspace d); [congruence | reflexivity].
Qed.

Lemma strip_strip s : strip (strip s) = strip s.
Proof.
  unfold strip. set (t := rstrip (lstrip s)).
  assert (Hl : lstrip t = t).
  { destruct t as [|c t'] eqn:Ht; [reflexivity|].
    assert (Hh : head (lstrip s) = Some c).
    { rewrite <- rstrip_head by (fold t; congruence). fold t.
      now rewrite Ht. }
    cbn [lstrip]. now rewrite (lstrip_head _ _ Hh). }
  rewrite Hl. destruct (last t) as [c|] eqn:Hlast.
  - apply (rstrip_keeps _ _ Hlast). exact (rstrip_last _ _ Hlast).
  - destruct t; [reflexivity|]. exfalso. revert Hlast.
    clear. generalize a. induction t as [|d t IH]; intros c; [discriminate|].
    rewrite last_cons by discriminate. apply IH.
Qed.

(** X3. Every sentence that [_split_into_sentences] returns is non-empty,
    is already stripped of surrounding whitespace, and holds no '.', '!'
    or '?'. *)
Theorem split_into_sentences_shape :
  forall text : string,
    Forall (fun sentence =>
              sentence <> ""
              /\ strip sentence = sentence
              /\ all_chars (fun c => negb (sentence_end c)) sentence = true)
           (_split_into_sentences text).
Proof.
  intros text. unfold _split_into_sentences. cbv zeta.
  pose proof (all_chars_re_split (fun c => negb (sentence_end c)) true
                sentence_end text) as Hall.
  specialize (Hall ltac:(intros c Hc; cbv beta; now rewrite Hc)).
  induction Hall as [|piece pieces Hpiece _ IH]; [constructor|].
  cbn [List.filter]. destruct (nonempty (strip piece)) eqn:Hne; [|exact IH].
  cbn [map]. constructor; [|exact IH]. repeat split.
  - destruct (strip piece); [discriminate | congruence].
  - apply strip_strip.
  - now apply all_chars_strip.
Qed.

End Sentences.

Section Ranges.
Import Py StyleAnalyzer Spec.

Lemma hits_le ws text : (hits ws text <= List.length ws)%nat.
Proof. unfold hits. apply List.filter_length_le. Qed.

Lemma ratio_range a b : (a <= b)%nat -> (0 < b)%nat -> (0 <= ratio a b <= 1)%Q.
Proof.
  intros Hab Hb. unfold ratio.
  assert (Hpos : (0 < inject_Z (Z.of_nat b))%Q).
  { change 0%Q with (inject_Z 0). rewrite <- Zlt_Qlt. lia. }
  split.
  - apply Qle_shift_div_l; [exact Hpos|]. rewrite Qmult_0_l.
    change 0%Q with (inject_Z 0). rewrite <- Zle_Qle. lia.
  - apply Qle_shift_div_r; [exact Hpos|]. rewrite Qmult_1_l.
    rewrite <- Zle_Qle. lia.
Qed.

Lemma ratio_nonneg a b : (0 <= ratio a b)%Q.
Proof.
  unfold ratio. destruct b as [|b].
  - unfold Qdiv, Qinv. simpl. rewrite Qmult_0_r. discriminate.
  - apply Qle_shift_div_l.
    + change 0%Q with (inject_Z 0). rewrite <- Zlt_Qlt. lia.
    + rewrite Qmult_0_l. change 0%Q with (inject_Z 0).
      rewrite <- Zle_Qle. lia.
Qed.

Lemma formality_bounds text_lower :
  (0 <= _calculate_formality text_lower <= 1)%Q.
Proof.
  unfold _calculate_formality.
  destruct (Nat.eqb_spec (hits formal_words text_lower
                          + hits informal_words text_lower) 0) as [E|E].
  - split; discriminate.
  - apply ratio_range; lia.
Qed.

Lemma sentiment_bounds text :
    let s := sentiment (analyze_writing_sample text) in
    let found := (hits positive_words (lower text)
                  + hits negative_words (lower text))%nat in
    (-1 <= polarity s <= 1)%Q
    /\ subjectivity s = ratio found 100
    /\ (found <= 21)%nat
    /\ (0 <= subjectivity s <= 0.21)%Q.
Proof.
  intros s found.
  assert (Hfound : (found <= 21)%nat).
  { unfold found.
    pose proof (hits_le positive_words (lower text)).
    pose proof (hits_le negative_words (lower text)).
    cbn [positive_words negative_words List.length] in *. lia. }
  assert (Hsub : subjectivity s = ratio found 100).
  { unfold s. cbn [analyze_writing_sample sentiment].
    unfold _analyze_sentiment_simple. cbn [subjectivity]. fold found.
    assert (Hlt : (ratio found 100 < 1)%Q).
    { unfold ratio. apply Qlt_shift_div_r; [reflexivity|].
      rewrite Qmult_1_l. rewrite <- Zlt_Qlt. lia. }
    unfold Qmin, GenericMinMax.gmin.
    destruct (1 ?= ratio found 100)%Q eqn:Hcmp; [| |reflexivity].
    - apply Qeq_alt in Hcmp. rewrite <- Hcmp in Hlt.
      now apply Qlt_irrefl in Hlt.
    - apply Qlt_alt in Hcmp. exfalso.
      apply (Qlt_irrefl 1). now apply Qlt_trans with (ratio found 100). }
  split; [apply polarity_bounds|]. split; [exact Hsub|].
  split; [exact Hfound|]. rewrite Hsub. split; [apply ratio_nonneg|].
  unfold ratio. apply Qle_shift_div_r; [reflexivity|].
  apply Qle_trans with (inject_Z 21).
  - rewrite <- Zle_Qle. lia.
  - vm_compute. discriminate.
Qed.

(** X4. The formality score of every text lies in [0, 1]; the polarity
    lies in [-1, 1]; the subjectivity is the number of sentiment words
    found divided by 100, and as the two lists hold 21 words it lies in
    [0, 0.21]: the cap [min(1.0, ...)] never applies. *)
Theorem score_ranges :
  forall text : string,
    let a := analyze_writing_sample text in
    let found := (hits positive_words (lower text)
                  + hits negative_words (lower text))%nat in
    (0 <= formality_score a <= 1)%Q
    /\ (-1 <= polarity (sentiment a) <= 1)%Q
    /\ subjectivity (sentiment a) = ratio found 100
    /\ (0 <= subjectivity (sentiment a) <= 0.21)%Q.
Proof.
  intros text a found.
  destruct (sentiment_bounds text) as (Hp & Hs & _ & Hr).
  split; [apply formality_bounds|]. split; [exact Hp|].
  split; [exact Hs | exact Hr].
Qed.

End Ranges.

Section Metrics.
Import Py StyleAnalyzer Spec Notions.

Lemma distinct_length l : (List.length (distinct l) <= List.length l)%nat.
Proof.
  induction l as [|x l IH]; [reflexivity|].
  cbn [distinct]. destruct (existsb (String.eqb x) l); cbn [List.length]; lia.
Qed.

Lemma split_scan_words s :
  Forall (fun w => w <> "") (snd (split_scan s)).
Proof.
  induction s as [|c s IH]; [constructor|].
  rewrite split_scan_cons. destruct (split_scan s) as [w ws].
  cbn [snd] in *. destruct (isspace c); cbn [snd]; [|exact IH].
  destruct w; cbn [cons_word]; [exact IH|]. now constructor.
Qed.

Lemma split_words_nonempty s : Forall (fun w => w <> "") (split s).
Proof.
  unfold split. pose proof (split_scan_words s) as H.
  destruct (split_scan s) as [w ws]. cbn [snd] in H.
  destruct w; cbn [cons_word]; [exact H|]. now constructor.
Qed.

Lemma total_length_ge words :
  Forall (fun w => w <> "") words ->
  (List.length words <= total_length words)%nat.
Proof.
  unfold total_length. induction 1 as [|w ws Hw _ IH]; [reflexivity|].
  cbn [map list_sum fold_right List.length].
  fold (list_sum (map len ws)). destruct w; [congruence|].
  cbn [len String.length]. lia.
Qed.

(** X5. In every analysis the number of unique words is at most the word
    count, the vocabulary richness lies in [0, 1], and as soon as the
    text has a word the average word length is at least 1. *)
Theorem analysis_ratios :
  forall text : string,
    let a := analyze_writing_sample text in
    (unique_words a <= word_count a)%nat
    /\ (0 <= vocabulary_richness a <= 1)%Q
    /\ ((0 < word_count a)%nat -> (1 <= avg_word_length a)%Q).
Proof.
  intros text a.
  set (words := split (_clean_text text)).
  assert (Hu : (unique_words a <= word_count a)%nat).
  { unfold a. cbn [analyze_writing_sample unique_words word_count].
    fold words. etransitivity; [apply distinct_length|].
    rewrite length_map. apply List.filter_length_le. }
  split; [exact Hu|]. split.
  - unfold a in *. cbn [analyze_writing_sample vocabulary_richness
                          unique_words word_count] in *.
    apply ratio_range; lia.
  - unfold a. cbn [analyze_writing_sample word_count avg_word_length].
    fold words. intros Hpos.
    pose proof (total_length_ge words (split_words_nonempty _)) as Hlen.
    unfold ratio. apply Qle_shift_div_l.
    + change 0%Q with (inject_Z 0). rewrite <- Zlt_Qlt. lia.
    + rewrite Qmult_1_l, <- Zle_Qle. lia.
Qed.

Lemma analysis_ratios_witness :
  (0 < word_count (analyze_writing_sample "Hi there"))%nat
  /\ (1 <= avg_word_length (analyze_writing_sample "Hi there"))%Q.
Proof.
  assert (H : (0 < word_count (analyze_writing_sample "Hi there"))%nat)
    by (vm_compute; lia).
  split; [exact H|].
  destruct (analysis_ratios "Hi there") as (_ & _ & Havg). exact (Havg H).
Defined.

(** *** Blank texts *)

Lemma blank_split s : all_chars isspace s = true -> split s = [].
Proof.
  induction s as [|c s IH]; [reflexivity|].
  cbn [all_chars]. intros H. apply andb_true_iff in H as [Hc Hs].
  rewrite (split_cons_space _ _ Hc). now apply IH.
Qed.

Lemma blank_lstrip s : all_chars isspace s = true -> lstrip s = "".
Proof.
  induction s as [|c s IH]; [reflexivity|].
  cbn [all_chars lstrip]. intros H. apply andb_true_iff in H as [Hc Hs].
  rewrite Hc. now apply IH.
Qed.

Lemma blank_strip s : all_chars isspace s = true -> strip s = "".
Proof. intros H. unfold strip. now rewrite blank_lstrip. Qed.

Lemma re_split_scan_no_separator runs sep s :
  all_chars (fun c => negb (sep c)) s = true ->
  re_split_scan runs sep s = (s, []).
Proof.
  induction s as [|c s IH]; [reflexivity|].
  cbn [all_chars re_split_scan]. intros H.
  apply andb_true_iff in H as [Hc Hs]. rewrite (IH Hs).
  apply negb_true_iff in Hc. now rewrite Hc.
Qed.

Lemma all_chars_impl (P Q : ascii -> bool) s :
  (forall c, P c = true -> Q c = true) ->
  all_chars P s = true -> all_chars Q s = true.
Proof.
  intros HPQ. induction s as [|c s IH]; [reflexivity|].
  cbn [all_chars]. intros H. apply andb_true_iff in H as [Hc Hs].
  now rewrite (HPQ c Hc), IH.
Qed.

Lemma space_not_sentence_end c :
  isspace c = true -> negb (sentence_end c) = true.
Proof.
  destruct c as [[] [] [] [] [] [] [] []]; vm_compute; congruence.
Qed.

Lemma space_lower c : isspace c = true -> isspace (lower_char c) = true.
Proof.
  destruct c as [[] [] [] [] [] [] [] []]; vm_compute; congruence.
Qed.

Lemma blank_sentences s :
  all_chars isspace s = true -> _split_into_sentences s = [].
Proof.
  intros H. unfold _split_into_sentences, re_split.
  rewrite re_split_scan_no_separator
    by (revert H; apply all_chars_impl, space_not_sentence_end).
  cbn [List.filter]. now rewrite (blank_strip s H).
Qed.

Lemma blank_contains w s :
  starts_visible w = true -> all_chars isspace s = true ->
  contains w s = false.
Proof.
  intros Hw. destruct w as [|a w']; [discriminate|].
  cbn [starts_visible head] in Hw. apply negb_true_iff in Hw.
  induction s as [|c s IH]; [reflexivity|].
  cbn [all_chars]. intros H. apply andb_true_iff in H as [Hc Hs].
  cbn [contains startswith]. fold (contains (String a w') s).
  rewrite (IH Hs), orb_false_r.
  destruct (Ascii.eqb_spec a c) as [->|]; [congruence | reflexivity].
Qed.

Lemma blank_hits ws s :
  forallb starts_visible ws = true -> all_chars isspace s = true ->
  hits ws s = O.
Proof.
  intros Hws Hs. unfold hits. induction ws as [|w ws IH]; [reflexivity|].
  cbn [forallb] in Hws. apply andb_true_iff in Hws as [Hw Hws].
  cbn [List.filter]. rewrite (blank_contains w s Hw Hs). now apply IH.
Qed.

Lemma blank_emotions s :
  all_chars isspace s = true -> _analyze_emotional_language s = ∅.
Proof.
  intros Hs. unfold _analyze_emotional_language.
  assert (Hinner : forall emotion words found,
            forallb starts_visible words = true ->
            fold_left
              (fun found word =>
                 if contains word s
                 then extend_entry emotion (findall_context word None 0 s)
                        found
                 else found)
              words found = found).
  { intros emotion words. induction words as [|w words IH];
      intros found Hws; [reflexivity|].
    cbn [forallb] in Hws. apply andb_true_iff in Hws as [Hw Hws].
    cbn [fold_left]. rewrite (blank_contains w s Hw Hs). now apply IH. }
  assert (Hlex : forallb (fun '(_, words) => forallb starts_visible words)
                   emotion_words = true) by reflexivity.
  generalize (∅ : gmap string (list string)).
  revert Hlex. generalize emotion_words as lexicon.
  induction lexicon as [|[emotion words] lexicon IH]; intros Hlex found;
    [reflexivity|].
  cbn [forallb] in Hlex. apply andb_true_iff in Hlex as [Hw Hlex].
  cbn [fold_left]. rewrite (Hinner emotion words found Hw). now apply IH.
Qed.

(** X6. A text without a visible character (the empty text, or only
    whitespace) does not make the analysis fail; it gets the neutral
    values: no words, no sentences, readability 50.0, grade 10.0,
    formality 0.5, polarity 0.0 and no emotional language. *)
Theorem blank_text_analysis :
  forall text : string,
    all_chars isspace text = true ->
    let a := analyze_writing_sample text in
    word_count a = 0%nat
    /\ sentence_count a = 0%nat
    /\ unique_words a = 0%nat
    /\ (avg_sentence_length a == 0)%Q
    /\ (avg_word_length a == 0)%Q
    /\ (vocabulary_richness a == 0)%Q
    /\ flesch_reading_ease a = 50%Q
    /\ flesch_kincaid_grade a = 10%Q
    /\ formality_score a = 0.5%Q
    /\ polarity (sentiment a) = 0%Q
    /\ (subjectivity (sentiment a) == 0)%Q
    /\ emotional_language a = ∅.
Proof.
  intros text Hblank a.
  assert (Hwords : split (_clean_text text) = []).
  { rewrite split_clean_text. now apply blank_split. }
  assert (Hsent : _split_into_sentences text = [])
    by now apply blank_sentences.
  assert (Hlow : all_chars isspace (lower text) = true)
    by (apply all_chars_lower; [exact space_lower | exact Hblank]).
  assert (Hf : hits formal_words (lower text) = O)
    by (apply blank_hits; [reflexivity | exact Hlow]).
  assert (Hi : hits informal_words (lower text) = O)
    by (apply blank_hits; [reflexivity | exact Hlow]).
  assert (Hp : hits positive_words (lower text) = O)
    by (apply blank_hits; [reflexivity | exact Hlow]).
  assert (Hn : hits negative_words (lower text) = O)
    by (apply blank_hits; [reflexivity | exact Hlow]).
  unfold a. cbn [analyze_writing_sample word_count sentence_count
                   unique_words avg_sentence_length avg_word_length
                   vocabulary_richness flesch_reading_ease
                   flesch_kincaid_grade formality_score sentiment
                   emotional_language].
  rewrite Hwords, Hsent.
  unfold _calculate_formality, _analyze_sentiment_simple.
  rewrite Hf, Hi, Hp, Hn. cbn [polarity subjectivity].
  repeat split; try reflexivity.
  now apply blank_emotions.
Qed.

Lemma blank_text_analysis_witness :
  all_chars isspace "   " = true
  /\ word_count (analyze_writing_sample "   ") = 0%nat
  /\ flesch_reading_ease (analyze_writing_sample "   ") = 50%Q.
Proof.
  assert (H : all_chars isspace "   " = true) by reflexivity.
  split; [exact H|].
  destruct (blank_text_analysis "   " H) as (Hw & _ & _ & _ & _ & _ & Hf & _).
  split; assumption.
Defined.

End Metrics.

Section Snippets.
Import Py StyleAnalyzer Spec Notions.

Lemma take_len n s : (len (take n s) <= n)%nat.
Proof.
  revert s. induction n as [|n IH]; intros [|c s]; cbn [take len String.length];
    try lia.
  specialize (IH s). unfold len in IH. lia.
Qed.

Lemma dot_run_le cap s : (dot_run cap s <= cap)%nat.
Proof.
  revert s. induction cap as [|cap IH]; intros [|c s]; cbn [dot_run]; try lia.
  destruct (Ascii.eqb c "010"); [lia|]. specialize (IH s). lia.
Qed.

Lemma startswith_refl_take n s : startswith (take n s) s = true.
Proof.
  revert s. induction n as [|n IH]; intros [|c s]; try reflexivity.
  cbn [take startswith]. now rewrite Ascii.eqb_refl, IH.
Qed.

Lemma contains_cons sub c s :
  contains sub s = true -> contains sub (String c s) = true.
Proof.
  intros H. cbn [contains]. fold (contains sub s). rewrite H.
  apply orb_true_r.
Qed.

Lemma contains_startswith sub s : startswith sub s = true -> contains sub s = true.
Proof. intros H. destruct s; cbn [contains]; now rewrite H. Qed.

Lemma word_here_some word prev s m :
  word_here word prev s = Some m ->
  startswith word s = true /\ (len word <= m <= len word + 20)%nat.
Proof.
  unfold word_here. cbv zeta.
  destruct (boundary prev (head s) && startswith word s
            && boundary (last word) (head (drop (len word) s))) eqn:H;
    [|discriminate].
  intros Heq.
  assert (Hm : m = (len word + dot_run 20 (drop (len word) s))%nat)
    by congruence.
  apply andb_true_iff in H as [H _].
  apply andb_true_iff in H as [_ H]. split; [exact H|].
  pose proof (dot_run_le 20 (drop (len word) s)). lia.
Qed.

Lemma lead_try_some word prev s k n :
  lead_try word prev s k = Some n ->
  exists j m, (j <= k)%nat /\ n = (j + m)%nat
              /\ startswith word (drop j s) = true
              /\ (len word <= m <= len word + 20)%nat.
Proof.
  induction k as [|k IH]; cbn [lead_try].
  - destruct (word_here word prev (drop 0 s)) as [m|] eqn:Hm; [|discriminate].
    intros [= <-]. destruct (word_here_some _ _ _ _ Hm) as [Hs Hb].
    exists 0%nat, m. repeat split; try lia; assumption.
  - destruct (word_here word (head (drop k s)) (drop (S k) s)) as [m|] eqn:Hm.
    + intros [= <-]. destruct (word_here_some _ _ _ _ Hm) as [Hs Hb].
      exists (S k), m. repeat split; try lia; assumption.
    + intros H. destruct (IH H) as (j & m & Hj & -> & Hs & Hb).
      exists j, m. repeat split; try lia; assumption.
Qed.

Lemma take_add j m s : take (j + m) s = take j s ++ take m (drop j s).
Proof.
  revert s. induction j as [|j IH]; intros s; [reflexivity|].
  destruct s as [|c s].
  - cbn [Nat.add take drop]. now destruct m.
  - cbn [Nat.add take drop]. rewrite append_cons. now rewrite IH.
Qed.

Lemma take_startswith w d s :
  startswith w s = true ->
  take (len w + d) s = w ++ take d (drop (len w) s).
Proof.
  revert s. induction w as [|a w IH]; intros s Hw; [reflexivity|].
  destruct s as [|b s]; [discriminate|].
  cbn [startswith] in Hw. apply andb_true_iff in Hw as [Hab Hw].
  apply Ascii.eqb_eq in Hab. subst b.
  cbn [len String.length Nat.add take drop]. fold (len w).
  rewrite append_cons. now rewrite (IH s Hw).
Qed.

Lemma context_here_some word prev s n :
  context_here word prev s = Some n ->
  exists before after,
    take n s = before ++ word ++ after
    /\ (len before <= 20)%nat /\ (len after <= 20)%nat.
Proof.
  unfold context_here. intros H.
  destruct (lead_try_some _ _ _ _ _ H) as (j & m & Hj & -> & Hs & Hb).
  pose proof (dot_run_le 20 s) as Hlead.
  exists (take j s), (take (m - len word) (drop (len word) (drop j s))).
  split; [|split].
  - rewrite take_add. f_equal.
    replace m with (len word + (m - len word))%nat at 1 by lia.
    now apply take_startswith.
  - pose proof (take_len j s). lia.
  - pose proof (take_len (m - len word) (drop (len word) (drop j s))). lia.
Qed.

Lemma findall_context_snippets word s :
  forall prev skip,
    Forall (fun snippet =>
              contains snippet s = true
              /\ exists before after,
                   snippet = before ++ word ++ after
                   /\ (len before <= 20)%nat /\ (len after <= 20)%nat)
           (findall_context word prev skip s).
Proof.
  induction s as [|c s IH]; intros prev skip; [constructor|].
  assert (Hrest : forall prev' skip',
            Forall (fun snippet =>
                      contains snippet (String c s) = true
                      /\ exists before after,
                           snippet = before ++ word ++ after
                           /\ (len before <= 20)%nat
                           /\ (len after <= 20)%nat)
                   (findall_context word prev' skip' s)).
  { intros prev' skip'. eapply List.Forall_impl; [|apply IH].
    intros snippet (H1 & H2). split; [|exact H2].
    now apply contains_cons. }
  cbn [findall_context]. destruct skip as [|k]; [|apply Hrest].
  destruct (context_here word prev (String c s)) as [[|n]|] eqn:Hctx;
    try apply Hrest.
  constructor; [|apply Hrest].
  split.
  - apply contains_startswith, startswith_refl_take.
  - exact (context_here_some _ _ _ _ Hctx).
Qed.

Lemma extend_entry_sound text emotion words word found :
  In (emotion, words) emotion_words -> In word words ->
  snippets_sound text found ->
  snippets_sound text
    (extend_entry emotion (findall_context word None 0 text) found).
Proof.
  intros Hlex Hword Hfound e l. unfold extend_entry.
  destruct (decide (emotion = e)) as [<-|Hne].
  - rewrite lookup_insert_eq. intros [= <-]. split.
    + apply in_map_iff. now exists (emotion, words).
    + apply Forall_app. split.
      * destruct (found !! emotion) as [old|] eqn:Hold; [|constructor].
        now destruct (Hfound _ _ Hold).
      * eapply List.Forall_impl; [|apply findall_context_snippets].
        intros snippet (H1 & before & after & H2 & H3 & H4).
        split; [exact H1|].
        exists words, word, before, after. repeat split; assumption.
  - rewrite lookup_insert_ne by exact Hne. apply Hfound.
Qed.

Lemma analyze_emotional_language_sound text :
  snippets_sound text (_analyze_emotional_language text).
Proof.
  unfold _analyze_emotional_language.
  assert (Hinner : forall emotion words, In (emotion, words) emotion_words ->
            forall ws found, incl ws words -> snippets_sound text found ->
            snippets_sound text
              (fold_left
                 (fun found word =>
                    if contains word text
                    then extend_entry emotion
                           (findall_context word None 0 text) found
                    else found)
                 ws found)).
  { intros emotion words Hlex ws. induction ws as [|w ws IH];
      intros found Hincl Hfound; [exact Hfound|].
    cbn [fold_left]. apply IH; [intros x Hx; apply Hincl; now right|].
    destruct (contains w text); [|exact Hfound].
    apply (extend_entry_sound text emotion words w); try assumption.
    apply Hincl. now left. }
  assert (Houter : forall lexicon found, incl lexicon emotion_words ->
            snippets_sound text found ->
            snippets_sound text
              (fold_left
                 (fun found '(emotion, words) =>
                    fold_left
                      (fun found word =>
                         if contains word text
                         then extend_entry emotion
                                (findall_context word None 0 text) found
                         else found)
                      words found)
                 lexicon found)).
  { induction lexicon as [|[emotion words] lexicon IH];
      intros found Hincl Hfound; [exact Hfound|].
    cbn [fold_left]. apply IH; [intros x Hx; apply Hincl; now right|].
    apply (Hinner emotion words); [apply Hincl; now left | | exact Hfound].
    intros x Hx. exact Hx. }
  apply Houter; [intros x Hx; exact Hx|].
  intros e l H. rewrite lookup_empty in H. discriminate.
Qed.

(** X7. Whatever the text, every key of the emotional-language map is
    one of the six emotions of the lexicon, and every snippet under a key
    is a piece of the lower-cased text: a lexicon word of that emotion
    with at most 20 characters before it and at most 20 characters after
    it. *)
Theorem emotional_language_snippets :
  forall (text emotion : string) (snippets : list string),
    emotional_language (analyze_writing_sample text) !! emotion
    = Some snippets ->
    In emotion ["joy"; "sadness"; "anger"; "fear"; "love"; "surprise"]
    /\ Forall (fun snippet =>
                 contains snippet (lower text) = true
                 /\ snippet_of emotion snippet)
              snippets.
Proof.
  intros text emotion snippets H.
  exact (analyze_emotional_language_sound (lower text) emotion snippets H).
Qed.

Lemma emotional_language_snippets_witness :
  emotional_language (analyze_writing_sample "So happy!") !! "joy"
  = Some ["so happy!"]
  /\ contains "so happy!" (lower "So happy!") = true
  /\ snippet_of "joy" "so happy!".
Proof.
  assert (H : emotional_language (analyze_writing_sample "So happy!") !! "joy"
              = Some ["so happy!"]) by (vm_compute; reflexivity).
  split; [exact H|].
  destruct (emotional_language_snippets _ _ _ H) as [_ Hall].
  inversion Hall as [|? ? Hsnip _]. exact Hsnip.
Defined.

End Snippets.

(** ** Further properties of the profile aggregator *)

Section Means.
Import Py StyleAnalyzer Spec Notions.

Lemma inject_nat_succ n :
  (inject_Z (Z.of_nat (S n)) == inject_Z (Z.of_nat n) + 1)%Q.
Proof. now rewrite Nat2Z.inj_succ, <- Z.add_1_r, inject_Z_plus. Qed.

Lemma qsum_bounds (lo hi : Q) xs :
  Forall (fun x => lo <= x <= hi)%Q xs ->
  (inject_Z (Z.of_nat (List.length xs)) * lo <= qsum xs
   <= inject_Z (Z.of_nat (List.length xs)) * hi)%Q.
Proof.
  induction 1 as [|x xs [Hlo Hhi] _ [IHlo IHhi]].
  - cbn [List.length qsum fold_right]. split; rewrite Qmult_0_l; discriminate.
  - cbn [List.length qsum fold_right]. fold (qsum xs).
    rewrite inject_nat_succ.
    set (n := inject_Z (Z.of_nat (List.length xs))) in *.
    split.
    + setoid_replace ((n + 1) * lo)%Q with (lo + n * lo)%Q using relation Qeq by ring.
      now apply Qplus_le_compat.
    + setoid_replace ((n + 1) * hi)%Q with (hi + n * hi)%Q using relation Qeq by ring.
      now apply Qplus_le_compat.
Qed.

(** The mean of numbers between [lo] and [hi] lies between them. *)
Lemma np_mean_bounds (lo hi : Q) xs :
  xs <> [] -> Forall (fun x => lo <= x <= hi)%Q xs ->
  (lo <= np_mean xs <= hi)%Q.
Proof.
  intros Hne Hall. destruct (qsum_bounds lo hi xs Hall) as [Hlo Hhi].
  assert (Hn : (0 < inject_Z (Z.of_nat (List.length xs)))%Q).
  { change 0%Q with (inject_Z 0). rewrite <- Zlt_Qlt.
    destruct xs; [congruence | cbn [List.length]; lia]. }
  unfold np_mean. split.
  - apply Qle_shift_div_l; [exact Hn|]. now rewrite Qmult_comm.
  - apply Qle_shift_div_r; [exact Hn|]. now rewrite Qmult_comm.
Qed.

Lemma np_mean_nonneg xs : Forall (fun x => 0 <= x)%Q xs -> (0 <= np_mean xs)%Q.
Proof.
  intros Hall. unfold np_mean.
  assert (Hsum : (0 <= qsum xs)%Q).
  { induction Hall as [|x xs Hx _ IH]; [discriminate|].
    cbn [qsum fold_right]. fold (qsum xs).
    change 0%Q with (0 + 0)%Q. now apply Qplus_le_compat. }
  destruct xs as [|x xs]; [discriminate|].
  apply Qle_shift_div_l.
  - change 0%Q with (inject_Z 0). rewrite <- Zlt_Qlt.
    cbn [List.length]. lia.
  - now rewrite Qmult_0_l.
Qed.

Lemma Forall_map_analysis {A} (P : A -> Prop) (f : Analysis -> A) texts :
  (forall text, P (f (analyze_writing_sample text))) ->
  Forall P (map f (map analyze_writing_sample texts)).
Proof.
  intros H. induction texts as [|t texts IH]; cbn [map]; constructor;
    [apply H | exact IH].
Qed.

Lemma grade_level_bounds score : (5 <= _calculate_grade_level score <= 16)%Q.
Proof.
  pose proof (grade_level_in_levels score) as Hin.
  cbn [grade_levels In] in Hin.
  repeat destruct Hin as [<-|Hin]; try (split; discriminate).
  contradiction.
Qed.

Lemma vocabulary_richness_bounds text :
  (0 <= vocabulary_richness (analyze_writing_sample text) <= 1)%Q.
Proof.
  cbn [analyze_writing_sample vocabulary_richness].
  apply ratio_range; [|lia].
  etransitivity; [apply distinct_length|]. rewrite length_map.
  etransitivity; [apply List.filter_length_le|]. lia.
Qed.

(** X8. In the profile of analysed texts the averages stay in the range
    of what they average: readability in [0, 100], grade level in
    [5, 16], vocabulary richness in [0, 1], average polarity in [-1, 1],
    average subjectivity in [0, 1], average sentence and word length not
    negative. *)
Theorem profile_averages_in_range :
  forall texts : list string,
    texts <> [] ->
    exists p,
      build_user_style_profile (map analyze_writing_sample texts)
      = Profile.Dict p
      /\ (0 <= Profile.avg_readability p <= 100)%Q
      /\ (5 <= Profile.grade_level p <= 16)%Q
      /\ (0 <= Profile.vocabulary_richness p <= 1)%Q
      /\ (-1 <= Profile.avg_polarity (Profile.sentiment_tendencies p) <= 1)%Q
      /\ (0 <= Profile.avg_subjectivity (Profile.sentiment_tendencies p)
          <= 1)%Q
      /\ (0 <= Profile.avg_sentence_length p)%Q
      /\ (0 <= Profile.avg_word_length p)%Q.
Proof.
  intros texts Hne.
  assert (Hne' : forall {A} (f : Analysis -> A),
             map f (map analyze_writing_sample texts) <> []).
  { intros A f. destruct texts; [congruence | discriminate]. }
  destruct texts as [|t texts]; [congruence|].
  eexists. split; [reflexivity|].
  cbn [Profile.avg_readability Profile.grade_level
         Profile.vocabulary_richness Profile.sentiment_tendencies
         Profile.avg_sentence_length Profile.avg_word_length
         _determine_sentiment_tendencies Profile.avg_polarity
         Profile.avg_subjectivity].
  repeat split.
  all: try (apply (np_mean_bounds 0 100); [apply Hne'|];
            apply Forall_map_analysis; intros text;
            apply flesch_score_bounds).
  all: try (apply (np_mean_bounds 5 16); [apply Hne'|];
            apply Forall_map_analysis; intros text;
            apply grade_level_bounds).
  all: try (apply (np_mean_bounds 0 1); [apply Hne'|];
            apply Forall_map_analysis; intros text;
            apply vocabulary_richness_bounds).
  all: try (apply (np_mean_bounds (-1) 1);
            [apply (Hne' _ (fun a => polarity (sentiment a)))|];
            apply (Forall_map_analysis _ (fun a => polarity (sentiment a)));
            intros text; apply (sentiment_bounds text)).
  all: try (apply (np_mean_bounds 0 1);
            [apply (Hne' _ (fun a => subjectivity (sentiment a)))|];
            apply (Forall_map_analysis _
                     (fun a => subjectivity (sentiment a)));
            intros text;
            destruct (sentiment_bounds text) as (_ & _ & _ & Hlo & Hhi);
            split; [exact Hlo|];
            apply Qle_trans with 0.21%Q; [exact Hhi|discriminate]).
  - apply np_mean_nonneg, Forall_map_analysis. intros text.
    apply ratio_nonneg.
  - apply np_mean_nonneg, Forall_map_analysis. intros text.
    apply ratio_nonneg.
Qed.

Lemma profile_averages_in_range_witness :
  ["Happy times. Great vibes."; "However, this remains problematic."] <> []
  /\ exists p,
       build_user_style_profile
         (map analyze_writing_sample
            ["Happy times. Great vibes.";
             "However, this remains problematic."])
       = Profile.Dict p
       /\ (5 <= Profile.grade_level p <= 16)%Q.
Proof.
  assert (H : ["Happy times. Great vibes.";
               "However, this remains problematic."] <> []) by discriminate.
  split; [exact H|].
  destruct (profile_averages_in_range _ H) as (p & Hp & _ & Hg & _).
  exists p. split; assumption.
Defined.

End Means.

Section Merging.
Import Py StyleAnalyzer Spec Notions.

Lemma np_mean_single (x : Q) : (np_mean [x] == x)%Q.
Proof. unfold np_mean, qsum. simpl. field. Qed.

Lemma np_std_single (x : Q) : np_std [x] = 0%R.
Proof.
  rewrite (np_std_of_square _ 0).
  - unfold Q2R. simpl. field.
  - unfold np_var. cbn [map]. rewrite np_mean_single, np_mean_single. ring.
  - discriminate.
Qed.

Lemma mean_of_columns_single (e : list Q) :
  Forall2 Qeq
    (map (fun i => np_mean (map (fun v => nth i v 0%Q) [e]))
         (seq 0 (List.length e)))
    e.
Proof.
  assert (H : forall k (pre : list Q), List.length pre = k ->
            Forall2 Qeq
              (map (fun i => np_mean (map (fun v => nth i v 0%Q)
                                          [(pre ++ e)%list]))
                   (seq k (List.length e)))
              e).
  { induction e as [|x e IH]; intros k pre Hk; [constructor|].
    cbn [List.length seq map]. constructor.
    - rewrite np_mean_single, app_nth2 by lia.
      rewrite Hk, Nat.sub_diag. reflexivity.
    - specialize (IH (S k) (pre ++ [x])%list).
      rewrite <- app_assoc in IH. apply IH.
      rewrite length_app. cbn [List.length]. lia. }
  exact (H 0%nat [] eq_refl).
Qed.

(** X9. The profile of a single analysis gives the analysis back: the
    count is 1; the averages of sentence length, word length, vocabulary
    richness, readability, grade level, polarity and subjectivity are the
    metrics of the sample; the emotional patterns and the embedding are
    those of the sample; and the sentiment consistency is 1. *)
Theorem single_sample_profile :
  forall a : Analysis,
    exists p,
      build_user_style_profile [a] = Profile.Dict p
      /\ Profile.sample_count p = 1%nat
      /\ (Profile.avg_sentence_length p == avg_sentence_length a)%Q
      /\ (Profile.avg_word_length p == avg_word_length a)%Q
      /\ (Profile.vocabulary_richness p == vocabulary_richness a)%Q
      /\ (Profile.avg_readability p == flesch_reading_ease a)%Q
      /\ (Profile.grade_level p == flesch_kincaid_grade a)%Q
      /\ Profile.emotional_expression_patterns p = emotional_language a
      /\ (Profile.avg_polarity (Profile.sentiment_tendencies p)
          == polarity (sentiment a))%Q
      /\ (Profile.avg_subjectivity (Profile.sentiment_tendencies p)
          == subjectivity (sentiment a))%Q
      /\ Profile.sentiment_consistency (Profile.sentiment_tendencies p)
         = 1%R
      /\ Forall2 Qeq (Profile.style_embedding p) (style_embedding a).
Proof.
  intros a. eexists. split; [reflexivity|].
  cbn [Profile.sample_count Profile.avg_sentence_length
         Profile.avg_word_length Profile.vocabulary_richness
         Profile.avg_readability Profile.grade_level
         Profile.emotional_expression_patterns Profile.sentiment_tendencies
         Profile.style_embedding _determine_sentiment_tendencies
         Profile.avg_polarity Profile.avg_subjectivity
         Profile.sentiment_consistency map List.length].
  repeat split; try apply np_mean_single.
  - unfold _build_emotional_patterns. cbn [fold_left].
    apply map_eq. intros i. rewrite lookup_union_with, lookup_empty.
    now destruct (emotional_language a !! i).
  - rewrite np_std_single. lra.
  - apply mean_of_columns_single.
Qed.

Lemma merged_lookup emotion analyses acc :
  fold_left
    (fun all_emotional_language analysis =>
       union_with (fun have contexts => Some (have ++ contexts)%list)
         all_emotional_language (emotional_language analysis))
    analyses acc !! emotion
  = fold_left
      (fun o analysis =>
         union_with (fun have contexts => Some (have ++ contexts)%list)
           o (emotional_language analysis !! emotion))
      analyses (acc !! emotion).
Proof.
  revert acc. induction analyses as [|a analyses IH]; intros acc;
    [reflexivity|].
  cbn [fold_left]. now rewrite IH, lookup_union_with.
Qed.

Lemma merged_from_some emotion analyses have :
  fold_left
    (fun o analysis =>
       union_with (fun have contexts => Some (have ++ contexts)%list)
         o (emotional_language analysis !! emotion))
    analyses (Some have)
  = Some (have ++ contexts_of emotion analyses)%list.
Proof.
  revert have. induction analyses as [|a analyses IH]; intros have.
  - cbn [fold_left contexts_of flat_map]. now rewrite app_nil_r.
  - cbn [fold_left contexts_of flat_map]. fold (contexts_of emotion analyses).
    destruct (emotional_language a !! emotion) as [contexts|];
      cbn [union_with option_union_with default]; rewrite IH.
    + now rewrite app_assoc.
    + reflexivity.
Qed.

Lemma merged_none emotion analyses :
  Forall (fun a => emotional_language a !! emotion = None) analyses ->
  _build_emotional_patterns analyses !! emotion = None.
Proof.
  unfold _build_emotional_patterns. rewrite merged_lookup, lookup_empty.
  induction 1 as [|a analyses Ha _ IH]; [reflexivity|].
  cbn [fold_left]. rewrite Ha. exact IH.
Qed.

(** X10. Merging the emotional language of the samples: an emotion is a
    key of the profile exactly when it is a key of some sample, and its
    snippets are the snippets of the samples one after the other, in the
    order of the samples, duplicates kept. *)
Theorem merged_emotional_patterns :
  forall (analyses : list Analysis) (emotion : string),
    (Forall (fun a => emotional_language a !! emotion = None) analyses ->
     _build_emotional_patterns analyses !! emotion = None)
    /\ (Exists (fun a => emotional_language a !! emotion <> None) analyses ->
        _build_emotional_patterns analyses !! emotion
        = Some (contexts_of emotion analyses)).
Proof.
  intros analyses emotion. split; [apply merged_none|].
  unfold _build_emotional_patterns.
  rewrite merged_lookup, lookup_empty.
  - induction analyses as [|a analyses IH]; intros Hex;
      [inversion Hex|].
    cbn [fold_left contexts_of flat_map].
    fold (contexts_of emotion analyses).
    destruct (emotional_language a !! emotion) as [contexts|] eqn:Ha;
      cbn [union_with option_union_with default].
    + apply merged_from_some.
    + apply IH. inversion Hex as [? ? Hhere|? ? Hlater]; subst;
        [congruence | exact Hlater].
Qed.

Lemma merged_emotional_patterns_witness :
  Exists (fun a => emotional_language a !! "joy" <> None)
    (map analyze_writing_sample ["So happy!"; "No mood."; "Excited again."])
  /\ Forall (fun a => emotional_language a !! "fear" = None)
       (map analyze_writing_sample ["So happy!"; "No mood."; "Excited again."])
  /\ _build_emotional_patterns
       (map analyze_writing_sample ["So happy!"; "No mood."; "Excited again."])
     !! "joy" = Some ["so happy!"; "excited again."]
  /\ _build_emotional_patterns
       (map analyze_writing_sample ["So happy!"; "No mood."; "Excited again."])
     !! "fear" = None.
Proof.
  assert (Hjoy : Exists (fun a => emotional_language a !! "joy" <> None)
            (map analyze_writing_sample
               ["So happy!"; "No mood."; "Excited again."])).
  { apply Exists_cons_hd. vm_compute. discriminate. }
  assert (Hfear : Forall (fun a => emotional_language a !! "fear" = None)
            (map analyze_writing_sample
               ["So happy!"; "No mood."; "Excited again."])).
  { repeat constructor; vm_compute; reflexivity. }
  split; [exact Hjoy|]. split; [exact Hfear|].
  destruct (merged_emotional_patterns
              (map analyze_writing_sample
                 ["So happy!"; "No mood."; "Excited again."]) "joy")
    as [_ Hsome].
  destruct (merged_emotional_patterns
              (map analyze_writing_sample
                 ["So happy!"; "No mood."; "Excited again."]) "fear")
    as [Hnone _].
  split; [|exact (Hnone Hfear)].
  rewrite (Hsome Hjoy). vm_compute. reflexivity.
Defined.

End Merging.

Section Order.
Import Py StyleAnalyzer Spec Notions.

Lemma embedding_shape text :
  exists f1 f2 f3 f4 f5 f6 f7 f8 : Q,
    style_embedding (analyze_writing_sample text)
    = ([f1; f2; f3; f4; f5; f6; f7; f8] ++ repeat 0%Q 24)%list.
Proof.
  cbn [analyze_writing_sample style_embedding].
  unfold _get_style_embedding_simple. cbv zeta.
  rewrite pad_eight_features. now repeat eexists.
Qed.

Lemma embedding_tail text i :
  (8 <= i)%nat -> nth i (style_embedding (analyze_writing_sample text)) 0%Q
                  = 0%Q.
Proof.
  intros Hi.
  destruct (embedding_shape text) as (f1&f2&f3&f4&f5&f6&f7&f8&->).
  rewrite app_nth2 by (cbn [List.length]; lia). cbn [List.length].
  apply nth_repeat.
Qed.

Lemma np_mean_zeros xs : Forall (fun x => x = 0%Q) xs -> (np_mean xs == 0)%Q.
Proof.
  intros Hall. unfold np_mean.
  assert (Hsum : (qsum xs == 0)%Q).
  { induction Hall as [|x xs -> _ IH]; [reflexivity|].
    cbn [qsum fold_right]. fold (qsum xs). rewrite IH. reflexivity. }
  rewrite Hsum. unfold Qdiv. apply Qmult_0_l.
Qed.

(** X11. The embedding of the profile of analysed texts has 32 entries;
    entry [i] is the mean of the entries [i] of the samples, and the
    entries from index 8 on, which pad every sample, are 0. *)
Theorem profile_embedding_shape :
  forall texts : list string,
    texts <> [] ->
    exists p,
      build_user_style_profile (map analyze_writing_sample texts)
      = Profile.Dict p
      /\ List.length (Profile.style_embedding p) = 32%nat
      /\ (forall i, (i < 32)%nat ->
            nth i (Profile.style_embedding p) 0%Q
            = np_mean
                (map (fun text =>
                        nth i (style_embedding (analyze_writing_sample text))
                            0%Q)
                     texts))
      /\ (forall i, (8 <= i < 32)%nat ->
            (nth i (Profile.style_embedding p) 0%Q == 0)%Q).
Proof.
  intros texts Hne. destruct texts as [|t texts]; [congruence|].
  eexists. split; [reflexivity|].
  cbn [Profile.style_embedding].
  set (samples := t :: texts).
  assert (Hlen : List.length (style_embedding (analyze_writing_sample t))
                 = 32%nat).
  { destruct (embedding_shape t) as (f1&f2&f3&f4&f5&f6&f7&f8&->).
    reflexivity. }
  assert (Hnth : forall i, (i < 32)%nat ->
            nth i (_create_average_embedding
                     (map analyze_writing_sample samples)) 0%Q
            = np_mean
                (map (fun text =>
                        nth i (style_embedding (analyze_writing_sample text))
                            0%Q)
                     samples)).
  { intros i Hi. unfold _create_average_embedding, samples.
    cbn [map]. rewrite Hlen.
    set (column := fun i => np_mean _).
    rewrite (nth_indep _ 0%Q (column 0%nat))
      by (rewrite length_map, length_seq; exact Hi).
    rewrite (map_nth column), seq_nth by exact Hi.
    unfold column. cbn [Nat.add map]. now rewrite !map_map. }
  split; [|split].
  - unfold _create_average_embedding, samples. cbn [map].
    now rewrite length_map, length_seq.
  - exact Hnth.
  - intros i [Hlo Hhi]. rewrite (Hnth i Hhi). apply np_mean_zeros.
    apply Forall_map. apply Forall_forall. intros text _.
    now apply embedding_tail.
Qed.

Lemma profile_embedding_shape_witness :
  ["So happy!"; "No mood."] <> []
  /\ exists p,
       build_user_style_profile
         (map analyze_writing_sample ["So happy!"; "No mood."])
       = Profile.Dict p
       /\ List.length (Profile.style_embedding p) = 32%nat.
Proof.
  assert (H : ["So happy!"; "No mood."] <> []) by discriminate.
  split; [exact H|].
  destruct (profile_embedding_shape _ H) as (p & Hp & Hlen & _).
  exists p. split; assumption.
Defined.

Lemma qsum_perm xs ys : Permutation xs ys -> (qsum xs == qsum ys)%Q.
Proof.
  induction 1 as [|x xs ys _ IH|x y xs|xs ys zs _ IH1 _ IH2].
  - reflexivity.
  - cbn [qsum fold_right]. fold (qsum xs) (qsum ys). now rewrite IH.
  - cbn [qsum fold_right]. fold (qsum xs). ring.
  - now rewrite IH1.
Qed.

Lemma np_mean_perm xs ys : Permutation xs ys -> (np_mean xs == np_mean ys)%Q.
Proof.
  intros H. unfold np_mean.
  now rewrite (qsum_perm _ _ H), (Permutation_length H).
Qed.

Lemma np_mean_perm_map {A} (f : A -> Q) l l' :
  Permutation l l' -> (np_mean (map f l) == np_mean (map f l'))%Q.
Proof. intros H. apply np_mean_perm. now apply Permutation_map. Qed.

Lemma list_sum_perm xs ys : Permutation xs ys -> list_sum xs = list_sum ys.
Proof.
  induction 1 as [|x xs ys _ IH|x y xs|xs ys zs _ IH1 _ IH2];
    cbn [list_sum fold_right]; try fold (list_sum xs); try fold (list_sum ys);
    lia.
Qed.

Lemma Qltb_proper a a' b b' :
  (a == a')%Q -> (b == b')%Q -> Qltb a b = Qltb a' b'.
Proof. intros Ha Hb. unfold Qltb. now rewrite Ha, Hb. Qed.

(** X12. The order of the samples does not matter for the sample count,
    the grade level, the vocabulary level and the punctuation style of
    the profile.  It can matter for the formality preference, whose mean
    is rounded: samples that score 1.0, 0.1 and 0.1 give "neutral" in
    this order and "casual" when the first comes last. *)
Theorem aggregation_and_sample_order :
  (forall texts texts' : list string,
     Permutation texts texts' ->
     texts <> [] ->
     exists p p',
       build_user_style_profile (map analyze_writing_sample texts)
       = Profile.Dict p
       /\ build_user_style_profile (map analyze_writing_sample texts')
          = Profile.Dict p'
       /\ same_exact_entries p p')
  /\ exists texts texts' : list string,
      Permutation texts texts'
      /\ formality_preference_of
           (build_user_style_profile (map analyze_writing_sample texts))
         = Some "neutral"
      /\ formality_preference_of
           (build_user_style_profile (map analyze_writing_sample texts'))
         = Some "casual".
Proof.
  split.
  - intros texts texts' Hperm Hne.
    assert (Hne' : texts' <> []).
    { intros ->. apply Permutation_nil_r in Hperm. congruence. }
    destruct texts as [|t l]; [congruence|].
    destruct texts' as [|t' l']; [congruence|].
    eexists. eexists. split; [reflexivity|]. split; [reflexivity|].
    set (s := map analyze_writing_sample (t :: l)).
    set (s' := map analyze_writing_sample (t' :: l')).
    assert (Hs : Permutation s s') by now apply Permutation_map.
    unfold same_exact_entries.
    cbn [Profile.sample_count Profile.grade_level Profile.vocabulary_level
           Profile.punctuation_style].
    split; [|split; [|split]].
    + now apply Permutation_length.
    + now apply np_mean_perm_map.
    + unfold _determine_vocabulary_level. cbv zeta.
      pose proof (np_mean_perm_map flesch_kincaid_grade _ _ Hs) as Hm.
      rewrite (Qltb_proper _ _ _ _ (Qeq_refl 12) Hm).
      now rewrite (Qltb_proper _ _ _ _ (Qeq_refl 8) Hm).
    + unfold _determine_punctuation_style. cbv zeta.
      assert (Hsum : forall f : Analysis -> nat,
                list_sum (map f s) = list_sum (map f s'))
        by (intros f; now apply list_sum_perm, Permutation_map).
      rewrite (Hsum word_count).
      now rewrite !(Hsum (fun a => _ (punctuation_usage a))).
  - exists [Examples.formal_only_text; Examples.casual_text;
            Examples.casual_text],
           [Examples.casual_text; Examples.casual_text;
            Examples.formal_only_text].
    split; [|split].
    + apply Permutation_cons_append.
    + cbn [map]. rewrite formality_preference_of_samples.
      vm_compute. reflexivity.
    + cbn [map]. rewrite formality_preference_of_samples.
      vm_compute. reflexivity.
Qed.

Lemma aggregation_and_sample_order_witness :
  exists p p',
    build_user_style_profile
      (map analyze_writing_sample ["So happy!"; "No mood."])
    = Profile.Dict p
    /\ build_user_style_profile
         (map analyze_writing_sample ["No mood."; "So happy!"])
       = Profile.Dict p'
    /\ same_exact_entries p p'.
Proof.
  destruct aggregation_and_sample_order as [H _].
  apply (H ["So happy!"; "No mood."] ["No mood."; "So happy!"]).
  - apply perm_swap.
  - discriminate.
Defined.

End Order.

(** ** Sentence structures *)

Section Structures.
Import Py StyleAnalyzer StyleAnalyzerRest.

Lemma inject_nat_pos (n : nat) : (0 < n)%nat -> (0 < inject_Z (Z.of_nat n))%Q.
Proof. intros H. change 0%Q with (inject_Z 0). rewrite <- Zlt_Qlt. lia. Qed.

Lemma ratio_mono (a a' n : nat) :
  (a <= a')%nat -> (0 < n)%nat -> (ratio a n <= ratio a' n)%Q.
Proof.
  intros Ha Hn. unfold ratio, Qdiv.
  apply Qmult_le_compat_r.
  - rewrite <- Zle_Qle. lia.
  - apply Qlt_le_weak, Qinv_lt_0_compat, inject_nat_pos, Hn.
Qed.

Lemma ratio_self (n : nat) : (0 < n)%nat -> (ratio n n == 1)%Q.
Proof.
  intros Hn. unfold ratio, Qdiv. apply Qmult_inv_r.
  intros H. pose proof (inject_nat_pos n Hn) as Hp. rewrite H in Hp.
  discriminate.
Qed.

Lemma ratio_zero (n : nat) : (ratio 0 n == 0)%Q.
Proof. unfold ratio, Qdiv. cbn [Z.of_nat]. apply Qmult_0_l. Qed.

Lemma ratio_one_inv (a n : nat) :
  (0 < n)%nat -> (ratio a n == 1)%Q -> a = n.
Proof.
  intros Hn H. unfold ratio in H.
  assert (Hne : ~ (inject_Z (Z.of_nat n) == 0)%Q).
  { intros E. pose proof (inject_nat_pos n Hn) as Hp. rewrite E in Hp.
    discriminate. }
  assert (E : (inject_Z (Z.of_nat a) == inject_Z (Z.of_nat n))%Q).
  { rewrite <- (Qmult_1_l (inject_Z (Z.of_nat n))), <- H.
    unfold Qdiv. rewrite <- Qmult_assoc, (Qmult_comm (/ _)), Qmult_inv_r by exact Hne.
    now rewrite Qmult_1_r. }
  unfold Qeq in E. cbn [Qnum Qden inject_Z] in E. lia.
Qed.

Lemma clauses_of_pos sentence : (1 <= clauses_of sentence)%nat.
Proof. unfold clauses_of. cbv zeta. lia. Qed.

Lemma structure_of_simple sentence :
  structure_of sentence = Simple <-> clauses_of sentence = 1%nat.
Proof.
  unfold structure_of. destruct (Nat.eqb_spec (clauses_of sentence) 1) as [E|E].
  - tauto.
  - split; [|tauto].
    destruct (contains "and" _ || contains "but" _ || contains "or" _);
      discriminate.
Qed.

Lemma tally_cons kind sentence sentences :
  tally kind (sentence :: sentences)
  = ((match structure_of sentence, kind with
      | Simple, Simple | Compound, Compound | Complex, Complex => 1
      | _, _ => 0
      end) + tally kind sentences)%nat.
Proof.
  unfold tally. cbn [List.filter].
  destruct (structure_of sentence), kind; reflexivity.
Qed.

Lemma tally_total sentences :
  (tally Simple sentences + tally Compound sentences + tally Complex sentences
   = List.length sentences)%nat.
Proof.
  induction sentences as [|s l IH]; [reflexivity|].
  rewrite !tally_cons. cbn [List.length].
  destruct (structure_of s); lia.
Qed.

Lemma clauses_total sentences :
  (List.length sentences <= list_sum (map clauses_of sentences))%nat.
Proof.
  induction sentences as [|s l IH]; [reflexivity|].
  cbn [map list_sum fold_right List.length].
  fold (list_sum (map clauses_of l)).
  pose proof (clauses_of_pos s). lia.
Qed.

Lemma all_simple sentences :
  list_sum (map clauses_of sentences) = List.length sentences
  <-> tally Simple sentences = List.length sentences.
Proof.
  induction sentences as [|s l IH]; [tauto|].
  rewrite tally_cons. cbn [map list_sum fold_right List.length].
  fold (list_sum (map clauses_of l)).
  pose proof (clauses_of_pos s) as Hs.
  pose proof (clauses_total l) as Hl.
  pose proof (tally_total l) as Ht.
  pose proof (structure_of_simple s) as Hsimple.
  destruct (structure_of s).
  - assert (clauses_of s = 1%nat) by tauto. split; intros; [|lia].
    assert (tally Simple l = List.length l) by (apply IH; lia). lia.
  - split; intros H; [|lia].
    assert (clauses_of s = 1%nat) by lia.
    assert (Compound = Simple) by tauto. discriminate.
  - split; intros H; [|lia].
    assert (clauses_of s = 1%nat) by lia.
    assert (Complex = Simple) by tauto. discriminate.
Qed.

(** X13.  [_analyze_sentence_structures] puts every sentence into exactly
    one of the three groups, so the tallies add up to the number of
    sentences.  The average number of clauses is 0 for no sentences and at
    least 1 otherwise, and it is exactly 1 only when every sentence is
    counted as simple. *)
Theorem sentence_structure_tallies :
  forall sentences,
    let s := _analyze_sentence_structures sentences in
    (simple s + compound s + complex s = List.length sentences)%nat
    /\ (sentences = [] -> (avg_clauses_per_sentence s == 0)%Q)
    /\ (sentences <> [] ->
        (1 <= avg_clauses_per_sentence s)%Q
        /\ ((avg_clauses_per_sentence s == 1)%Q
            <-> simple s = List.length sentences)).
Proof.
  intros sentences s. subst s.
  unfold _analyze_sentence_structures.
  cbn [simple compound complex avg_clauses_per_sentence].
  split; [apply tally_total|]. split.
  - intros ->. reflexivity.
  - intros Hne.
    assert (Hn : (0 < List.length sentences)%nat).
    { destruct sentences; [congruence|cbn; lia]. }
    replace (Nat.max (List.length sentences) 1) with (List.length sentences)
      by lia.
    split.
    + rewrite <- (ratio_self (List.length sentences) Hn).
      apply ratio_mono; [apply clauses_total|exact Hn].
    + rewrite <- all_simple. split.
      * apply ratio_one_inv, Hn.
      * intros ->. apply ratio_self, Hn.
Qed.

Lemma sentence_structure_tallies_witness :
  (avg_clauses_per_sentence (_analyze_sentence_structures []) == 0)%Q
  /\ (1 <= avg_clauses_per_sentence
             (_analyze_sentence_structures ["I came"; "I saw and I won"]))%Q
  /\ ((avg_clauses_per_sentence
         (_analyze_sentence_structures ["I came"; "I saw and I won"]) == 1)%Q
      <-> simple (_analyze_sentence_structures ["I came"; "I saw and I won"])
          = 2%nat).
Proof.
  split.
  - apply (sentence_structure_tallies []). reflexivity.
  - apply (sentence_structure_tallies ["I came"; "I saw and I won"]).
    discriminate.
Defined.

End Structures.

(** ** Preferred sentence structures *)

Section Preference.
Import Py StyleAnalyzer StyleAnalyzerRest.

Lemma add_structure_totals_lookup (totals : gmap string nat) structures :
  let totals' := add_structure_totals totals structures in
  totals' !! "simple"
  = Some (default 0 (totals !! "simple") + simple structures)%nat
  /\ totals' !! "compound"
     = Some (default 0 (totals !! "compound") + compound structures)%nat
  /\ totals' !! "complex"
     = Some (default 0 (totals !! "complex") + complex structures)%nat.
Proof.
  unfold add_structure_totals. cbn [fold_left].
  repeat split;
    repeat first
      [ rewrite lookup_insert_eq
      | rewrite lookup_insert_ne by discriminate ];
    reflexivity.
Qed.

Lemma fold_structure_totals (analyses : list FullAnalysis) :
  forall (totals : gmap string nat) (s c x : nat),
    totals !! "simple" = Some s ->
    totals !! "compound" = Some c ->
    totals !! "complex" = Some x ->
    let totals' :=
      fold_left
        (fun totals analysis =>
           add_structure_totals totals (sentence_structures analysis))
        analyses totals in
    totals' !! "simple"
    = Some (s + list_sum (map (fun a => simple (sentence_structures a))
                              analyses))%nat
    /\ totals' !! "compound"
       = Some (c + list_sum (map (fun a => compound (sentence_structures a))
                                 analyses))%nat
    /\ totals' !! "complex"
       = Some (x + list_sum (map (fun a => complex (sentence_structures a))
                                 analyses))%nat.
Proof.
  induction analyses as [|a l IH]; intros totals s c x Hs Hc Hx.
  - cbn. rewrite !Nat.add_0_r. auto.
  - cbn [fold_left map list_sum fold_right]. cbv zeta.
    destruct (add_structure_totals_lookup totals (sentence_structures a))
      as (Hs' & Hc' & Hx').
    cbv zeta in Hs', Hc', Hx'.
    rewrite Hs in Hs'. rewrite Hc in Hc'. rewrite Hx in Hx'.
    cbn [default from_option Datatypes.id] in Hs', Hc', Hx'.
    specialize (IH _ _ _ _ Hs' Hc' Hx'). cbv zeta in IH.
    destruct IH as (I1 & I2 & I3).
    rewrite I1, I2, I3.
    repeat split; f_equal; unfold list_sum; lia.
Qed.

Lemma list_sum_three {A} (f g h : A -> nat) (l : list A) :
  list_sum (map (fun a => f a + g a + h a)%nat l)
  = (list_sum (map f l) + list_sum (map g l) + list_sum (map h l))%nat.
Proof.
  induction l as [|a l IH]; [reflexivity|].
  cbn [map list_sum fold_right].
  fold (list_sum (map (fun a => f a + g a + h a)%nat l)).
  fold (list_sum (map f l)). fold (list_sum (map g l)).
  fold (list_sum (map h l)). lia.
Qed.

(** X14.  [_determine_structure_preference] returns the empty dict for
    no analysis.  For at least one analysis it returns the three keys
    simple, compound and complex, each with the share of its group: the
    sentences of the group in all analyses, divided by the sentences of
    the three groups together (by 1 when there is no sentence).  Every
    share lies between 0 and 1. *)
Theorem structure_preference_fractions :
  _determine_structure_preference [] = ∅
  /\ forall analyses,
      analyses <> [] ->
      let preference := _determine_structure_preference analyses in
      let simples :=
        list_sum (map (fun a => simple (sentence_structures a)) analyses) in
      let compounds :=
        list_sum (map (fun a => compound (sentence_structures a)) analyses) in
      let complexes :=
        list_sum (map (fun a => complex (sentence_structures a)) analyses) in
      let total := (simples + compounds + complexes)%nat in
      preference !! "simple" = Some (ratio simples (Nat.max total 1))
      /\ preference !! "compound" = Some (ratio compounds (Nat.max total 1))
      /\ preference !! "complex" = Some (ratio complexes (Nat.max total 1))
      /\ (0 <= ratio simples (Nat.max total 1) <= 1)%Q
      /\ (0 <= ratio compounds (Nat.max total 1) <= 1)%Q
      /\ (0 <= ratio complexes (Nat.max total 1) <= 1)%Q.
Proof.
  split; [reflexivity|].
  intros analyses Hne preference simples compounds complexes total.
  subst preference.
  unfold _determine_structure_preference. cbv zeta.
  rewrite list_sum_three. fold simples compounds complexes total.
  destruct analyses as [|a l]; [congruence|].
  cbn [fold_left].
  destruct (add_structure_totals_lookup ∅ (sentence_structures a))
    as (Hs & Hc & Hx).
  cbv zeta in Hs, Hc, Hx.
  rewrite lookup_empty in Hs, Hc, Hx.
  cbn [default from_option Datatypes.id] in Hs, Hc, Hx.
  destruct (fold_structure_totals l _ _ _ _ Hs Hc Hx) as (I1 & I2 & I3).
  cbv zeta in I1, I2, I3.
  rewrite !lookup_fmap, I1, I2, I3. cbn [fmap option_fmap option_map].
  assert (E1 : (0 + simple (sentence_structures a)
                + list_sum (map (fun a => simple (sentence_structures a)) l)
                = simples)%nat) by reflexivity.
  assert (E2 : (0 + compound (sentence_structures a)
                + list_sum (map (fun a => compound (sentence_structures a)) l)
                = compounds)%nat) by reflexivity.
  assert (E3 : (0 + complex (sentence_structures a)
                + list_sum (map (fun a => complex (sentence_structures a)) l)
                = complexes)%nat) by reflexivity.
  rewrite E1, E2, E3.
  split; [reflexivity|]. split; [reflexivity|]. split; [reflexivity|].
  repeat split; try apply ratio_nonneg; apply ratio_range; lia.
Qed.

Lemma structure_preference_fractions_witness :
  _determine_structure_preference
    [analyze_writing_sample_full "I came. I saw and I won."] !! "simple"
  = Some (ratio 1 2)
  /\ _determine_structure_preference
       [analyze_writing_sample_full "I came. I saw and I won."] !! "compound"
     = Some (ratio 1 2)
  /\ _determine_structure_preference
       [analyze_writing_sample_full "I came. I saw and I won."] !! "complex"
     = Some (ratio 0 2).
Proof.
  destruct structure_preference_fractions as [_ H].
  destruct (H [analyze_writing_sample_full "I came. I saw and I won."])
    as (Hs & Hc & Hx & _); [discriminate|].
  split; [exact Hs|]. split; [exact Hc|exact Hx].
Defined.

End Preference.

(** ** Counters and their most common entries *)

Section Counters.
Import Py StyleAnalyzer StyleAnalyzerRest.

Lemma count_of_counter_add key k n counts :
  count_of key (counter_add k n counts)
  = (count_of key counts + (if String.eqb k key then n else 0))%nat.
Proof.
  induction counts as [|[k' c] rest IH]; cbn [counter_add count_of].
  - destruct (String.eqb k key); lia.
  - destruct (String.eqb_spec k' k) as [->|Hne]; cbn [count_of].
    + destruct (String.eqb k key); lia.
    + destruct (String.eqb k' key) eqn:E.
      * apply String.eqb_eq in E. subst k'.
        destruct (String.eqb_spec k key); [congruence|lia].
      * exact IH.
Qed.

Lemma keys_counter_add key k n counts :
  In key (map fst (counter_add k n counts))
  <-> key = k \/ In key (map fst counts).
Proof.
  induction counts as [|[k' c] rest IH]; cbn [counter_add map fst In].
  - intuition.
  - destruct (String.eqb_spec k' k) as [->|Hne]; cbn [map fst In].
    + intuition.
    + rewrite IH. intuition.
Qed.

Lemma NoDup_counter_add k n counts :
  List.NoDup (map fst counts) -> List.NoDup (map fst (counter_add k n counts)).
Proof.
  induction counts as [|[k' c] rest IH]; cbn [counter_add map fst]; intros H.
  - constructor; [intros []|constructor].
  - inversion H as [|? ? Hnot Hrest]; subst.
    destruct (String.eqb_spec k' k) as [->|Hne]; cbn [map fst].
    + constructor; assumption.
    + constructor; [|apply IH, Hrest].
      rewrite keys_counter_add. intros [E|E]; [congruence|tauto].
Qed.

Lemma count_of_missing key counts :
  ~ In key (map fst counts) -> count_of key counts = 0%nat.
Proof.
  induction counts as [|[k c] rest IH]; cbn [count_of map fst In]; intros H.
  - reflexivity.
  - destruct (String.eqb_spec k key); [tauto|]. apply IH. tauto.
Qed.

Lemma count_of_In key c counts :
  List.NoDup (map fst counts) -> In (key, c) counts -> count_of key counts = c.
Proof.
  induction counts as [|[k c'] rest IH]; cbn [count_of map fst In];
    intros Hnd Hin.
  - destruct Hin.
  - inversion Hnd as [|? ? Hnot Hrest]; subst.
    destruct Hin as [E|Hin].
    + injection E as -> ->. now rewrite String.eqb_refl.
    + destruct (String.eqb_spec k key) as [->|Hne].
      * exfalso. apply Hnot. change key with (fst (key, c)).
        now apply in_map.
      * now apply IH.
Qed.

Lemma In_count_of key counts :
  In key (map fst counts) -> In (key, count_of key counts) counts.
Proof.
  induction counts as [|[k c] rest IH]; cbn [count_of map fst In]; intros H.
  - destruct H.
  - destruct (String.eqb_spec k key) as [->|Hne]; [now left|].
    right. apply IH. tauto.
Qed.

Lemma Counter_fold items :
  forall counts,
    let counter :=
      fold_left (fun counts item => counter_add item 1 counts) items counts in
    (List.NoDup (map fst counts) -> List.NoDup (map fst counter))
    /\ (forall key,
          count_of key counter
          = (count_of key counts
             + List.length (List.filter (String.eqb key) items))%nat)
    /\ (forall key,
          In key (map fst counter) <-> In key items \/ In key (map fst counts)).
Proof.
  induction items as [|item items IH]; intros counts counter; subst counter.
  - cbn [fold_left List.filter List.length In]. repeat split; try tauto.
    intros; lia.
  - cbn [fold_left]. destruct (IH (counter_add item 1 counts)) as (I1 & I2 & I3).
    cbv zeta in I1, I2, I3. repeat split.
    + intros H. apply I1, NoDup_counter_add, H.
    + intros key. rewrite I2, count_of_counter_add. cbn [List.filter].
      rewrite (String.eqb_sym key item).
      destruct (String.eqb item key); cbn [List.length]; lia.
    + rewrite I3, keys_counter_add. cbn [In]. intuition.
    + rewrite I3, keys_counter_add. cbn [In]. intuition.
Qed.

Lemma Counter_NoDup items : List.NoDup (map fst (Counter items)).
Proof. apply (Counter_fold items []). constructor. Qed.

Lemma Counter_count key items :
  count_of key (Counter items)
  = List.length (List.filter (String.eqb key) items).
Proof. apply (Counter_fold items []). Qed.

Lemma Counter_keys key items :
  In key (map fst (Counter items)) <-> In key items.
Proof.
  destruct (Counter_fold items []) as (_ & _ & H). cbv zeta in H.
  fold (Counter items) in H. rewrite H. cbn [map In]. tauto.
Qed.

Lemma Counter_entry key c items :
  In (key, c) (Counter items) ->
  In key items /\ c = List.length (List.filter (String.eqb key) items).
Proof.
  intros H. split.
  - apply Counter_keys. change key with (fst (key, c)). now apply in_map.
  - rewrite <- Counter_count. symmetry.
    apply count_of_In; [apply Counter_NoDup|exact H].
Qed.

Lemma insert_by_count_perm x sorted :
  Permutation (x :: sorted) (insert_by_count x sorted).
Proof.
  induction sorted as [|y rest IH]; cbn [insert_by_count]; [reflexivity|].
  destruct (snd y <=? snd x)%nat; [reflexivity|].
  rewrite perm_swap. now apply perm_skip.
Qed.

Lemma insert_by_count_sorted x sorted :
  StronglySorted by_falling_count sorted ->
  StronglySorted by_falling_count (insert_by_count x sorted).
Proof.
  induction sorted as [|y rest IH]; cbn [insert_by_count]; intros H.
  - constructor; [constructor|constructor].
  - inversion H as [|? ? Hrest Hall]; subst.
    destruct (Nat.leb_spec (snd y) (snd x)) as [Hle|Hlt].
    + constructor; [exact H|].
      constructor; [exact Hle|].
      eapply List.Forall_impl; [|exact Hall].
      intros z Hz. unfold by_falling_count in *. lia.
    + constructor; [apply IH, Hrest|].
      apply (Permutation_Forall (insert_by_count_perm x rest)).
      constructor; [unfold by_falling_count; lia|exact Hall].
Qed.

Lemma sort_by_count_perm counts :
  Permutation counts (fold_right insert_by_count [] counts).
Proof.
  induction counts as [|x rest IH]; cbn [fold_right]; [reflexivity|].
  rewrite <- insert_by_count_perm. now apply perm_skip.
Qed.

Lemma sort_by_count_sorted counts :
  StronglySorted by_falling_count (fold_right insert_by_count [] counts).
Proof.
  induction counts as [|x rest IH]; cbn [fold_right]; [constructor|].
  apply insert_by_count_sorted, IH.
Qed.

Lemma StronglySorted_firstn {A} (R : A -> A -> Prop) n l :
  StronglySorted R l -> StronglySorted R (firstn n l).
Proof.
  revert n. induction l as [|x l IH]; intros [|n] H; cbn [firstn];
    try constructor.
  - inversion H; subst. now apply IH.
  - inversion H; subst. now apply Forall_take.
Qed.

Lemma StronglySorted_split {A} (R : A -> A -> Prop) n l :
  StronglySorted R l ->
  forall x y, In x (firstn n l) -> In y (skipn n l) -> R x y.
Proof.
  revert n. induction l as [|a l IH]; intros [|n] H x y Hx Hy;
    cbn [firstn skipn In] in *; try tauto.
  inversion H as [|? ? Hrest Hall]; subst.
  destruct Hx as [<-|Hx].
  - rewrite List.Forall_forall in Hall. apply Hall.
    rewrite <- (firstn_skipn n l). apply in_or_app. now right.
  - eapply IH; eassumption.
Qed.

Lemma In_firstn {A} (x : A) n l : In x (firstn n l) -> In x l.
Proof.
  intros H. rewrite <- (firstn_skipn n l). apply in_or_app. now left.
Qed.

Lemma NoDup_firstn {A} n (l : list A) : List.NoDup l -> List.NoDup (firstn n l).
Proof.
  revert n. induction l as [|x l IH]; intros [|n] H; cbn [firstn];
    try constructor.
  - inversion H; subst. intros Hin. apply In_firstn in Hin. tauto.
  - inversion H; subst. now apply IH.
Qed.

Lemma most_common_length n counts :
  (List.length (most_common n counts) <= n)%nat.
Proof. unfold most_common. rewrite length_firstn. lia. Qed.

Lemma most_common_sorted n counts :
  StronglySorted by_falling_count (most_common n counts).
Proof. apply StronglySorted_firstn, sort_by_count_sorted. Qed.

Lemma most_common_In e n counts : In e (most_common n counts) -> In e counts.
Proof.
  intros H. apply In_firstn in H.
  eapply Permutation_in; [symmetry; apply sort_by_count_perm|exact H].
Qed.

Lemma most_common_NoDup n counts :
  List.NoDup (map fst counts) -> List.NoDup (map fst (most_common n counts)).
Proof.
  intros H. unfold most_common. rewrite <- firstn_map.
  apply NoDup_firstn.
  eapply Permutation_NoDup; [|exact H].
  apply Permutation_map, sort_by_count_perm.
Qed.

Lemma most_common_top n counts e :
  In e counts ->
  In e (most_common n counts)
  \/ forall e', In e' (most_common n counts) -> (snd e <= snd e')%nat.
Proof.
  intros H.
  apply (Permutation_in _ (sort_by_count_perm counts)) in H.
  rewrite <- (firstn_skipn n) in H. apply in_app_or in H.
  destruct H as [H|H]; [now left|right].
  intros e' He'.
  apply (StronglySorted_split by_falling_count n _
           (sort_by_count_sorted counts) e' e He' H).
Qed.

Lemma most_common_all n counts :
  (List.length counts <= n)%nat -> Permutation counts (most_common n counts).
Proof.
  intros H. unfold most_common. rewrite firstn_all2.
  - apply sort_by_count_perm.
  - rewrite <- (Permutation_length (sort_by_count_perm counts)). exact H.
Qed.

End Counters.

(** ** Frequent words *)

Section FrequentWords.
Import Py StyleAnalyzer StyleAnalyzerRest Notions.

Lemma isalpha_lower_char c : isalpha (lower_char c) = isalpha c.
Proof. destruct c as [[] [] [] [] [] [] [] []]; reflexivity. Qed.

Lemma lower_char_idem c : lower_char (lower_char c) = lower_char c.
Proof. destruct c as [[] [] [] [] [] [] [] []]; reflexivity. Qed.

Lemma lower_idem s : lower (lower s) = lower s.
Proof.
  induction s as [|c s IH]; [reflexivity|].
  cbn [lower]. now rewrite lower_char_idem, IH.
Qed.

Lemma isalpha_chars_lower s :
  forallb isalpha (list_ascii_of_string (lower s))
  = forallb isalpha (list_ascii_of_string s).
Proof.
  induction s as [|c s IH]; [reflexivity|].
  cbn [lower list_ascii_of_string forallb].
  now rewrite isalpha_lower_char, IH.
Qed.

Lemma isalpha_word_lower w : isalpha_word (lower w) = isalpha_word w.
Proof.
  unfold isalpha_word. rewrite isalpha_chars_lower.
  now destruct w.
Qed.

Lemma is_content_word_lower w : is_content_word (lower w) = is_content_word w.
Proof.
  unfold is_content_word.
  now rewrite isalpha_word_lower, lower_idem, len_lower.
Qed.

Lemma is_content_word_spec w :
  is_content_word w = true ->
  isalpha_word (lower w) = true
  /\ ~ In (lower w) stop_words
  /\ (3 <= len (lower w))%nat.
Proof.
  unfold is_content_word. intros H.
  apply andb_prop in H as [H H3]. apply andb_prop in H as [H1 H2].
  rewrite isalpha_word_lower, len_lower. split; [exact H1|]. split.
  - intros Hin. apply negb_true_iff in H2.
    assert (existsb (String.eqb (lower w)) stop_words = true) as E.
    { apply existsb_exists. exists (lower w). split; [exact Hin|].
      apply String.eqb_refl. }
    congruence.
  - apply Nat.ltb_lt in H3. lia.
Qed.

Lemma filtered_count w words :
  is_content_word w = true ->
  List.length
    (List.filter (String.eqb (lower w))
       (map lower (List.filter is_content_word words)))
  = List.length
      (List.filter (fun word => String.eqb (lower word) (lower w)) words).
Proof.
  intros Hw. induction words as [|word words IH]; [reflexivity|].
  cbn [List.filter].
  destruct (String.eqb_spec (lower word) (lower w)) as [E|E].
  - assert (Hword : is_content_word word = true).
    { now rewrite <- is_content_word_lower, E, is_content_word_lower. }
    rewrite Hword. cbn [map List.filter].
    rewrite (String.eqb_sym (lower w)), E, String.eqb_refl.
    cbn [List.length]. now rewrite IH.
  - destruct (is_content_word word); [|exact IH].
    cbn [map List.filter].
    destruct (String.eqb_spec (lower w) (lower word)); [congruence|exact IH].
Qed.

Lemma filter_length_pos {A} (f : A -> bool) x l :
  In x l -> f x = true -> (1 <= List.length (List.filter f l))%nat.
Proof.
  intros Hin Hf.
  assert (H : In x (List.filter f l)) by (apply filter_In; tauto).
  destruct (List.filter f l); [destruct H|cbn; lia].
Qed.

(** X15.  For words of ASCII characters [_get_frequent_words] returns at
    most [top_n] entries, in the order of falling counts and with no word
    twice.  Every entry is a lower-case word made of letters only, at
    least three characters long and not a stop word, and its count is the
    number of input words that are equal to it up to case.  The most
    frequent words are kept: a content word of the input that is left out
    occurs at most as often as every word that is listed. *)
Theorem frequent_words_listing :
  forall words top_n,
    Forall (fun word => isascii word = true) words ->
    let listed := _get_frequent_words words top_n in
    (List.length listed <= top_n)%nat
    /\ StronglySorted by_falling_count listed
    /\ List.NoDup (map fst listed)
    /\ (forall w c,
          In (w, c) listed ->
          lower w = w
          /\ isalpha_word w = true
          /\ ~ In w stop_words
          /\ (3 <= len w)%nat
          /\ c = List.length
                   (List.filter (fun word => String.eqb (lower word) w) words)
          /\ (1 <= c)%nat)
    /\ forall word,
        In word words ->
        is_content_word word = true ->
        In (lower word) (map fst listed)
        \/ forall w c,
            In (w, c) listed ->
            (List.length
               (List.filter
                  (fun word' => String.eqb (lower word') (lower word)) words)
             <= c)%nat.
Proof.
  intros words top_n _ listed. subst listed.
  unfold _get_frequent_words. cbv zeta.
  split; [apply most_common_length|].
  split; [apply most_common_sorted|].
  split; [apply most_common_NoDup, Counter_NoDup|].
  split.
  - intros w c H.
    apply most_common_In, Counter_entry in H. destruct H as [Hin ->].
    apply in_map_iff in Hin. destruct Hin as (word & <- & Hin).
    apply filter_In in Hin. destruct Hin as [Hin Hword].
    destruct (is_content_word_spec word Hword) as (H1 & H2 & H3).
    rewrite (filtered_count word words Hword).
    repeat split; try assumption.
    + apply lower_idem.
    + apply (filter_length_pos _ word); [exact Hin|apply String.eqb_refl].
  - intros word Hin Hword.
    set (filtered := map lower (List.filter is_content_word words)).
    assert (Hkey : In (lower word) (map fst (Counter filtered))).
    { apply Counter_keys. unfold filtered. apply in_map.
      apply filter_In. tauto. }
    apply In_count_of in Hkey.
    destruct (most_common_top top_n _ _ Hkey) as [H|H].
    + left.
      change (lower word)
        with (fst (lower word, count_of (lower word) (Counter filtered))).
      now apply in_map.
    + right. intros w c Hwc. specialize (H _ Hwc). cbn [snd] in H.
      rewrite Counter_count in H. unfold filtered in H.
      now rewrite (filtered_count word words Hword) in H.
Qed.

Lemma frequent_words_listing_witness :
  (lower "happy" = "happy"
   /\ isalpha_word "happy" = true
   /\ ~ In "happy" stop_words
   /\ (3 <= len "happy")%nat
   /\ 2%nat
      = List.length
          (List.filter (fun word => String.eqb (lower word) "happy")
                       ["Happy"; "the"; "cat"; "happy"])
   /\ (1 <= 2)%nat)
  /\ (In (lower "cat")
         (map fst (_get_frequent_words ["Happy"; "the"; "cat"; "happy"] 1))
      \/ forall w c,
          In (w, c) (_get_frequent_words ["Happy"; "the"; "cat"; "happy"] 1) ->
          (List.length
             (List.filter (fun word' => String.eqb (lower word') (lower "cat"))
                          ["Happy"; "the"; "cat"; "happy"])
           <= c)%nat).
Proof.
  assert (Hascii : Forall (fun word => isascii word = true)
                          ["Happy"; "the"; "cat"; "happy"])
    by (repeat constructor).
  destruct (frequent_words_listing ["Happy"; "the"; "cat"; "happy"] 1 Hascii)
    as (_ & _ & _ & Hentry & Htop).
  split.
  - apply (Hentry "happy" 2%nat). vm_compute. left. reflexivity.
  - apply (Htop "cat"); [|reflexivity]. right. right. left. reflexivity.
Defined.

End FrequentWords.

(** ** Frequent phrases *)

Section FrequentPhrases.
Import Py StyleAnalyzer StyleAnalyzerRest Spec.

Lemma token_scan_words s :
  all_chars isword (fst (token_scan s)) = true
  /\ Forall (fun t => t <> "" /\ all_chars isword t = true)
            (snd (token_scan s)).
Proof.
  induction s as [|c s IH]; cbn [token_scan].
  - split; [reflexivity|constructor].
  - destruct (token_scan s) as [w ws]. cbn [fst snd] in IH.
    destruct IH as [Hw Hws].
    destruct (isword c) eqn:Hc; cbn [fst snd].
    + split; [|exact Hws]. cbn [all_chars]. now rewrite Hc, Hw.
    + split; [reflexivity|].
      unfold cons_word. destruct w as [|a w]; [exact Hws|].
      constructor; [|exact Hws]. split; [discriminate|exact Hw].
Qed.

Lemma tokens_words s :
  Forall (fun t => t <> "" /\ all_chars isword t = true) (tokens s).
Proof.
  unfold tokens. pose proof (token_scan_words s) as [Hw Hws].
  destruct (token_scan s) as [w ws]. cbn [fst snd] in *.
  unfold cons_word. destruct w as [|a w]; [exact Hws|].
  constructor; [|exact Hws]. split; [discriminate|exact Hw].
Qed.

Lemma bigrams_In p words :
  In p (bigrams words) ->
  exists i w1 w2,
    words !! i = Some w1 /\ words !! S i = Some w2 /\ p = w1 ++ " " ++ w2.
Proof.
  induction words as [|w1 [|w2 rest] IH]; cbn [bigrams In]; try tauto.
  intros [<-|H].
  - exists 0%nat, w1, w2. repeat split.
  - destruct (IH H) as (i & a & b & Ha & Hb & ->).
    exists (S i), a, b. repeat split; assumption.
Qed.

Lemma trigrams_In p words :
  In p (trigrams words) ->
  exists i w1 w2 w3,
    words !! i = Some w1 /\ words !! S i = Some w2
    /\ words !! S (S i) = Some w3
    /\ p = w1 ++ " " ++ w2 ++ " " ++ w3.
Proof.
  induction words as [|w1 [|w2 [|w3 rest]] IH]; cbn [trigrams In]; try tauto.
  intros [<-|H].
  - exists 0%nat, w1, w2, w3. repeat split.
  - destruct (IH H) as (i & a & b & c & Ha & Hb & Hc & ->).
    exists (S i), a, b, c. repeat split; assumption.
Qed.

Lemma most_common_nil n : most_common n [] = [].
Proof. unfold most_common. cbn [fold_right]. apply firstn_nil. Qed.

(** X16.  [_get_frequent_phrases] reads the lower-cased text as its runs
    of word characters.  It returns at most [top_n] entries, in the order
    of falling counts and with no phrase twice; every entry is two or
    three neighbouring runs joined by single spaces, with the number of
    places where it occurs as its count.  A text with fewer than two runs
    has no phrase. *)
Theorem frequent_phrases_entries :
  forall text top_n,
    let words := tokens (lower text) in
    let listed := _get_frequent_phrases text top_n in
    Forall (fun t => t <> "" /\ all_chars isword t = true) words
    /\ (List.length listed <= top_n)%nat
    /\ StronglySorted by_falling_count listed
    /\ List.NoDup (map fst listed)
    /\ ((List.length words < 2)%nat -> listed = [])
    /\ forall p c,
        In (p, c) listed ->
        c = List.length
              (List.filter (String.eqb p) (bigrams words ++ trigrams words))
        /\ (1 <= c)%nat
        /\ ((exists i w1 w2,
               words !! i = Some w1 /\ words !! S i = Some w2
               /\ p = w1 ++ " " ++ w2)
            \/ (exists i w1 w2 w3,
                  words !! i = Some w1 /\ words !! S i = Some w2
                  /\ words !! S (S i) = Some w3
                  /\ p = w1 ++ " " ++ w2 ++ " " ++ w3)).
Proof.
  intros text top_n words listed. subst listed.
  unfold _get_frequent_phrases. cbv zeta. fold words.
  split; [apply tokens_words|].
  split; [apply most_common_length|].
  split; [apply most_common_sorted|].
  split; [apply most_common_NoDup, Counter_NoDup|].
  split.
  - intros Hshort.
    assert (bigrams words = [] /\ trigrams words = []) as [-> ->].
    { destruct words as [|w1 [|w2 rest]]; cbn in Hshort; try lia; now split. }
    apply most_common_nil.
  - intros p c H. apply most_common_In, Counter_entry in H.
    destruct H as [Hin ->]. split; [reflexivity|]. split.
    + apply (filter_length_pos _ p); [exact Hin|apply String.eqb_refl].
    + apply in_app_or in Hin. destruct Hin as [Hin|Hin].
      * left. apply bigrams_In, Hin.
      * right. apply trigrams_In, Hin.
Qed.

Lemma frequent_phrases_entries_witness :
  _get_frequent_phrases "Hello!" 10 = []
  /\ 2%nat
     = List.length
         (List.filter (String.eqb "so happy")
            (bigrams (tokens (lower "So happy, so HAPPY!"))
             ++ trigrams (tokens (lower "So happy, so HAPPY!"))))
  /\ (1 <= 2)%nat
  /\ ((exists i w1 w2,
         tokens (lower "So happy, so HAPPY!") !! i = Some w1
         /\ tokens (lower "So happy, so HAPPY!") !! S i = Some w2
         /\ "so happy" = w1 ++ " " ++ w2)
      \/ (exists i w1 w2 w3,
            tokens (lower "So happy, so HAPPY!") !! i = Some w1
            /\ tokens (lower "So happy, so HAPPY!") !! S i = Some w2
            /\ tokens (lower "So happy, so HAPPY!") !! S (S i) = Some w3
            /\ "so happy" = w1 ++ " " ++ w2 ++ " " ++ w3)).
Proof.
  split.
  - pose proof (frequent_phrases_entries "Hello!" 10) as H.
    cbv zeta in H. destruct H as (_ & _ & _ & _ & H & _).
    apply H. vm_compute. lia.
  - pose proof (frequent_phrases_entries "So happy, so HAPPY!" 10) as H.
    cbv zeta in H. destruct H as (_ & _ & _ & _ & _ & H).
    apply (H "so happy" 2%nat).
    vm_compute. tauto.
Defined.

End FrequentPhrases.

(** ** Preferred words and phrases of a profile *)

Section Preferred.
Import Py StyleAnalyzer StyleAnalyzerRest.

Lemma occurrences_cons key w count entries :
  occurrences key ((w, count) :: entries)
  = ((if String.eqb w key then count else 0) + occurrences key entries)%nat.
Proof.
  unfold occurrences. cbn [List.filter fst].
  destruct (String.eqb w key); reflexivity.
Qed.

Lemma add_entries entries :
  forall all,
    let all' :=
      fold_left (fun all '(w, count) => counter_add w count all) entries all in
    (List.NoDup (map fst all) -> List.NoDup (map fst all'))
    /\ forall key,
        count_of key all' = (count_of key all + occurrences key entries)%nat.
Proof.
  induction entries as [|[w count] entries IH]; intros all all'; subst all'.
  - cbn [fold_left]. split; [tauto|]. intros key. unfold occurrences. cbn. lia.
  - cbn [fold_left]. destruct (IH (counter_add w count all)) as [I1 I2].
    cbv zeta in I1, I2. split.
    + intros H. apply I1, NoDup_counter_add, H.
    + intros key.
      rewrite I2, count_of_counter_add, occurrences_cons. lia.
Qed.

Lemma sum_counters_fold counters :
  forall all,
    let all' :=
      fold_left
        (fun all counter =>
           fold_left (fun all '(w, count) => counter_add w count all)
                     counter all)
        counters all in
    (List.NoDup (map fst all) -> List.NoDup (map fst all'))
    /\ forall key,
        count_of key all'
        = (count_of key all
           + list_sum (map (occurrences key) counters))%nat.
Proof.
  induction counters as [|counter counters IH]; intros all all'; subst all'.
  - cbn [fold_left map list_sum fold_right]. split; [tauto|]. intros; lia.
  - cbn [fold_left map].
    destruct (add_entries counter all) as [A1 A2]. cbv zeta in A1, A2.
    match goal with
    | |- context [fold_left _ counters ?start] =>
        destruct (IH start) as [I1 I2]
    end.
    cbv zeta in I1, I2. split.
    + intros H. apply I1, A1, H.
    + intros key. rewrite I2, A2. cbn [list_sum fold_right]. unfold list_sum. lia.
Qed.

Lemma sum_counters_NoDup counters :
  List.NoDup (map fst (sum_counters counters)).
Proof. apply (sum_counters_fold counters []). constructor. Qed.

Lemma sum_counters_count key counters :
  count_of key (sum_counters counters)
  = list_sum (map (occurrences key) counters).
Proof. apply (sum_counters_fold counters []). Qed.

Lemma most_common_sum n counters w c :
  In (w, c) (most_common n (sum_counters counters)) ->
  c = list_sum (map (occurrences w) counters).
Proof.
  intros H. apply most_common_In in H.
  rewrite <- sum_counters_count. symmetry.
  apply count_of_In; [apply sum_counters_NoDup|exact H].
Qed.

(** X17.  The preferred words of a profile are at most 30 and the
    preferred phrases at most 20, each list in the order of falling
    counts with no entry twice; the count of an entry is the sum of the
    counts that the analyses give for it. *)
Theorem preferred_words_and_phrases :
  forall analyses,
    let words := _get_overall_word_preferences analyses in
    let phrases := _get_overall_phrase_preferences analyses in
    (List.length words <= 30)%nat
    /\ (List.length phrases <= 20)%nat
    /\ StronglySorted by_falling_count words
    /\ StronglySorted by_falling_count phrases
    /\ List.NoDup (map fst words)
    /\ List.NoDup (map fst phrases)
    /\ (forall w c,
          In (w, c) words ->
          c = list_sum
                (map (fun a => occurrences w (frequent_words a)) analyses))
    /\ (forall p c,
          In (p, c) phrases ->
          c = list_sum
                (map (fun a => occurrences p (frequent_phrases a)) analyses)).
Proof.
  intros analyses words phrases. subst words phrases.
  unfold _get_overall_word_preferences, _get_overall_phrase_preferences.
  split; [apply most_common_length|].
  split; [apply most_common_length|].
  split; [apply most_common_sorted|].
  split; [apply most_common_sorted|].
  split; [apply most_common_NoDup, sum_counters_NoDup|].
  split; [apply most_common_NoDup, sum_counters_NoDup|].
  split.
  - intros w c H. apply most_common_sum in H. now rewrite map_map in H.
  - intros p c H. apply most_common_sum in H. now rewrite map_map in H.
Qed.

Lemma preferred_words_and_phrases_witness :
  2%nat
  = list_sum
      (map (fun a => occurrences "happy" (frequent_words a))
           [ analyze_writing_sample_full "So happy today";
             analyze_writing_sample_full "Happy again" ])
  /\ 1%nat
     = list_sum
         (map (fun a => occurrences "so happy" (frequent_phrases a))
              [ analyze_writing_sample_full "So happy today";
                analyze_writing_sample_full "Happy again" ]).
Proof.
  pose proof
    (preferred_words_and_phrases
       [ analyze_writing_sample_full "So happy today";
         analyze_writing_sample_full "Happy again" ]) as H.
  cbv zeta in H. destruct H as (_ & _ & _ & _ & _ & _ & Hw & Hp).
  split.
  - apply (Hw "happy" 2%nat). vm_compute. tauto.
  - apply (Hp "so happy" 1%nat). vm_compute. tauto.
Defined.

End Preferred.

(** ** Word-ending patterns *)

Section Endings.
Import Py StyleAnalyzer StyleAnalyzerRest.

Lemma filter_length_mono {A} (f g : A -> bool) l :
  (forall x, f x = true -> g x = true) ->
  (List.length (List.filter f l) <= List.length (List.filter g l))%nat.
Proof.
  intros Hfg. induction l as [|x l IH]; [reflexivity|].
  cbn [List.filter]. destruct (f x) eqn:Hf.
  - rewrite (Hfg x Hf). cbn [List.length]. lia.
  - destruct (g x); cbn [List.length]; lia.
Qed.

(** X18.  In [_analyze_pos_patterns_simple] the words that end in ly are
    counted among the adjectives as well as among the adverbs, so the
    adverb ratio never exceeds the adjective ratio; the three ratios lie
    between 0 and 1, and all are 0 for no words. *)
Theorem pos_pattern_ratios :
  forall words,
    let p := _analyze_pos_patterns_simple words in
    (0 <= adverb_ratio p)%Q
    /\ (adverb_ratio p <= adjective_ratio p)%Q
    /\ (adjective_ratio p <= 1)%Q
    /\ (0 <= estimated_complexity p <= 1)%Q
    /\ (words = [] ->
        (adjective_ratio p == 0)%Q /\ (adverb_ratio p == 0)%Q
        /\ (estimated_complexity p == 0)%Q).
Proof.
  intros words p. subst p. unfold _analyze_pos_patterns_simple. cbv zeta.
  cbn [adverb_ratio adjective_ratio estimated_complexity].
  assert (Hn : (0 < Nat.max (List.length words) 1)%nat) by lia.
  split; [apply ratio_nonneg|]. split.
  { apply ratio_mono; [|exact Hn]. apply filter_length_mono.
    intros word H. cbn [existsb]. now rewrite H. }
  split.
  { apply ratio_range; [|exact Hn].
    pose proof (List.filter_length_le
                  (fun word =>
                     existsb (fun suffix => endswith suffix (lower word))
                             ["ly"; "ful"; "less"; "able"; "ible"]) words).
    lia. }
  split.
  { apply ratio_range; [|exact Hn].
    pose proof (distinct_length
                  (map lower
                       (List.filter (fun word => (6 <? len word)%nat) words))).
    rewrite length_map in H.
    pose proof (List.filter_length_le
                  (fun word => (6 <? len word)%nat) words).
    lia. }
  intros ->. repeat split; apply ratio_zero.
Qed.

Lemma pos_pattern_ratios_witness :
  let p := _analyze_pos_patterns_simple [] in
  (adjective_ratio p == 0)%Q /\ (adverb_ratio p == 0)%Q
  /\ (estimated_complexity p == 0)%Q.
Proof. apply (pos_pattern_ratios []). reflexivity. Defined.

End Endings.

(** ** The refiner: words, sentences and markers *)

Section Rewriting.
Import Py ContentGenerator Spec Notions.

Lemma append_nil_r (s : string) : s ++ "" = s.
Proof.
  induction s as [|c s IH]; [reflexivity|].
  rewrite append_cons. now rewrite IH.
Qed.

Lemma split_scan_visible s :
  all_chars (fun c => negb (isspace c)) (fst (split_scan s)) = true
  /\ Forall (fun w => w <> "" /\ all_chars (fun c => negb (isspace c)) w = true)
            (snd (split_scan s)).
Proof.
  induction s as [|c s IH]; [split; [reflexivity|constructor]|].
  rewrite split_scan_cons. destruct (split_scan s) as [w ws].
  cbn [fst snd] in IH. destruct IH as [Hw Hws].
  destruct (isspace c) eqn:Hc; cbn [fst snd].
  - split; [reflexivity|].
    destruct w; cbn [cons_word]; [exact Hws|].
    constructor; [|exact Hws]. split; [discriminate|exact Hw].
  - split; [|exact Hws]. cbn [all_chars]. now rewrite Hc, Hw.
Qed.

Lemma split_visible s :
  Forall (fun w => w <> "" /\ all_chars (fun c => negb (isspace c)) w = true)
         (split s).
Proof.
  unfold split. pose proof (split_scan_visible s) as [Hw Hws].
  destruct (split_scan s) as [w ws]. cbn [fst snd] in *.
  destruct w; cbn [cons_word]; [exact Hws|].
  constructor; [|exact Hws]. split; [discriminate|exact Hw].
Qed.

Lemma split_scan_app w s :
  all_chars (fun c => negb (isspace c)) w = true ->
  split_scan (w ++ s) = (w ++ fst (split_scan s), snd (split_scan s)).
Proof.
  induction w as [|c w IH]; intros Hw.
  - change ("" ++ s) with s. change ("" ++ fst (split_scan s)) with (fst (split_scan s)).
    now destruct (split_scan s).
  - cbn [all_chars] in Hw. apply andb_prop in Hw as [Hc Hw].
    rewrite append_cons, split_scan_cons, (IH Hw).
    apply negb_true_iff in Hc. now rewrite Hc.
Qed.

Lemma split_join words :
  Forall (fun w => w <> "" /\ all_chars (fun c => negb (isspace c)) w = true)
         words ->
  split (join " " words) = words.
Proof.
  induction words as [|w words IH]; intros H; [reflexivity|].
  inversion H as [|? ? [Hne Hw] Hrest]; subst.
  specialize (IH Hrest).
  unfold join in *. cbn [String.concat].
  destruct words as [|w2 rest].
  - unfold split. rewrite <- (append_nil_r w) at 1.
    rewrite (split_scan_app w "" Hw). cbn [split_scan fst snd].
    rewrite append_nil_r. destruct w; [congruence|reflexivity].
  - set (tail := String.concat " " (w2 :: rest)) in *.
    change (" " ++ tail) with (String " " tail).
    unfold split at 1. rewrite (split_scan_app w _ Hw).
    rewrite (split_scan_space " " tail eq_refl). cbn [fst snd].
    rewrite append_nil_r, IH. destruct w; [congruence|reflexivity].
Qed.

Lemma lookup_nth_error {A} (l : list A) i : l !! i = nth_error l i.
Proof. revert i. induction l as [|a l IH]; intros [|i]; cbn; auto. Qed.

(** X19.  When [_break_long_sentences] breaks a sentence, nothing but the
    conjunction is lost: the words of the first part, the conjunction and
    the words of the second part are the words of the sentence, in order,
    and the first part has at least nine words.  A sentence that is not
    broken is kept as it is. *)
Theorem break_sentence_keeps_words :
  forall sentence,
    break_sentence sentence = [sentence]
    \/ exists part1 part2 word,
        break_sentence sentence = [part1; part2]
        /\ In (lower word) conjunctions
        /\ split sentence = (split part1 ++ word :: split part2)%list
        /\ (9 <= List.length (split part1))%nat.
Proof.
  intros sentence. unfold break_sentence. cbv zeta.
  destruct (25 <? List.length (split sentence))%nat; [|now left].
  destruct (find_break 0 (split sentence)) as [i|] eqn:Hfind; [|now left].
  right.
  destruct (find_break_found _ _ _ Hfind) as (_ & H8 & (word & Hw & Hc) & _).
  rewrite Nat.sub_0_r in Hw.
  exists (join " " (firstn i (split sentence))),
         (join " " (skipn (S i) (split sentence))), word.
  pose proof (split_visible sentence) as Hvis.
  rewrite !split_join by (apply Forall_take || apply Forall_drop; exact Hvis).
  split; [reflexivity|]. split; [exact Hc|]. split.
  - symmetry. apply take_drop_middle. now rewrite lookup_nth_error.
  - rewrite length_firstn.
    assert (i < List.length (split sentence))%nat.
    { apply nth_error_Some. congruence. }
    lia.
Qed.

Lemma combine_scan_bounds n :
  forall sentences,
    (List.length sentences <= n)%nat ->
    (List.length (combine_scan sentences) <= List.length sentences)%nat
    /\ (List.length sentences <= 2 * List.length (combine_scan sentences))%nat.
Proof.
  induction n as [|n IH]; intros sentences Hn.
  - destruct sentences; [cbn; lia|cbn in Hn; lia].
  - destruct sentences as [|current rest]; [cbn; lia|].
    cbn [combine_scan].
    destruct (List.length (split current) <? 8)%nat.
    + destruct rest as [|next_sent rest']; [cbn; lia|].
      cbn [List.length] in *.
      destruct (IH rest'); [lia|]. lia.
    + cbn [List.length] in *. destruct (IH rest); [lia|]. lia.
Qed.

Lemma combine_scan_long sentences :
  Forall (fun s => (8 <= List.length (split s))%nat) sentences ->
  combine_scan sentences = sentences.
Proof.
  induction 1 as [|s l Hs Hl IH]; [reflexivity|].
  cbn [combine_scan].
  destruct (Nat.ltb_spec (List.length (split s)) 8); [lia|].
  now rewrite IH.
Qed.

(** X20.  [_combine_short_sentences] goes through the sentences from the
    left.  A sentence of fewer than eight words that has a sentence after
    it is joined with it: the two become one sentence, the first, then
    ", and ", then the second in lower case, and the scan goes on after
    the second; a short sentence at the end stays alone.  A sentence of
    eight words or more is kept and the scan goes on with the next one.
    So the result has at most as many sentences as the text and at least
    half as many, and a text whose sentences all have eight words or more
    comes back as its sentences joined by ". " with a final ".". *)
Theorem combine_short_sentences_pairs :
  (forall current next_sent rest,
     (List.length (split current) < 8)%nat ->
     combine_scan (current :: next_sent :: rest)
     = (current ++ ", and " ++ lower next_sent) :: combine_scan rest)
  /\ (forall current, combine_scan [current] = [current])
  /\ (forall current rest,
        (8 <= List.length (split current))%nat ->
        combine_scan (current :: rest) = current :: combine_scan rest)
  /\ (forall sentences,
        (List.length (combine_scan sentences) <= List.length sentences)%nat
        /\ (List.length sentences
            <= 2 * List.length (combine_scan sentences))%nat)
  /\ (forall sentences,
        Forall (fun s => (8 <= List.length (split s))%nat) sentences ->
        combine_scan sentences = sentences)
  /\ (forall text,
        _combine_short_sentences text
        = join ". " (combine_scan (refiner_sentences text)) ++ ".")
  /\ forall text,
      Forall (fun s => (8 <= List.length (split s))%nat)
             (refiner_sentences text) ->
      _combine_short_sentences text
      = join ". " (refiner_sentences text) ++ ".".
Proof.
  assert (Hunfold : forall text,
            _combine_short_sentences text
            = join ". " (combine_scan (refiner_sentences text)) ++ ".").
  { intros text. unfold _combine_short_sentences. cbv zeta.
    assert (E : map strip
                  (List.filter (fun s => nonempty (strip s))
                               (re_split false sentence_end text))
                = refiner_sentences text).
    { unfold refiner_sentences.
      induction (re_split false sentence_end text) as [|p ps IH];
        [reflexivity|].
      cbn [List.filter map]. destruct (nonempty (strip p)); cbn [map];
        now rewrite IH. }
    now rewrite E. }
  split; [|split; [|split; [|split; [|split; [|split]]]]].
  - intros current next_sent rest Hshort. cbn [combine_scan].
    apply Nat.ltb_lt in Hshort. now rewrite Hshort.
  - intros current. cbn [combine_scan].
    now destruct (List.length (split current) <? 8)%nat.
  - intros current rest Hlong. cbn [combine_scan].
    apply Nat.ltb_ge in Hlong. now rewrite Hlong.
  - intros sentences.
    apply (combine_scan_bounds (List.length sentences) sentences
             (Nat.le_refl _)).
  - apply combine_scan_long.
  - exact Hunfold.
  - intros text H. rewrite Hunfold. now rewrite (combine_scan_long _ H).
Qed.

Lemma combine_short_sentences_pairs_witness :
  combine_scan ["I came"; "I saw"; "one two three four five six seven eight"]
  = [ "I came, and i saw"; "one two three four five six seven eight" ]
  /\ combine_scan ["one two three four five six seven eight"; "I came"]
     = ["one two three four five six seven eight"; "I came"]
  /\ combine_scan ["one two three four five six seven eight"]
     = ["one two three four five six seven eight"]
  /\ _combine_short_sentences "I came. I saw. I won!" = "I came, and i saw. I won."
  /\ _combine_short_sentences "one two three four five six seven eight. "
     = join ". "
         (refiner_sentences "one two three four five six seven eight. ")
       ++ ".".
Proof.
  destruct combine_short_sentences_pairs
    as (Hmerge & Hlast & Hkeep & _ & Hlong & Hunfold & Htext).
  split; [|split; [|split; [|split]]].
  - rewrite Hmerge by (vm_compute; lia).
    rewrite Hlast. reflexivity.
  - rewrite Hkeep by (vm_compute; lia). rewrite Hlast. reflexivity.
  - apply Hlong. repeat constructor.
  - rewrite Hunfold.
    change (refiner_sentences "I came. I saw. I won!")
      with ["I came"; "I saw"; "I won"].
    rewrite Hmerge by (vm_compute; lia). rewrite Hlast. reflexivity.
  - apply Htext. vm_compute. repeat constructor.
Defined.

Lemma lower_take n s : lower (take n s) = take n (lower s).
Proof.
  revert s. induction n as [|n IH]; intros [|c s]; try reflexivity.
  cbn [take lower]. now rewrite IH.
Qed.

Lemma re_sub_word_absent word repl prev s :
  contains word (lower s) = false ->
  re_sub_word word repl prev 0 s = s.
Proof.
  revert prev. induction s as [|c s IH]; intros prev H; [reflexivity|].
  cbn [re_sub_word].
  change (lower (String c s)) with (String (lower_char c) (lower s)) in H.
  cbn [contains] in H. apply orb_false_iff in H as [Hstart Hrest].
  assert (Hhere : word_here_ci word prev (String c s) = false).
  { unfold word_here_ci. cbv zeta.
    destruct (String.eqb_spec (lower (take (len word) (String c s))) word)
      as [E|E].
    - exfalso. rewrite lower_take in E.
      pose proof (startswith_refl_take (len word) (lower (String c s))) as Hs.
      rewrite E in Hs.
      change (lower (String c s)) with (String (lower_char c) (lower s)) in Hs.
      congruence.
    - now rewrite andb_false_r. }
  rewrite Hhere. f_equal. apply IH, Hrest.
Qed.

Lemma substitute_absent replacements text :
  Forall (fun r => contains (fst r) (lower text) = false) replacements ->
  substitute replacements text = text.
Proof.
  unfold substitute. induction 1 as [|[word repl] l Hr Hl IH];
    [reflexivity|].
  cbn [fold_left]. cbn [fst] in Hr.
  now rewrite (re_sub_word_absent word repl None text Hr).
Qed.

(** X21.  The formality rewrites change nothing in a text of ASCII
    characters that holds none of their markers: [_make_more_casual]
    returns a text without therefore, however, furthermore, consequently
    and nevertheless as it is, and [_make_more_formal] a text without so,
    but, also and anyway (in any case, also inside a longer word). *)
Theorem formality_rewrites_need_markers :
  forall text,
    isascii text = true ->
    (Forall (fun r => contains (fst r) (lower text) = false)
            casual_replacements ->
     _make_more_casual text = text)
    /\ (Forall (fun r => contains (fst r) (lower text) = false)
               formal_replacements ->
        _make_more_formal text = text).
Proof.
  intros text _. split; apply substitute_absent.
Qed.

Lemma formality_rewrites_need_markers_witness :
  _make_more_casual "We met at noon." = "We met at noon."
  /\ _make_more_formal "We met at noon." = "We met at noon.".
Proof.
  destruct (formality_rewrites_need_markers "We met at noon." eq_refl)
    as [H1 H2].
  split; [apply H1|apply H2]; repeat constructor.
Defined.

(** X22.  [_refine_with_style] raises exactly when the profile holds
    something that is not a number as its average sentence length.
    Otherwise the refined text has no white space at either end; and for
    a target between 12 and 20 (15 when the profile has none) and a
    formality preference that is neither casual nor formal it is just
    the stripped text. *)
Theorem refine_with_style_outcomes :
  forall generated_text style_profile,
    (_refine_with_style generated_text style_profile = TypeError
     <-> exists v, style_profile !! "avg_sentence_length" = Some v
                   /\ forall q, v <> PNum q)
    /\ (forall text,
          _refine_with_style generated_text style_profile = Returns text ->
          strip text = text)
    /\ (forall target,
          get_number style_profile "avg_sentence_length" 15 = Returns target ->
          (12 <= target <= 20)%Q ->
          get_is style_profile "formality_preference" "neutral" "casual"
          = false ->
          get_is style_profile "formality_preference" "neutral" "formal"
          = false ->
          _refine_with_style generated_text style_profile
          = Returns (strip generated_text)).
Proof.
  intros generated_text style_profile.
  unfold _refine_with_style, get_number. split; [|split].
  - destruct (style_profile !! "avg_sentence_length") as [v|].
    + destruct v as [|q|s|items|entries]; cbn [bind]; split; intros H;
        try discriminate; try reflexivity;
        try (eexists; split; [reflexivity|]; intros q'; discriminate).
      destruct H as (v & Hv & Hnot). injection Hv as <-.
      now destruct (Hnot q).
    + cbn [bind]. split; [discriminate|].
      intros (v & Hv & _). discriminate.
  - intros text H.
    destruct (style_profile !! "avg_sentence_length") as [[]|];
      cbn [bind] in H; try discriminate;
      injection H as <-; apply strip_strip.
  - intros target Hget [Hlo Hhi] Hcasual Hformal.
    destruct (style_profile !! "avg_sentence_length") as [[]|];
      try discriminate; injection Hget as ->; cbn [bind];
      unfold adjust_length, adjust_formality;
      rewrite Hcasual, Hformal;
      rewrite (proj2 (Qltb_ge _ _) Hlo), (proj2 (Qltb_ge _ _) Hhi);
      reflexivity.
Qed.

Lemma refine_with_style_outcomes_witness :
  _refine_with_style " Fine. " {[ "avg_sentence_length" := PStr "long" ]}
  = TypeError
  /\ _refine_with_style " Fine. " ∅ = Returns (strip " Fine. ")
  /\ strip "Fine." = "Fine.".
Proof.
  destruct (refine_with_style_outcomes " Fine. "
              {[ "avg_sentence_length" := PStr "long" ]}) as ([_ H1] & _).
  destruct (refine_with_style_outcomes " Fine. " ∅) as (_ & H2 & H3).
  split; [|split].
  - apply H1. exists (PStr "long"). split; [reflexivity|discriminate].
  - apply (H3 15%Q); try reflexivity. split; discriminate.
  - apply H2. reflexivity.
Defined.

End Rewriting.

(** ** Feedback on a generated text *)

Section Edits.
Import Py ContentGenerator Feedback.

Lemma longer_content (n m : nat) :
  Qltb (inject_Z (Z.of_nat n) * 1.2) (inject_Z (Z.of_nat m)) = true ->
  (n < m)%nat \/ (n = 0%nat /\ (0 < m)%nat).
Proof.
  intros H. apply Qltb_lt in H.
  unfold Qlt in H. cbn [Qnum Qden Qmult inject_Z] in H. lia.
Qed.

Lemma shorter_content (n m : nat) :
  Qltb (inject_Z (Z.of_nat m)) (inject_Z (Z.of_nat n) * 0.8) = true ->
  (m < n)%nat.
Proof.
  intros H. apply Qltb_lt in H.
  unfold Qlt in H. cbn [Qnum Qden Qmult inject_Z] in H. lia.
Qed.

(** X23.  [adapt_based_on_feedback] reports no adjustment for a text that
    the user left as it was, and never more than three.  The tags of a
    shorter text and of simpler words exclude each other, and so do the
    tags of a longer text and of more complex words: simpler words need
    more words than the original, complex words fewer. *)
Theorem feedback_adjustments :
  forall original_prompt generated_content user_modifications style_profile,
    let adjustments :=
      style_adjustments
        (adapt_based_on_feedback original_prompt generated_content
           user_modifications style_profile) in
    (user_modifications = generated_content -> adjustments = [])
    /\ (List.length adjustments <= 3)%nat
    /\ ~ (In "prefers_shorter_content" adjustments
          /\ In "prefer_simpler_vocabulary" adjustments)
    /\ ~ (In "prefers_longer_content" adjustments
          /\ In "prefer_complex_vocabulary" adjustments).
Proof.
  intros original_prompt generated_content user_modifications style_profile
         adjustments.
  subst adjustments. unfold adapt_based_on_feedback. cbv zeta.
  cbn [style_adjustments].
  set (n := List.length (split generated_content)).
  set (m := List.length (split user_modifications)).
  split; [|split; [|split]].
  - intros ->. subst m. fold n.
    unfold _is_more_formal, _is_more_casual, _uses_simpler_words,
      _uses_complex_words. cbv zeta.
    rewrite !Nat.ltb_irrefl. cbn [andb].
    destruct (Qltb (inject_Z (Z.of_nat n) * 1.2) (inject_Z (Z.of_nat n)))
      eqn:E1.
    { apply longer_content in E1. lia. }
    destruct (Qltb (inject_Z (Z.of_nat n)) (inject_Z (Z.of_nat n) * 0.8))
      eqn:E2.
    { apply shorter_content in E2. lia. }
    reflexivity.
  - destruct (Qltb _ _); [|destruct (Qltb _ _)];
      (destruct (_is_more_formal _ _); [|destruct (_is_more_casual _ _)]);
      (destruct (_uses_simpler_words _ _);
       [|destruct (_uses_complex_words _ _)]);
      cbn; lia.
  - intros [Hshort Hsimple].
    destruct (Qltb (inject_Z (Z.of_nat n) * 1.2) (inject_Z (Z.of_nat m)))
      eqn:E1;
      [|destruct (Qltb (inject_Z (Z.of_nat m)) (inject_Z (Z.of_nat n) * 0.8))
          eqn:E2];
      (destruct (_is_more_formal _ _); [|destruct (_is_more_casual _ _)]);
      (destruct (_uses_simpler_words user_modifications generated_content)
         eqn:E3;
       [|destruct (_uses_complex_words _ _)]);
      cbn in Hshort, Hsimple;
      repeat match goal with
             | H : _ \/ _ |- _ => destruct H
             | H : False |- _ => destruct H
             | H : _ = _ :> string |- _ => discriminate H
             end.
    all: apply shorter_content in E2.
    all: unfold _uses_simpler_words in E3; apply andb_prop in E3 as [E3 _].
    all: apply Nat.ltb_lt in E3; fold n m in E3; lia.
  - intros [Hlong Hcomplex].
    destruct (Qltb (inject_Z (Z.of_nat n) * 1.2) (inject_Z (Z.of_nat m)))
      eqn:E1;
      [|destruct (Qltb (inject_Z (Z.of_nat m)) (inject_Z (Z.of_nat n) * 0.8))
          eqn:E2];
      (destruct (_is_more_formal _ _); [|destruct (_is_more_casual _ _)]);
      (destruct (_uses_simpler_words _ _);
       [|destruct (_uses_complex_words user_modifications generated_content)
           eqn:E3]);
      cbn in Hlong, Hcomplex;
      repeat match goal with
             | H : _ \/ _ |- _ => destruct H
             | H : False |- _ => destruct H
             | H : _ = _ :> string |- _ => discriminate H
             end.
    all: apply longer_content in E1.
    all: unfold _uses_complex_words in E3; apply andb_prop in E3 as [E3 _].
    all: apply Nat.ltb_lt in E3; fold n m in E3; lia.
Qed.

Lemma feedback_adjustments_witness :
  style_adjustments
    (adapt_based_on_feedback "a note" "Thanks, see you." "Thanks, see you." ∅)
  = [].
Proof.
  apply (feedback_adjustments "a note" "Thanks, see you." "Thanks, see you." ∅).
  reflexivity.
Defined.

End Edits.

(** ** The endpoints of the writing samples *)

Section Endpoints.
Import Py StyleAnalyzer Samples SamplesRest.

Lemma mark_analyzed_user user s :
  WritingSample.user_id (mark_analyzed user s) = WritingSample.user_id s.
Proof. unfold mark_analyzed. now destruct (_ =? _)%nat. Qed.

Lemma mark_analyzed_content user s :
  WritingSample.content (mark_analyzed user s) = WritingSample.content s.
Proof. unfold mark_analyzed. now destruct (_ =? _)%nat. Qed.

Lemma mark_analyzed_idem user s :
  mark_analyzed user (mark_analyzed user s) = mark_analyzed user s.
Proof.
  unfold mark_analyzed at 2.
  destruct (WritingSample.user_id s =? user)%nat eqn:E.
  - unfold mark_analyzed. cbn [WritingSample.user_id]. now rewrite E.
  - unfold mark_analyzed. now rewrite E.
Qed.

Lemma marked_samples_same user rows :
  List.filter (fun s => (WritingSample.user_id s =? user)%nat)
              (map (mark_analyzed user) rows)
  = map (mark_analyzed user)
        (List.filter (fun s => (WritingSample.user_id s =? user)%nat) rows).
Proof.
  induction rows as [|s rows IH]; [reflexivity|].
  cbn [map List.filter]. rewrite mark_analyzed_user.
  destruct (WritingSample.user_id s =? user)%nat; cbn [map]; now rewrite IH.
Qed.

Lemma marked_samples_other user other rows :
  other <> user ->
  List.filter (fun s => (WritingSample.user_id s =? other)%nat)
              (map (mark_analyzed user) rows)
  = List.filter (fun s => (WritingSample.user_id s =? other)%nat) rows.
Proof.
  intros Hne. induction rows as [|s rows IH]; [reflexivity|].
  cbn [map List.filter]. rewrite mark_analyzed_user.
  destruct (Nat.eqb_spec (WritingSample.user_id s) other) as [E|E];
    [|exact IH].
  rewrite IH. f_equal. unfold mark_analyzed.
  destruct (Nat.eqb_spec (WritingSample.user_id s) user); [congruence|].
  reflexivity.
Qed.

Lemma marked_samples_analyzed user rows :
  Forall (fun s => WritingSample.analyzed s = true)
         (map (mark_analyzed user)
              (List.filter (fun s => (WritingSample.user_id s =? user)%nat)
                           rows)).
Proof.
  induction rows as [|s rows IH]; [constructor|].
  cbn [List.filter].
  destruct (WritingSample.user_id s =? user)%nat eqn:E; [|exact IH].
  cbn [map]. constructor; [|exact IH].
  unfold mark_analyzed. now rewrite E.
Qed.

Lemma upsert_idem user row rows :
  UserStyleProfile.user_id row = user ->
  upsert user row (upsert user row rows) = upsert user row rows.
Proof.
  intros Hrow. induction rows as [|r rows IH]; cbn [upsert].
  - apply Nat.eqb_eq in Hrow. now rewrite Hrow.
  - destruct (UserStyleProfile.user_id r =? user)%nat eqn:E; cbn [upsert].
    + apply Nat.eqb_eq in Hrow. now rewrite Hrow.
    + now rewrite E, IH.
Qed.

Lemma find_upsert_same user row rows :
  UserStyleProfile.user_id row = user ->
  find (fun r => (UserStyleProfile.user_id r =? user)%nat)
       (upsert user row rows)
  = Some row.
Proof.
  intros Hrow. apply Nat.eqb_eq in Hrow.
  induction rows as [|r rows IH]; cbn [upsert find].
  - now rewrite Hrow.
  - destruct (UserStyleProfile.user_id r =? user)%nat eqn:E; cbn [find].
    + now rewrite Hrow.
    + now rewrite E.
Qed.

Lemma find_upsert_other user other row rows :
  other <> user ->
  UserStyleProfile.user_id row = user ->
  find (fun r => (UserStyleProfile.user_id r =? other)%nat)
       (upsert user row rows)
  = find (fun r => (UserStyleProfile.user_id r =? other)%nat) rows.
Proof.
  intros Hne Hrow.
  assert (Hno : (UserStyleProfile.user_id row =? other)%nat = false).
  { apply Nat.eqb_neq. congruence. }
  induction rows as [|r rows IH]; cbn [upsert find].
  - now rewrite Hno.
  - destruct (Nat.eqb_spec (UserStyleProfile.user_id r) user) as [E|E];
      cbn [find].
    + rewrite Hno.
      destruct (Nat.eqb_spec (UserStyleProfile.user_id r) other);
        [congruence|reflexivity].
    + now rewrite IH.
Qed.

Lemma analyze_success user db response db' :
  analyze_user_samples user db = inr (response, db') ->
  user_samples user db <> []
  /\ exists p,
      build_user_style_profile
        (map (fun s => analyze_writing_sample (WritingSample.content s))
             (user_samples user db))
      = Profile.Dict p
      /\ response
         = {| Response.success := true;
              Response.message :=
                "Analyzed " ++ pretty (List.length (user_samples user db))
                ++ " writing samples and updated style profile";
              Response.profile :=
                {| Response.vocabulary_level := Profile.vocabulary_level p;
                   Response.formality_preference :=
                     Profile.formality_preference p;
                   Response.avg_sentence_length :=
                     round2 (Profile.avg_sentence_length p);
                   Response.sample_count :=
                     List.length (user_samples user db);
                   Response.emotional_patterns :=
                     size (Profile.emotional_expression_patterns p) |} |}
      /\ db'
         = {| writing_samples :=
                map (mark_analyzed user) (writing_samples db);
              user_style_profiles :=
                upsert user (row_of user p) (user_style_profiles db) |}.
Proof.
  unfold analyze_user_samples. cbv zeta.
  destruct (user_samples user db) as [|s rest] eqn:Hs; [discriminate|].
  cbn [List.length Nat.ltb Nat.leb].
  destruct (build_user_style_profile _) as [|p]; [discriminate|].
  intros [= <- <-]. split; [discriminate|].
  exists p. repeat split.
Qed.

Lemma analyze_of_samples user db p :
  user_samples user db <> [] ->
  build_user_style_profile
    (map (fun s => analyze_writing_sample (WritingSample.content s))
         (user_samples user db))
  = Profile.Dict p ->
  analyze_user_samples user db
  = inr ({| Response.success := true;
            Response.message :=
              "Analyzed " ++ pretty (List.length (user_samples user db))
              ++ " writing samples and updated style profile";
            Response.profile :=
              {| Response.vocabulary_level := Profile.vocabulary_level p;
                 Response.formality_preference :=
                   Profile.formality_preference p;
                 Response.avg_sentence_length :=
                   round2 (Profile.avg_sentence_length p);
                 Response.sample_count := List.length (user_samples user db);
                 Response.emotional_patterns :=
                   size (Profile.emotional_expression_patterns p) |} |},
         {| writing_samples := map (mark_analyzed user) (writing_samples db);
            user_style_profiles :=
              upsert user (row_of user p) (user_style_profiles db) |}).
Proof.
  intros Hne Hp. unfold analyze_user_samples. cbv zeta.
  destruct (user_samples user db) as [|s rest] eqn:Hs; [congruence|].
  cbn [List.length Nat.ltb Nat.leb]. cbn [List.length] in Hp.
  now rewrite Hp.
Qed.

Lemma patterns_keys analyses emotion :
  Forall (fun a =>
            forall e l, emotional_language a !! e = Some l ->
                        In e (map fst emotion_words)) analyses ->
  is_Some (_build_emotional_patterns analyses !! emotion) ->
  In emotion (map fst emotion_words).
Proof.
  intros Hall [l Hl].
  destruct (in_dec string_dec emotion (map fst emotion_words)) as [H|H];
    [exact H|].
  exfalso. rewrite merged_none in Hl; [discriminate|].
  eapply List.Forall_impl; [|exact Hall].
  intros a Ha. cbv beta in Ha.
  destruct (emotional_language a !! emotion) as [l'|] eqn:E; [|reflexivity].
  destruct H. eapply Ha, E.
Qed.

Lemma size_list_to_set_le (names : list string) :
  (size (list_to_set names : gset string) <= List.length names)%nat.
Proof.
  induction names as [|n names IH].
  - change (size (∅ : gset string) <= 0)%nat. now rewrite size_empty.
  - change (size ({[n]} ∪ list_to_set names : gset string)
            <= S (List.length names))%nat.
    rewrite size_union_alt, size_singleton.
    assert (Hsub : (list_to_set names ∖ {[n]} : gset string)
                   ⊆ list_to_set names).
    { intros k Hk. apply elem_of_difference in Hk. tauto. }
    apply subseteq_size in Hsub. lia.
Qed.

Lemma size_keys (m : gmap string (list string)) (names : list string) :
  (forall k, is_Some (m !! k) -> In k names) ->
  (size m <= List.length names)%nat.
Proof.
  intros H. rewrite <- size_dom.
  transitivity (size (list_to_set names : gset string));
    [|apply size_list_to_set_le].
  apply subseteq_size. intros k Hk.
  apply elem_of_dom in Hk. apply elem_of_list_to_set.
  apply list_elem_of_In. now apply H.
Qed.

End Endpoints.

(** ** Analysing twice, uploading, reading the profile, deleting *)

Section Requests.
Import Py StyleAnalyzer Samples SamplesRest.

Lemma marked_analyses user rows :
  map (fun s => analyze_writing_sample (WritingSample.content s))
      (map (mark_analyzed user) rows)
  = map (fun s => analyze_writing_sample (WritingSample.content s)) rows.
Proof.
  rewrite map_map. apply map_ext. intros s.
  now rewrite mark_analyzed_content.
Qed.

Lemma extracted_pattern_keys texts :
  Forall (fun a =>
            forall e l, emotional_language a !! e = Some l ->
                        In e (map fst emotion_words))
         (map analyze_writing_sample texts).
Proof.
  induction texts as [|text texts IH]; [constructor|].
  cbn [map]. constructor; [|exact IH].
  intros e l H.
  exact (proj1 (analyze_emotional_language_sound (lower text) e l H)).
Qed.

Lemma profile_patterns_size analyses p :
  Forall (fun a =>
            forall e l, emotional_language a !! e = Some l ->
                        In e (map fst emotion_words)) analyses ->
  build_user_style_profile analyses = Profile.Dict p ->
  (size (Profile.emotional_expression_patterns p) <= 6)%nat.
Proof.
  intros Hkeys Hp. destruct analyses as [|a rest]; [discriminate|].
  injection Hp as <-. cbn [Profile.emotional_expression_patterns].
  apply (size_keys _ (map fst emotion_words)).
  intros k. apply patterns_keys, Hkeys.
Qed.

(** X24.  [POST /analyze] can be repeated: after a successful analysis a
    second one gives the same answer, leaves the samples as they are and
    writes the same values into the columns of the profile of the user
    that the embedding keeps (the time stamp [updated_at] of the row,
    which is not among them, is set anew).  The analysis flags every sample of the user as analysed,
    leaves the samples and the profile of every other user alone, and
    reports at most six emotional patterns. *)
Theorem analysis_is_repeatable :
  forall user db response db',
    analyze_user_samples user db = inr (response, db') ->
    (exists db'' r r',
       analyze_user_samples user db' = inr (response, db'')
       /\ writing_samples db'' = writing_samples db'
       /\ first_profile user db' = Some r
       /\ first_profile user db'' = Some r'
       /\ same_columns r r')
    /\ Forall (fun s => WritingSample.analyzed s = true)
              (user_samples user db')
    /\ (forall other,
          other <> user ->
          user_samples other db' = user_samples other db
          /\ first_profile other db' = first_profile other db)
    /\ (Response.emotional_patterns (Response.profile response) <= 6)%nat.
Proof.
  intros user db response db' H.
  destruct (analyze_success _ _ _ _ H) as (Hne & p & Hp & -> & ->).
  assert (Hsame :
    user_samples user
      {| writing_samples := map (mark_analyzed user) (writing_samples db);
         user_style_profiles :=
           upsert user (row_of user p) (user_style_profiles db) |}
    = map (mark_analyzed user) (user_samples user db)).
  { unfold user_samples. cbn [writing_samples].
    apply marked_samples_same. }
  split; [|split; [|split]].
  - eexists. exists (row_of user p), (row_of user p).
    split; [|split; [|split; [|split]]].
    + rewrite (analyze_of_samples _ _ p).
      * rewrite Hsame, length_map. reflexivity.
      * rewrite Hsame.
        destruct (user_samples user db); [congruence|discriminate].
      * rewrite Hsame, marked_analyses. exact Hp.
    + cbn [writing_samples]. rewrite map_map.
      apply map_ext, mark_analyzed_idem.
    + unfold first_profile. cbn [user_style_profiles].
      now apply find_upsert_same.
    + unfold first_profile. cbn [user_style_profiles].
      now apply find_upsert_same.
    + repeat split.
  - rewrite Hsame. apply marked_samples_analyzed.
  - intros other Hother. split.
    + unfold user_samples. cbn [writing_samples].
      now apply marked_samples_other.
    + unfold first_profile. cbn [user_style_profiles].
      now apply find_upsert_other.
  - cbn [Response.emotional_patterns Response.profile].
    eapply profile_patterns_size; [|exact Hp].
    rewrite <- (map_map WritingSample.content analyze_writing_sample).
    apply extracted_pattern_keys.
Qed.

Lemma analysis_is_repeatable_witness :
  exists response db' db'',
    analyze_user_samples 7 two_users = inr (response, db')
    /\ analyze_user_samples 7 db' = inr (response, db'')
    /\ writing_samples db'' = writing_samples db'
    /\ user_samples 8 db' = user_samples 8 two_users.
Proof.
  eexists. eexists.
  destruct (analysis_is_repeatable 7 two_users _ _ eq_refl)
    as ((db'' & r & r' & Hagain & Hsamples & _) & _ & Hother & _).
  exists db''. split; [reflexivity|].
  split; [exact Hagain|]. split; [exact Hsamples|].
  apply (Hother 8). discriminate.
Defined.

Lemma filter_app_one {A} (f : A -> bool) l x :
  List.filter f (l ++ [x]) = (List.filter f l ++ (if f x then [x] else []))%list.
Proof. rewrite List.filter_app. reflexivity. Qed.

(** X25.  [POST /upload] refuses a text whose stripped form has fewer than
    50 characters.  An accepted text is stored as it was sent, not yet
    analysed, as the last sample of the user, and nothing else changes;
    an analysis that follows succeeds and counts one sample more than the
    user had before. *)
Theorem upload_then_analyze :
  forall title content user new_id db,
    ((len (strip content) < 50)%nat ->
     exists e, upload_writing_sample title content user new_id db = inl e
               /\ status_code e = 400%nat)
    /\ forall sample db',
        upload_writing_sample title content user new_id db
        = inr (sample, db') ->
        (50 <= len (strip content))%nat
        /\ WritingSample.content sample = content
        /\ WritingSample.analyzed sample = false
        /\ get_user_samples user db' = (get_user_samples user db ++ [sample])%list
        /\ (forall other, other <> user ->
                          get_user_samples other db' = get_user_samples other db)
        /\ user_style_profiles db' = user_style_profiles db
        /\ exists response db'',
            analyze_user_samples user db' = inr (response, db'')
            /\ Response.sample_count (Response.profile response)
               = S (List.length (get_user_samples user db)).
Proof.
  intros title content user new_id db. unfold upload_writing_sample.
  cbv zeta. split.
  - intros Hshort. apply Nat.ltb_lt in Hshort. rewrite Hshort.
    eexists. split; reflexivity.
  - intros sample db' H.
    destruct (Nat.ltb_spec (len (strip content)) 50) as [|Hlong];
      [discriminate|].
    injection H as <- <-.
    assert (Hmine :
      get_user_samples user
        {| writing_samples :=
             (writing_samples db
              ++ [ {| WritingSample.id := new_id;
                      WritingSample.user_id := user;
                      WritingSample.title := title;
                      WritingSample.content := content;
                      WritingSample.analyzed := false |} ])%list;
           user_style_profiles := user_style_profiles db |}
      = (get_user_samples user db
         ++ [ {| WritingSample.id := new_id;
                 WritingSample.user_id := user;
                 WritingSample.title := title;
                 WritingSample.content := content;
                 WritingSample.analyzed := false |} ])%list).
    { unfold get_user_samples, user_samples. cbn [writing_samples].
      rewrite filter_app_one. cbn [WritingSample.user_id].
      now rewrite Nat.eqb_refl. }
    split; [exact Hlong|]. split; [reflexivity|]. split; [reflexivity|].
    split; [exact Hmine|]. split; [|split; [reflexivity|]].
    + intros other Hother.
      unfold get_user_samples, user_samples. cbn [writing_samples].
      rewrite filter_app_one. cbn [WritingSample.user_id].
      destruct (Nat.eqb_spec user other); [congruence|].
      apply app_nil_r.
    + unfold get_user_samples in Hmine.
      match goal with
      | |- context [analyze_user_samples user ?d] => set (db1 := d) in *
      end.
      assert (Hne : user_samples user db1 <> []).
      { rewrite Hmine. now destruct (user_samples user db). }
      destruct (build_profile_of_samples
                  (map (fun s =>
                          analyze_writing_sample (WritingSample.content s))
                       (user_samples user db1))) as (p & Hp & _).
      { destruct (user_samples user db1); [congruence|discriminate]. }
      rewrite (analyze_of_samples user db1 p Hne Hp).
      eexists. eexists. split; [reflexivity|].
      cbn [Response.sample_count Response.profile].
      rewrite Hmine, length_app. cbn [List.length].
      unfold get_user_samples. lia.
Qed.

Lemma upload_then_analyze_witness :
  (exists e,
     upload_writing_sample "Short" "   too short   " 7 3 two_users = inl e
     /\ status_code e = 400%nat)
  /\ exists sample db' response db'',
      upload_writing_sample "Long"
        "The quick brown fox jumps over the lazy dog, twice over." 7 3
        two_users
      = inr (sample, db')
      /\ analyze_user_samples 7 db' = inr (response, db'')
      /\ Response.sample_count (Response.profile response) = 2%nat.
Proof.
  split.
  - apply (upload_then_analyze "Short" "   too short   " 7 3 two_users).
    vm_compute. lia.
  - destruct (upload_then_analyze "Long"
                "The quick brown fox jumps over the lazy dog, twice over."
                7 3 two_users) as [_ H].
    eexists. eexists.
    destruct (H _ _ eq_refl)
      as (_ & _ & _ & _ & _ & _ & response & db'' & Ha & Hc).
    exists response, db''. split; [reflexivity|]. split; [exact Ha|exact Hc].
Defined.

(** X26.  After a successful analysis [GET /profile] answers with the
    profile that the analysis stored.  Its [sample_count] is not the
    number of samples: it is the number of emotions with a pattern, the
    figure that the analysis reported as [emotional_patterns], and so at
    most six.  Without a stored profile the answer is 404. *)
Theorem profile_after_analysis :
  forall user db,
    (first_profile user db = None ->
     exists e, get_user_style_profile user db = inl e
               /\ status_code e = 404%nat)
    /\ forall response db',
        analyze_user_samples user db = inr (response, db') ->
        exists r,
          get_user_style_profile user db' = inr r
          /\ ProfileResponse.user_id r = user
          /\ ProfileResponse.sample_count r
             = Response.emotional_patterns (Response.profile response)
          /\ (ProfileResponse.sample_count r <= 6)%nat
          /\ ProfileResponse.vocabulary_level r
             = Response.vocabulary_level (Response.profile response)
          /\ ProfileResponse.formality_preference r
             = Response.formality_preference (Response.profile response).
Proof.
  intros user db. unfold get_user_style_profile. split.
  - intros ->. eexists. split; reflexivity.
  - intros response db' H.
    destruct (analyze_success _ _ _ _ H) as (Hne & p & Hp & -> & ->).
    unfold first_profile. cbn [user_style_profiles].
    rewrite find_upsert_same by reflexivity.
    eexists. split; [reflexivity|].
    cbn. repeat split.
    eapply profile_patterns_size; [|exact Hp].
    rewrite <- (map_map WritingSample.content analyze_writing_sample).
    apply extracted_pattern_keys.
Qed.

Lemma profile_after_analysis_witness :
  (exists e, get_user_style_profile 7 two_users = inl e
             /\ status_code e = 404%nat)
  /\ exists response db' r,
      analyze_user_samples 7 two_users = inr (response, db')
      /\ get_user_style_profile 7 db' = inr r
      /\ ProfileResponse.sample_count r
         = Response.emotional_patterns (Response.profile response).
Proof.
  destruct (profile_after_analysis 7 two_users) as [H1 H2].
  split; [apply H1; reflexivity|].
  eexists. eexists.
  destruct (H2 _ _ eq_refl) as (r & Hr & _ & Hc & _).
  exists r. split; [reflexivity|]. split; [exact Hr|exact Hc].
Defined.

Lemma delete_first_length p rows sample :
  find p rows = Some sample ->
  S (List.length (delete_first p rows)) = List.length rows.
Proof.
  induction rows as [|r rows IH]; cbn [find delete_first]; [discriminate|].
  destruct (p r); [reflexivity|]. intros H. cbn [List.length].
  now rewrite IH.
Qed.

Lemma delete_first_filter p q rows sample :
  find p rows = Some sample ->
  (forall s, p s = true -> q s = true) ->
  S (List.length (List.filter q (delete_first p rows)))
  = List.length (List.filter q rows).
Proof.
  intros Hfind Hpq.
  induction rows as [|r rows IH]; cbn [find delete_first] in *;
    [discriminate|].
  cbn [List.filter]. destruct (p r) eqn:Hp.
  - now rewrite (Hpq r Hp).
  - cbn [List.filter]. destruct (q r); cbn [List.length];
      now rewrite IH.
Qed.

Lemma delete_first_other p q rows :
  (forall s, p s = true -> q s = false) ->
  List.filter q (delete_first p rows) = List.filter q rows.
Proof.
  intros Hpq. induction rows as [|r rows IH]; [reflexivity|].
  cbn [delete_first List.filter]. destruct (p r) eqn:Hp.
  - now rewrite (Hpq r Hp).
  - cbn [List.filter]. now rewrite IH.
Qed.

Lemma find_none_Forall {A} (p : A -> bool) rows :
  Forall (fun s => p s = false) rows -> find p rows = None.
Proof.
  induction 1 as [|r rows Hr _ IH]; [reflexivity|].
  cbn [find]. now rewrite Hr.
Qed.

(** X27.  [DELETE /sample/{sample_id}] answers 404 unless the user owns a
    sample with this id, so nobody deletes the sample of another user.
    A deletion removes exactly one sample of the user, leaves the samples
    of the other users alone, and does not touch the stored style
    profiles: the profile of the user still describes the deleted
    sample. *)
Theorem delete_removes_own_sample :
  forall sample_id user db,
    (Forall (fun s => WritingSample.id s = sample_id ->
                      WritingSample.user_id s <> user)
            (writing_samples db) ->
     exists e, delete_writing_sample sample_id user db = inl e
               /\ status_code e = 404%nat)
    /\ forall ok message db',
        delete_writing_sample sample_id user db = inr (ok, message, db') ->
        S (List.length (writing_samples db'))
        = List.length (writing_samples db)
        /\ S (List.length (get_user_samples user db'))
           = List.length (get_user_samples user db)
        /\ (forall other, other <> user ->
                          get_user_samples other db' = get_user_samples other db)
        /\ user_style_profiles db' = user_style_profiles db
        /\ get_user_style_profile user db' = get_user_style_profile user db.
Proof.
  intros sample_id user db. unfold delete_writing_sample. split.
  - intros Hnone. rewrite find_none_Forall.
    + eexists. split; reflexivity.
    + eapply List.Forall_impl; [|exact Hnone].
      intros s Hs. cbv beta in Hs. unfold is_sample.
      destruct (Nat.eqb_spec (WritingSample.id s) sample_id) as [E|E];
        [|reflexivity].
      cbn [andb]. apply Nat.eqb_neq. now apply Hs.
  - intros ok message db' H.
    destruct (find (is_sample sample_id user) (writing_samples db))
      as [sample|] eqn:Hfind; [|discriminate].
    injection H as <- <- <-. cbn [writing_samples user_style_profiles].
    split; [eapply delete_first_length, Hfind|].
    split; [|split; [|split; reflexivity]].
    + unfold get_user_samples, user_samples. cbn [writing_samples].
      eapply delete_first_filter; [exact Hfind|].
      intros s Hs. unfold is_sample in Hs. now apply andb_prop in Hs as [_ Hs].
    + intros other Hother.
      unfold get_user_samples, user_samples. cbn [writing_samples].
      apply delete_first_other.
      intros s Hs. unfold is_sample in Hs. apply andb_prop in Hs as [_ Hs].
      apply Nat.eqb_eq in Hs. apply Nat.eqb_neq. congruence.
Qed.

Lemma delete_removes_own_sample_witness :
  (exists e, delete_writing_sample 2 7 two_users = inl e
             /\ status_code e = 404%nat)
  /\ exists ok message db',
      delete_writing_sample 1 7 two_users = inr (ok, message, db')
      /\ S (List.length (writing_samples db'))
         = List.length (writing_samples two_users).
Proof.
  split.
  - apply (delete_removes_own_sample 2 7 two_users).
    repeat constructor; cbn; intros; congruence.
  - destruct (delete_removes_own_sample 1 7 two_users) as [_ H].
    eexists. eexists. eexists.
    destruct (H _ _ _ eq_refl) as (Hlen & _).
    split; [reflexivity|exact Hlen].
Defined.

End Requests.

(** ** The style prompt *)

Section StylePrompt.
Import Py Prompt.

Lemma startswith_app sub s b :
  startswith sub s = true -> startswith sub (s ++ b) = true.
Proof.
  revert s. induction sub as [|a sub IH]; intros s H; [reflexivity|].
  destruct s as [|c s]; [discriminate|].
  rewrite append_cons. cbn [startswith] in *.
  apply andb_prop in H as [Ha Hs]. now rewrite Ha, (IH s Hs).
Qed.

Lemma startswith_refl s b : startswith s (s ++ b) = true.
Proof.
  induction s as [|c s IH]; [reflexivity|].
  rewrite append_cons. cbn [startswith]. now rewrite Ascii.eqb_refl.
Qed.

Lemma contains_prefix sub b : contains sub (sub ++ b) = true.
Proof. apply contains_startswith, startswith_refl. Qed.

Lemma contains_app_r sub a t :
  contains sub t = true -> contains sub (a ++ t) = true.
Proof.
  intros H. induction a as [|c a IH]; [exact H|].
  rewrite append_cons. apply contains_cons, IH.
Qed.

Lemma contains_app_l sub s b :
  contains sub s = true -> contains sub (s ++ b) = true.
Proof.
  induction s as [|c s IH]; intros H.
  - destruct sub; [now destruct b|discriminate].
  - cbn [contains] in H. fold (contains sub s) in H.
    apply orb_prop in H as [H|H].
    + apply contains_startswith, startswith_app, H.
    + rewrite append_cons. apply contains_cons, IH, H.
Qed.

(** X28.  The prompt of [_build_style_prompt] holds the request of the
    user word for word.  Of the profile it names at most five preferred
    words and, of at most two emotions, the first example each; emotional
    patterns are read only in the contexts personal, emotional and
    creative.  A profile without punctuation style always gets the advice
    to avoid exclamation marks. *)
Theorem style_prompt_contents :
  forall user_prompt style_profile context,
    contains ("User request: " ++ user_prompt)
             (_build_style_prompt user_prompt style_profile context) = true
    /\ _build_style_prompt user_prompt (named_part style_profile) context
       = _build_style_prompt user_prompt style_profile context
    /\ (existsb (String.eqb context) emotional_contexts = false ->
        _build_style_prompt user_prompt (without_patterns style_profile)
                            context
        = _build_style_prompt user_prompt style_profile context)
    /\ (punctuation_style style_profile = None ->
        contains "Avoid excessive exclamation marks, keep tone measured. "
                 (_build_style_prompt user_prompt style_profile context)
        = true).
Proof.
  intros user_prompt style_profile context. split; [|split; [|split]].
  - unfold _build_style_prompt. cbv zeta.
    match goal with
    | |- contains _ (nl ++ "        " ++ ?sd ++ nl ++ nl ++ _) = true =>
        generalize sd; intros style_description
    end.
    apply (contains_app_r _ nl), (contains_app_r _ "        "),
      (contains_app_r _ style_description), (contains_app_r _ nl),
      (contains_app_r _ nl), (contains_app_r _ "        ").
    exact (contains_prefix ("User request: " ++ user_prompt)
             (nl ++ nl
              ++ "        Please respond in the writing style described above, making it sound natural and authentic:"
              ++ nl ++ "        ")).
  - destruct style_profile as [f v a patterns words p].
    unfold _build_style_prompt, named_part, add_examples. cbv zeta.
    cbn [formality_preference vocabulary_level avg_sentence_length
         emotional_expression_patterns preferred_words punctuation_style].
    destruct (existsb (String.eqb context) emotional_contexts);
      destruct words as [[|w1 [|w2 [|w3 [|w4 [|w5 words]]]]]|];
      destruct patterns as [[|[e1 [|x1 l1]] [|[e2 [|x2 l2]] rest]]|];
      reflexivity.
  - intros Hcontext. unfold _build_style_prompt, without_patterns. cbv zeta.
    cbn [formality_preference vocabulary_level avg_sentence_length
         emotional_expression_patterns preferred_words punctuation_style].
    now rewrite Hcontext.
  - intros Hpunct. unfold _build_style_prompt. cbv zeta.
    rewrite Hpunct. cbn [default]. rewrite lookup_empty. cbn [default].
    change (Qltb 5 0) with false. change (Qltb 0 1) with true. cbv iota.
    match goal with
    | |- contains _ (nl ++ "        " ++ (?sd ++ _) ++ _) = true =>
        generalize sd; intros style_description
    end.
    apply (contains_app_r _ nl), (contains_app_r _ "        ").
    apply contains_app_l, contains_app_r.
    rewrite <- (append_nil_r "Avoid excessive exclamation marks, keep tone measured. ") at 2.
    apply contains_prefix.
Qed.

Lemma style_prompt_contents_witness :
  _build_style_prompt "Write a toast"
    (without_patterns
       {| formality_preference := Some "casual";
          vocabulary_level := Some "basic";
          avg_sentence_length := Some 9.5%Q;
          emotional_expression_patterns := Some [("joy", ["so happy"])];
          preferred_words := Some [("toast", 3%nat)];
          punctuation_style := None |})
    "business"
  = _build_style_prompt "Write a toast"
      {| formality_preference := Some "casual";
         vocabulary_level := Some "basic";
         avg_sentence_length := Some 9.5%Q;
         emotional_expression_patterns := Some [("joy", ["so happy"])];
         preferred_words := Some [("toast", 3%nat)];
         punctuation_style := None |}
      "business"
  /\ contains "Avoid excessive exclamation marks, keep tone measured. "
       (_build_style_prompt "Write a toast"
          {| formality_preference := Some "casual";
             vocabulary_level := Some "basic";
             avg_sentence_length := Some 9.5%Q;
             emotional_expression_patterns := Some [("joy", ["so happy"])];
             preferred_words := Some [("toast", 3%nat)];
             punctuation_style := None |}
          "business")
     = true.
Proof.
  destruct (style_prompt_contents "Write a toast"
              {| formality_preference := Some "casual";
                 vocabulary_level := Some "basic";
                 avg_sentence_length := Some 9.5%Q;
                 emotional_expression_patterns := Some [("joy", ["so happy"])];
                 preferred_words := Some [("toast", 3%nat)];
                 punctuation_style := None |}
              "business") as (_ & _ & H3 & H4).
  split; [apply H3|apply H4]; reflexivity.
Defined.

End StylePrompt.

(** ** The text without the completion service *)

Section Fallback.
Import Py OllamaClient.

(** X29.  [_fallback_generation] reads the prompt only for its key words
    and regardless of case: a prompt that mentions email gets the email
    text whatever else it mentions, then essay or write about decide,
    then story or creative, and any other prompt gets the general advice.
    The text is one of the four fixed ones and never empty. *)
Theorem fallback_generation_templates :
  forall prompt,
    _fallback_generation (lower prompt) = _fallback_generation prompt
    /\ (contains "email" (lower prompt) = true ->
        _fallback_generation prompt = email_template)
    /\ (contains "email" (lower prompt) = false ->
        contains "essay" (lower prompt) = true
        \/ contains "write about" (lower prompt) = true ->
        _fallback_generation prompt = essay_template)
    /\ (hits ["email"; "essay"; "write about"; "story"; "creative"]
             (lower prompt) = 0%nat ->
        _fallback_generation prompt = generic_template)
    /\ In (_fallback_generation prompt)
          [email_template; essay_template; story_template; generic_template]
    /\ _fallback_generation prompt <> "".
Proof.
  intros prompt. unfold _fallback_generation. cbv zeta.
  split; [now rewrite lower_idem|].
  split; [now intros ->|].
  split.
  { intros -> [->| ->]; [reflexivity|]. now rewrite orb_true_r. }
  split.
  { unfold hits. cbn [List.filter].
    destruct (contains "email" (lower prompt));
      destruct (contains "essay" (lower prompt));
      destruct (contains "write about" (lower prompt));
      destruct (contains "story" (lower prompt));
      destruct (contains "creative" (lower prompt));
      cbn [List.length orb]; intros H; try discriminate H; reflexivity. }
  destruct (contains "email" (lower prompt));
    [|destruct (contains "essay" (lower prompt)
                || contains "write about" (lower prompt));
      [|destruct (contains "story" (lower prompt)
                  || contains "creative" (lower prompt))]];
    (split; [cbn [In]; tauto|discriminate]).
Qed.

Lemma fallback_generation_templates_witness :
  _fallback_generation "A story for an EMAIL" = email_template
  /\ _fallback_generation "An Essay, or a story" = essay_template
  /\ _fallback_generation "Say hello" = generic_template.
Proof.
  split; [|split].
  - apply (fallback_generation_templates "A story for an EMAIL"). reflexivity.
  - apply (fallback_generation_templates "An Essay, or a story");
      [reflexivity|left; reflexivity].
  - apply (fallback_generation_templates "Say hello"). reflexivity.
Defined.

End Fallback.

(** ** Generation statistics *)

Section Statistics.
Import Py Generation.

Lemma count_where_le user p rows :
  (count_where user p rows <= count_where user (fun _ => true) rows)%nat.
Proof.
  unfold count_where. apply filter_length_mono.
  intros c H. apply andb_prop in H as [H _]. now rewrite H.
Qed.

Lemma feedback_counts user rows :
  (count_where user (has_feedback "accepted") rows
   + count_where user (has_feedback "modified") rows
   + count_where user (has_feedback "rejected") rows
   <= count_where user (fun _ => true) rows)%nat.
Proof.
  unfold count_where, has_feedback.
  induction rows as [|c rows IH]; [reflexivity|].
  cbn [List.filter].
  destruct (GeneratedContent.user_id c =? user)%nat; cbn [andb];
    [|exact IH].
  destruct (GeneratedContent.user_feedback c) as [f|]; cbn [List.length];
    [|lia].
  destruct (String.eqb_spec f "accepted") as [->|Ha].
  { change (String.eqb "accepted" "modified") with false.
    change (String.eqb "accepted" "rejected") with false.
    cbn [List.length]. lia. }
  destruct (String.eqb_spec f "modified") as [->|Hm].
  { change (String.eqb "modified" "rejected") with false.
    cbn [List.length]. lia. }
  destruct (String.eqb f "rejected"); cbn [List.length]; lia.
Qed.

Lemma rate_range (a n : nat) :
  (a <= n)%nat -> (0 <= ratio a (Nat.max n 1) * 100 <= 100)%Q.
Proof.
  intros H.
  destruct (ratio_range a (Nat.max n 1)) as [H0 H1]; [lia|lia|].
  split.
  - apply Qmult_le_0_compat; [exact H0|discriminate].
  - apply Qle_trans with (1 * 100)%Q; [|discriminate].
    apply Qmult_le_compat_r; [exact H1|discriminate].
Qed.

(** X30.  In the statistics of [GET /api/generate/stats] the accepted,
    modified and rejected generations together are at most all
    generations of the user.  The two rates are percentages between 0
    and 100; both are 0 for a user without generations, and when every
    generation of the user is accepted the acceptance rate is 100 and the
    modification rate 0. *)
Theorem user_stats_rates :
  forall user rows,
    let stats := get_user_stats user rows in
    (accepted stats + modified stats + rejected stats
     <= total_generations stats)%nat
    /\ (0 <= acceptance_rate stats <= 100)%Q
    /\ (0 <= modification_rate stats <= 100)%Q
    /\ (total_generations stats = 0%nat ->
        (acceptance_rate stats == 0)%Q /\ (modification_rate stats == 0)%Q)
    /\ ((0 < total_generations stats)%nat ->
        accepted stats = total_generations stats ->
        (acceptance_rate stats == 100)%Q /\ (modification_rate stats == 0)%Q).
Proof.
  intros user rows stats. subst stats. unfold get_user_stats. cbv zeta.
  cbn [accepted modified rejected total_generations acceptance_rate
       modification_rate].
  pose proof (feedback_counts user rows) as Hsum.
  pose proof (count_where_le user (has_feedback "accepted") rows) as Ha.
  pose proof (count_where_le user (has_feedback "modified") rows) as Hm.
  set (total := count_where user (fun _ => true) rows) in *.
  set (a := count_where user (has_feedback "accepted") rows) in *.
  set (m := count_where user (has_feedback "modified") rows) in *.
  split; [exact Hsum|].
  split; [apply rate_range, Ha|].
  split; [apply rate_range, Hm|].
  split.
  - intros Hzero.
    replace a with 0%nat by lia. replace m with 0%nat by lia.
    rewrite ratio_zero. split; reflexivity.
  - intros Hpos Hall.
    replace m with 0%nat by lia. rewrite Hall.
    replace (Nat.max total 1) with total by lia.
    rewrite ratio_zero, ratio_self by exact Hpos. split; reflexivity.
Qed.

Lemma user_stats_rates_witness :
  ((acceptance_rate (get_user_stats 7 []) == 0)%Q
   /\ (modification_rate (get_user_stats 7 []) == 0)%Q)
  /\ (acceptance_rate
        (get_user_stats 7
           [ {| GeneratedContent.id := 1;
                GeneratedContent.user_id := 7;
                GeneratedContent.prompt := "A toast";
                GeneratedContent.generated_text := "To all of you.";
                GeneratedContent.user_feedback := Some "accepted";
                GeneratedContent.user_modifications := None |} ])
      == 100)%Q.
Proof.
  split.
  - apply (user_stats_rates 7 []). reflexivity.
  - apply (user_stats_rates 7
             [ {| GeneratedContent.id := 1;
                  GeneratedContent.user_id := 7;
                  GeneratedContent.prompt := "A toast";
                  GeneratedContent.generated_text := "To all of you.";
                  GeneratedContent.user_feedback := Some "accepted";
                  GeneratedContent.user_modifications := None |} ]).
    + vm_compute. lia.
    + reflexivity.
Defined.

End Statistics.
